(** * Halagel manufacturing dashboard: entry editor, aggregator and exporter

    A shallow embedding of the data-shaping code of the production
    dashboard, followed by the properties of it that the design document
    states.

    - [InputModal.handleSubmit]  src/components/modals/InputModal.tsx
    - [InputPlan.handleSubmit]   src/components/pages/UserManagement.tsx
      (second document of that file)
    - [Dashboard.dashboardData], [Dashboard.dailyGroups],
      [Dashboard.downloadCSV]    src/components/pages/Dashboard.tsx
    - [UserManagement.handleDelete], [UserManagement.handleAddUser]
                                 src/components/pages/UserManagement.tsx

    Conventions of the embedding.

    - A JavaScript string is a [string]; one character stands for one code
      unit of the ASCII range.  The arrow of the audit lines is written as
      its UTF-8 bytes.  White space and letters outside ASCII are not
      modelled: [trim] and [toLowerCase] are exact on ASCII text.
    - A JavaScript number that holds a quantity is a [jsnum]: an integer of
      the safe range (below 2^53 in size), or NaN (which [parseInt]
      produces).  Fractions and infinities do not arise from [parseInt] and
      integer addition; beyond the safe range, where JavaScript rounds and
      from 1e21 prints an exponent, the integers of the model are not
      those of the host.
    - The efficiency ratio is a quotient, so it is computed where
      JavaScript computes it: in binary64 floating point, rounding to
      nearest even after the division and again after the multiplication
      (Stdlib's [SpecFloat] with precision 53 and emax 1024).
    - React state is passed explicitly: a handler takes the state it closes
      over and returns the store it leaves together with the signals it
      sends. *)

From Stdlib Require Import String Ascii List ZArith Bool Lia.
From Stdlib Require Import Sorted Permutation DecimalString DecimalPos.
From Stdlib Require SpecFloat.
Import ListNotations.

Local Open Scope string_scope.
Local Open Scope Z_scope.

(* ================================================================== *)
(** * The host language *)

Module JS.

(** ** Numbers *)

Inductive jsnum : Type :=
| Num (z : Z)
| NaN.

(** [x || 0] on a number: zero and NaN are falsy. *)
Definition or0 (x : jsnum) : Z :=
  match x with
  | Num z => z
  | NaN => 0
  end.

(** [x || 0] on an optional number ([undefined] is falsy as well). *)
Definition optOr0 (x : option jsnum) : Z :=
  match x with
  | Some n => or0 n
  | None => 0
  end.

(** [a !== b] on numbers: NaN differs from everything, itself included. *)
Definition numNeq (a b : jsnum) : bool :=
  match a, b with
  | Num x, Num y => negb (x =? y)
  | _, _ => true
  end.

(** [a > 0]. *)
Definition numGt0 (a : jsnum) : bool :=
  match a with
  | Num x => 0 <? x
  | NaN => false
  end.

(** Number to string, as a template literal and [Array.join] do it:
    plain decimal digits, which is what JavaScript prints for every
    integer of the safe range. *)
Definition ZToString (z : Z) : string :=
  NilZero.string_of_int (Z.to_int z).

Definition numToString (a : jsnum) : string :=
  match a with
  | Num z => ZToString z
  | NaN => "NaN"
  end.

(** ** Doubles *)

(** A JavaScript number in general: a binary64 floating-point number. *)
Definition double : Type := SpecFloat.spec_float.

(** The double of an integer quantity. *)
Definition ofInt (z : Z) : double := SpecFloat.binary_normalize 53 1024 z 0 false.

(** [a / b] on doubles. *)
Definition fdiv (a b : double) : double := SpecFloat.SFdiv 53 1024 a b.

(** [a * b] on doubles. *)
Definition fmul (a b : double) : double := SpecFloat.SFmul 53 1024 a b.

(** ** Strings *)

(** The ASCII members of WhiteSpace and LineTerminator, which are the
    white space [trim] strips from ASCII text. *)
Definition isWhiteSpace (c : ascii) : bool :=
  let n := N_of_ascii c in
  (((9 <=? n) && (n <=? 13)) || (n =? 32))%N.

Fixpoint trimStart (s : string) : string :=
  match s with
  | EmptyString => EmptyString
  | String c r => if isWhiteSpace c then trimStart r else s
  end.

Fixpoint trimEnd (s : string) : string :=
  match s with
  | EmptyString => EmptyString
  | String c r =>
      match trimEnd r with
      | EmptyString => if isWhiteSpace c then EmptyString else String c EmptyString
      | r' => String c r'
      end
  end.

(** [s.trim()]. *)
Definition trim (s : string) : string := trimEnd (trimStart s).

(** [s.substring(0, n)]. *)
Fixpoint substring0 (n : nat) (s : string) : string :=
  match n, s with
  | S k, String c r => String c (substring0 k r)
  | _, _ => EmptyString
  end.

(** [s.startsWith(p)]. *)
Fixpoint startsWith (s p : string) : bool :=
  match p, s with
  | EmptyString, _ => true
  | String a p', String b s' => Ascii.eqb a b && startsWith s' p'
  | String _ _, EmptyString => false
  end.

(** [s.split(' ')[0]]: what precedes the first space, all of [s] when it
    has none. *)
Fixpoint splitSpaceHead (s : string) : string :=
  match s with
  | EmptyString => EmptyString
  | String c r => if Ascii.eqb c " " then EmptyString else String c (splitSpaceHead r)
  end.

Definition lowerChar (c : ascii) : ascii :=
  let n := N_of_ascii c in
  if ((65 <=? n) && (n <=? 90))%N then ascii_of_N (n + 32) else c.

(** [s.toLowerCase()] on ASCII text: the letters A to Z are folded. *)
Fixpoint toLowerCase (s : string) : string :=
  match s with
  | EmptyString => EmptyString
  | String c r => String (lowerChar c) (toLowerCase r)
  end.

Definition upperChar (c : ascii) : ascii :=
  let n := N_of_ascii c in
  if ((97 <=? n) && (n <=? 122))%N then ascii_of_N (n - 32) else c.

(** [s.toUpperCase()] on ASCII text. *)
Fixpoint toUpperCase (s : string) : string :=
  match s with
  | EmptyString => EmptyString
  | String c r => String (upperChar c) (toUpperCase r)
  end.

(** [s || d] on a string: the empty string is falsy. *)
Definition strOr (s d : string) : string :=
  match s with
  | EmptyString => d
  | _ => s
  end.

(** Truthiness of a string. *)
Definition truthy (s : string) : bool :=
  match s with
  | EmptyString => false
  | _ => true
  end.

(** [xs.join(sep)]. *)
Definition join (sep : string) (xs : list string) : string :=
  String.concat sep xs.

(** ** parseInt *)

Definition digitVal (radix : Z) (c : ascii) : option Z :=
  let n := Z.of_N (N_of_ascii c) in
  let v :=
    if (48 <=? n) && (n <=? 57) then Some (n - 48)
    else if (97 <=? n) && (n <=? 122) then Some (n - 87)
    else if (65 <=? n) && (n <=? 90) then Some (n - 55)
    else None in
  match v with
  | Some d => if d <? radix then Some d else None
  | None => None
  end.

(** The longest prefix of digits, read in [radix]; [None] when the
    prefix is empty. *)
Fixpoint digits (radix : Z) (acc : option Z) (s : string) : option Z :=
  match s with
  | EmptyString => acc
  | String c r =>
      match digitVal radix c with
      | Some d =>
          digits radix (Some (match acc with Some a => a * radix + d | None => d end)) r
      | None => acc
      end
  end.

Definition unsignedInt (s : string) : option Z :=
  match s with
  | String "0" (String "x" r) => digits 16 None r
  | String "0" (String "X" r) => digits 16 None r
  | _ => digits 10 None s
  end.

(** [parseInt(s)] with no radix argument; the integer read is the
    number JavaScript returns as long as it is of the safe range. *)
Definition parseInt (s : string) : jsnum :=
  let t := trimStart s in
  let '(sign, body) :=
    match t with
    | String "-" r => (-1, r)
    | String "+" r => (1, r)
    | _ => (1, t)
    end in
  match unsignedInt body with
  | Some v => Num (sign * v)
  | None => NaN
  end.

(** ** Array.prototype.sort *)

Section Sort.
Context {A : Type}.
(** The comparator: negative when its first argument sorts first. *)
Variable cmp : A -> A -> Z.

Fixpoint insertSorted (x : A) (l : list A) : list A :=
  match l with
  | [] => [x]
  | y :: r => if cmp x y <=? 0 then x :: l else y :: insertSorted x r
  end.

(** A stable sort: of two elements the comparator calls equal, the one
    that came first stays first. *)
Definition sort (l : list A) : list A :=
  fold_right insertSorted [] l.
End Sort.

(** ** Set and Map, in insertion order *)

(** [set.add(x)]. *)
Definition setAdd (s : list string) (x : string) : list string :=
  if existsb (String.eqb x) s then s else (s ++ [x])%list.

Section Map.
Context {V : Type}.

Definition mapHas (m : list (string * V)) (k : string) : bool :=
  existsb (fun kv => String.eqb (fst kv) k) m.

Definition mapGet (m : list (string * V)) (k : string) : option V :=
  option_map snd (find (fun kv => String.eqb (fst kv) k) m).

(** [map.set(k, v)]: an existing key keeps its place. *)
Fixpoint mapSet (m : list (string * V)) (k : string) (v : V) : list (string * V) :=
  match m with
  | [] => [(k, v)]
  | (k', v') :: r =>
      if String.eqb k' k then (k, v) :: r else (k', v') :: mapSet r k v
  end.

(** [Array.from(map.values())]. *)
Definition mapValues (m : list (string * V)) : list V := map snd m.
End Map.

End JS.

Import JS.

(* ================================================================== *)
(** * The data model (types.ts, as the components use it) *)

(** Categories, process types and units are string enumerations of
    constants.ts; the components compare them with [===]. *)
Definition Category := string.
Definition ProcessType := string.
Definition UnitType := string.

Record ProductionEntry : Type := mkEntry {
  id : string;
  date : string;
  category : Category;
  process : ProcessType;
  productName : string;
  e_unit : UnitType;
  planQuantity : jsnum;
  actualQuantity : jsnum;
  batchNo : option string;
  manpower : option jsnum;
  lastUpdatedBy : string;
  updatedAt : string
}.

Record OffDay : Type := mkOffDay {
  od_date : string;
  description : string
}.

Inductive Role : Type := admin | manager | planner | operator.

Record User : Type := mkUser {
  u_id : string;
  name : string;
  username : string;
  email : string;
  role : Role;
  password : string
}.

Inductive Action : Type :=
| EDIT_RECORD | CREATE_PLAN | RECORD_ACTUAL | DELETE_RECORD | EXPORT_REPORT
| ADD_USER | DELETE_USER.

Record LogEntry : Type := mkLog {
  userId : string;
  userName : string;
  action : Action;
  details : string
}.

Inductive Severity : Type := success | info | error.

(** The detail of an ['app-notification'] event. *)
Record Notification : Type := mkNote {
  message : string;
  type : Severity
}.

Definition role_eqb (a b : Role) : bool :=
  match a, b with
  | admin, admin | manager, manager | planner, planner | operator, operator => true
  | _, _ => false
  end.

(* ================================================================== *)
(** * The record store *)

Module StorageService.

(** Modelled from the spec: services/storageService.ts is not part of the
    sources.  The store is an opaque key-value store of collections with
    [get(collection)] and [put(collection, list)]; the audit log is
    append-only. *)
Record Store : Type := mkStore {
  production : list ProductionEntry;
  logs : list LogEntry;
  users : list User
}.

Definition getProductionData (s : Store) : list ProductionEntry := production s.

Definition saveProductionData (d : list ProductionEntry) (s : Store) : Store :=
  mkStore d (logs s) (users s).

Definition addLog (l : LogEntry) (s : Store) : Store :=
  mkStore (production s) (logs s ++ [l])%list (users s).

Definition getUsers (s : Store) : list User := users s.

Definition saveUsers (us : list User) (s : Store) : Store :=
  mkStore (production s) (logs s) us.

End StorageService.

Import StorageService.

(* ================================================================== *)
(** * InputModal.tsx *)

Module InputModal.

Inductive Tab : Type := Plan | Actual.

(** The state and props the submit handler closes over. *)
Record Form : Type := mkForm {
  editEntry : option ProductionEntry;
  tab : Tab;
  f_date : string;
  f_category : Category;
  f_process : ProcessType;
  f_productName : string;
  f_quantity : string;
  f_unit : UnitType;
  f_manpower : string;
  f_batchNo : string;
  selectedPlanId : string
}.

(** What the handler reads from outside the form: the signed-in user,
    [Date.now().toString()] and [getDbTimestamp()]. *)
Record Env : Type := mkEnv {
  user : User;
  now : string;
  dbTimestamp : string
}.

(** What a run of the handler leaves behind. *)
Record Outcome : Type := mkOutcome {
  store : Store;
  notes : list Notification;
  refreshed : bool;
  closed : bool
}.

(** [(date || '').trim().split(' ')[0]] *)
Definition normalizeDate (d : string) : string :=
  splitSpaceHead (trim d).

(** The [currentOffDay] memo. *)
Definition currentOffDay (offDays : list OffDay) (d : string) : option OffDay :=
  let inputDate := normalizeDate d in
  find (fun od => String.eqb (normalizeDate (od_date od)) inputDate) offDays.

(** The candidate list of the Actual tab (the [plans] state). *)
Definition plans (all : list ProductionEntry) (d : string) : list ProductionEntry :=
  let normalizedInputDate := normalizeDate d in
  filter (fun p => String.eqb (normalizeDate (date p)) normalizedInputDate) all.

(** The form as the effect on [editEntry] fills it when the modal opens
    on an entry. *)
Definition openFor (e : ProductionEntry) : Form :=
  let isActualMode := numGt0 (actualQuantity e) in
  {| editEntry := Some e;
     tab := if isActualMode then Actual else Plan;
     f_date := normalizeDate (date e);
     f_category := category e;
     f_process := process e;
     f_productName := productName e;
     f_quantity :=
       if isActualMode then ZToString (or0 (actualQuantity e))
       else ZToString (or0 (planQuantity e));
     f_unit := strOr (e_unit e) "KG";
     f_manpower :=
       strOr (match manpower e with Some n => numToString n | None => "" end) "0";
     f_batchNo := match batchNo e with Some b => b | None => "" end;
     selectedPlanId := "" |}.

(** The [changes] list of the edit branch. *)
Definition changes (e : ProductionEntry) (f : Form) (normalizedDate : string) : list string :=
  let newQty := parseInt (strOr (f_quantity f) "0") in
  let newManpower := parseInt (strOr (f_manpower f) "0") in
  let push (c : bool) (line : string) (acc : list string) :=
    if c then (acc ++ [line])%list else acc in
  let acc := [] in
  let acc := push (negb (String.eqb (date e) normalizedDate))
               ("Date (" ++ date e ++ " → " ++ normalizedDate ++ ")") acc in
  let acc := push (negb (String.eqb (productName e) (f_productName f)))
               ("Product (" ++ productName e ++ " → " ++ f_productName f ++ ")") acc in
  let acc := push (negb (String.eqb (category e) (f_category f)))
               ("Category (" ++ category e ++ " → " ++ f_category f ++ ")") acc in
  let acc := push (negb (String.eqb (process e) (f_process f)))
               ("Process (" ++ process e ++ " → " ++ f_process f ++ ")") acc in
  let acc := push (negb (String.eqb (e_unit e) (f_unit f)))
               ("Unit (" ++ e_unit e ++ " → " ++ f_unit f ++ ")") acc in
  let acc :=
    match tab f with
    | Plan =>
        push (numNeq (planQuantity e) newQty)
          ("Plan Qty (" ++ numToString (planQuantity e) ++ " → " ++ numToString newQty ++ ")") acc
    | Actual =>
        push (numNeq (actualQuantity e) newQty)
          ("Actual Qty (" ++ numToString (actualQuantity e) ++ " → " ++ numToString newQty ++ ")") acc
    end in
  let acc := push (numNeq (Num (optOr0 (manpower e))) newManpower)
               ("Manpower (" ++ ZToString (optOr0 (manpower e)) ++ " → "
                  ++ numToString newManpower ++ ")") acc in
  let acc := push (negb (String.eqb (match batchNo e with Some b => b | None => "" end) (f_batchNo f)))
               ("Batch (" ++ strOr (match batchNo e with Some b => b | None => "" end) "None"
                  ++ " → " ++ strOr (f_batchNo f) "None" ++ ")") acc in
  acc.

(** The record the edit branch writes in place of [p]. *)
Definition editedRecord (env : Env) (f : Form) (normalizedDate : string)
    (p : ProductionEntry) : ProductionEntry :=
  let newQty := parseInt (strOr (f_quantity f) "0") in
  let newManpower := parseInt (strOr (f_manpower f) "0") in
  {| id := id p;
     date := normalizedDate;
     category := f_category f;
     process := f_process f;
     productName := f_productName f;
     e_unit := f_unit f;
     planQuantity := match tab f with Plan => newQty | Actual => planQuantity p end;
     actualQuantity := match tab f with Actual => newQty | Plan => actualQuantity p end;
     batchNo := Some (f_batchNo f);
     manpower := Some newManpower;
     lastUpdatedBy := u_id (user env);
     updatedAt := dbTimestamp env |}.

(** The record the Actual tab writes in place of the selected plan. *)
Definition recordedActual (env : Env) (f : Form) (p : ProductionEntry) : ProductionEntry :=
  {| id := id p;
     date := date p;
     category := category p;
     process := process p;
     productName := productName p;
     e_unit := e_unit p;
     planQuantity := planQuantity p;
     actualQuantity := parseInt (strOr (f_quantity f) "0");
     batchNo := Some (f_batchNo f);
     manpower := Some (parseInt (strOr (f_manpower f) "0"));
     lastUpdatedBy := u_id (user env);
     updatedAt := dbTimestamp env |}.

(** The [newEntry] of the Plan tab. *)
Definition plannedRecord (env : Env) (f : Form) : ProductionEntry :=
  {| id := now env;
     date := normalizeDate (f_date f);
     category := f_category f;
     process := f_process f;
     productName := f_productName f;
     e_unit := f_unit f;
     planQuantity := parseInt (strOr (f_quantity f) "0");
     actualQuantity := Num 0;
     batchNo := None;
     manpower := None;
     lastUpdatedBy := u_id (user env);
     updatedAt := dbTimestamp env |}.

(** The body of the [try] block: [inl msg] is [throw new Error(msg)]. *)
Definition tryBody (env : Env) (f : Form) (normalizedDate : string) (s : Store)
    : string + Store :=
  let currentData := getProductionData s in
  match editEntry f with
  | Some e =>
      let chg := changes e f normalizedDate in
      let updated :=
        map (fun p => if String.eqb (id p) (id e)
                      then editedRecord env f normalizedDate p else p) currentData in
      let s := saveProductionData updated s in
      let logDetails :=
        if (0 <? Z.of_nat (List.length chg))
        then "Edited " ++ f_productName f ++ " (" ++ process e ++ ") on " ++ date e
               ++ ": " ++ join ", " chg
        else "Updated record for " ++ f_productName f ++ " (" ++ process e ++ ") on "
               ++ date e ++ " (No values changed)" in
      inr (addLog (mkLog (u_id (user env)) (name (user env)) EDIT_RECORD logDetails) s)
  | None =>
      match tab f with
      | Plan =>
          let newEntry :=
            {| id := now env;
               date := normalizedDate;
               category := f_category f;
               process := f_process f;
               productName := f_productName f;
               e_unit := f_unit f;
               planQuantity := parseInt (strOr (f_quantity f) "0");
               actualQuantity := Num 0;
               batchNo := None;
               manpower := None;
               lastUpdatedBy := u_id (user env);
               updatedAt := dbTimestamp env |} in
          let s := saveProductionData (currentData ++ [newEntry])%list s in
          inr (addLog (mkLog (u_id (user env)) (name (user env)) CREATE_PLAN
                 ("Planned " ++ numToString (planQuantity newEntry) ++ " " ++ e_unit newEntry
                    ++ " for " ++ productName newEntry ++ " (" ++ normalizedDate ++ ")")) s)
      | Actual =>
          if negb (truthy (selectedPlanId f)) then inl "Please select a plan"
          else
            let targetPlan :=
              find (fun p => String.eqb (id p) (selectedPlanId f)) currentData in
            let updated :=
              map (fun p => if String.eqb (id p) (selectedPlanId f)
                            then recordedActual env f p else p) currentData in
            let s := saveProductionData updated s in
            inr (addLog (mkLog (u_id (user env)) (name (user env)) RECORD_ACTUAL
                   ("Recorded actual output of " ++ f_quantity f ++ " "
                      ++ strOr (match targetPlan with Some t => e_unit t | None => "" end) "KG"
                      ++ " for "
                      ++ strOr (match targetPlan with Some t => productName t | None => "" end)
                           "product")) s)
      end
  end.

Definition handleSubmit (env : Env) (offDays : list OffDay) (f : Form) (s : Store)
    : Outcome :=
  let normalizedDate := normalizeDate (f_date f) in
  match editEntry f, currentOffDay offDays (f_date f) with
  | None, Some od =>
      mkOutcome s [mkNote ("ENTRY RESTRICTED: Today is " ++ description od) info] false false
  | _, _ =>
      match tryBody env f normalizedDate s with
      | inr s' =>
          mkOutcome s' [mkNote "PRODUCTION RECORD SYNCHRONIZED" success] true true
      | inl msg =>
          mkOutcome s [mkNote (strOr msg "Operation failed") info] false false
      end
  end.

End InputModal.

(* ================================================================== *)
(** * InputPlan (second document of UserManagement.tsx) *)

Module InputPlan.

Record FormData : Type := mkFormData {
  fd_date : string;
  fd_category : Category;
  fd_process : ProcessType;
  fd_productName : string;
  fd_quantity : string;
  fd_unit : UnitType
}.

Record Env : Type := mkEnv {
  user : User;
  now : string;
  isoNow : string
}.

(** The [msg] state of the page. *)
Record Msg : Type := mkMsg {
  msg_error : bool;
  text : string
}.

Record Outcome : Type := mkOutcome {
  store : Store;
  msg : Msg;
  notes : list Notification;
  refreshed : bool
}.

(** The [currentOffDay] memo of this page compares the dates as they
    are. *)
Definition currentOffDay (offDays : list OffDay) (fd : FormData) : option OffDay :=
  find (fun od => String.eqb (od_date od) (fd_date fd)) offDays.

Definition handleSubmit (env : Env) (offDays : list OffDay) (fd : FormData) (s : Store)
    : Outcome :=
  match currentOffDay offDays fd with
  | Some od =>
      mkOutcome s
        (mkMsg true ("Selected date is an Off Day: " ++ description od ++ ".")) [] false
  | None =>
      if negb (truthy (fd_productName fd)) || negb (truthy (fd_quantity fd)) then
        mkOutcome s (mkMsg true "Please fill all required fields.") [] false
      else
        let entries := getProductionData s in
        let newEntry :=
          {| id := now env;
             date := fd_date fd;
             category := fd_category fd;
             process := fd_process fd;
             productName := fd_productName fd;
             e_unit := fd_unit fd;
             planQuantity := parseInt (fd_quantity fd);
             actualQuantity := Num 0;
             batchNo := None;
             manpower := None;
             lastUpdatedBy := u_id (user env);
             updatedAt := isoNow env |} in
        let s := saveProductionData (entries ++ [newEntry])%list s in
        let s :=
          addLog (mkLog (u_id (user env)) (name (user env)) CREATE_PLAN
                    ("Planned " ++ numToString (planQuantity newEntry) ++ " "
                       ++ e_unit newEntry ++ " for " ++ productName newEntry
                       ++ " on " ++ date newEntry)) s in
        mkOutcome s (mkMsg false "Plan entry added successfully.")
          [mkNote "PRODUCTION PLAN SUBMITTED" success] true
  end.

End InputPlan.

(* ================================================================== *)
(** * Dashboard.tsx *)

Module Dashboard.

Record ProcStat : Type := mkProcStat {
  ps_process : string;
  ps_Plan : Z;
  ps_Actual : Z
}.

Record MonthStats : Type := mkMonthStats {
  plan : Z;
  actual : Z;
  efficiency : double
}.

Record DashboardData : Type := mkDashboardData {
  filteredData : list ProductionEntry;
  selectedMonthStats : MonthStats;
  chartData : list ProcStat
}.

Record DayGroup : Type := mkDayGroup {
  g_date : string;
  totalActualForDate : Z;
  entries : list ProductionEntry;
  isOffDay : bool;
  offDayName : string
}.

(** [plan > 0 ? (actual / plan) * 100 : 0] *)
Definition efficiencyOf (plan actual : Z) : double :=
  if 0 <? plan then fmul (fdiv (ofInt actual) (ofInt plan)) (ofInt 100)
  else ofInt 0.

(** [d.trim().substring(0, 10)], the key of a day. *)
Definition dateKey (d : string) : string := substring0 10 (trim d).

(** [(d || '').trim().substring(0, 7)], the key of a month. *)
Definition monthKey (d : string) : string := substring0 7 (trim d).

Section WithHost.

(** [a.localeCompare(b)], the collation of the host. *)
Variable localeCompare : string -> string -> Z.

(** The [PROCESSES] table of constants.ts. *)
Variable PROCESSES : list ProcessType.

Definition relevantOf (productionData : list ProductionEntry) (cat : Category)
    : list ProductionEntry :=
  filter (fun d => String.eqb (category d) cat && truthy (date d)) productionData.

Definition initialProcessMap : list (string * ProcStat) :=
  fold_left (fun m proc => mapSet m proc (mkProcStat proc 0 0)) PROCESSES [].

(** One turn of [relevant.forEach]. *)
Definition accumulate (selectedMonth : string)
    (acc : Z * Z * list (string * ProcStat)) (d : ProductionEntry)
    : Z * Z * list (string * ProcStat) :=
  let '(selectedMonthPlan, selectedMonthActual, m) := acc in
  let dateStr := monthKey (date d) in
  if String.eqb dateStr selectedMonth then
    let selectedMonthPlan := selectedMonthPlan + or0 (planQuantity d) in
    let selectedMonthActual := selectedMonthActual + or0 (actualQuantity d) in
    let procName := strOr (process d) "Other" in
    let m :=
      if mapHas m procName then
        match mapGet m procName with
        | Some p =>
            mapSet m procName
              (mkProcStat (ps_process p)
                 (ps_Plan p + or0 (planQuantity d))
                 (ps_Actual p + or0 (actualQuantity d)))
        | None => m
        end
      else m in
    (selectedMonthPlan, selectedMonthActual, m)
  else acc.

Definition dashboardData (productionData : list ProductionEntry)
    (cat : Category) (selectedMonth : string) : DashboardData :=
  let relevant := relevantOf productionData cat in
  let '(selectedMonthPlan, selectedMonthActual, selectedMonthProcessMap) :=
    fold_left (accumulate selectedMonth) relevant (0, 0, initialProcessMap) in
  {| filteredData :=
       sort (fun a b => localeCompare (date b) (date a)) relevant;
     selectedMonthStats :=
       mkMonthStats selectedMonthPlan selectedMonthActual
         (efficiencyOf selectedMonthPlan selectedMonthActual);
     chartData := mapValues selectedMonthProcessMap |}.

Definition filteredEntriesOf (baseData : list ProductionEntry) (selectedMonth : string)
    : list ProductionEntry :=
  filter (fun d => truthy (date d) && startsWith (trim (date d)) selectedMonth) baseData.

Definition filteredOffDaysOf (offDays : list OffDay) (selectedMonth : string)
    : list OffDay :=
  filter (fun od => truthy (od_date od) && startsWith (trim (od_date od)) selectedMonth)
    offDays.

(** The [dates] set after both [forEach] loops. *)
Definition datesOf (filteredEntries : list ProductionEntry) (filteredOffDays : list OffDay)
    : list string :=
  let dates := [] in
  let dates :=
    fold_left (fun s d => if truthy (date d) then setAdd s (dateKey (date d)) else s)
      filteredEntries dates in
  fold_left (fun s od => if truthy (od_date od) then setAdd s (dateKey (od_date od)) else s)
    filteredOffDays dates.

Definition groupOf (filteredEntries : list ProductionEntry) (filteredOffDays : list OffDay)
    (key : string) : DayGroup :=
  let entriesForDate :=
    filter (fun d => truthy (date d) && String.eqb (dateKey (date d)) key)
      filteredEntries in
  let offDayInfo :=
    find (fun od => truthy (od_date od) && String.eqb (dateKey (od_date od)) key)
      filteredOffDays in
  let totalActualForDate :=
    fold_left (fun sum entry => sum + or0 (actualQuantity entry)) entriesForDate 0 in
  {| g_date := key;
     totalActualForDate := totalActualForDate;
     entries := entriesForDate;
     isOffDay := match offDayInfo with Some _ => true | None => false end;
     offDayName := match offDayInfo with Some od => description od | None => "" end |}.

Definition dailyGroupsOf (baseData : list ProductionEntry) (offDays : list OffDay)
    (selectedMonth : string) : list DayGroup :=
  let filteredEntries := filteredEntriesOf baseData selectedMonth in
  let filteredOffDays := filteredOffDaysOf offDays selectedMonth in
  let dates := datesOf filteredEntries filteredOffDays in
  let sortedDates := sort (fun a b => localeCompare b a) dates in
  map (groupOf filteredEntries filteredOffDays) sortedDates.

(** The [dailyGroups] memo, over the [filteredData] of [dashboardData]. *)
Definition dailyGroups (productionData : list ProductionEntry) (offDays : list OffDay)
    (cat : Category) (selectedMonth : string) : list DayGroup :=
  dailyGroupsOf (filteredData (dashboardData productionData cat selectedMonth))
    offDays selectedMonth.

End WithHost.

(** ** The exporter *)

(** A cell of a row before [join] turns it into text. *)
Inductive Cell : Type :=
| CStr (s : string)
| CNum (n : jsnum)
| CUndefined.

(** How [Array.join] prints an element. *)
Definition cellText (c : Cell) : string :=
  match c with
  | CStr s => s
  | CNum n => numToString n
  | CUndefined => ""
  end.

Definition optStr (o : option string) : Cell :=
  match o with Some s => CStr s | None => CUndefined end.

Definition optNum (o : option jsnum) : Cell :=
  match o with Some n => CNum n | None => CUndefined end.

Definition headers : list string :=
  ["Date"; "Status"; "Process"; "Product"; "Plan"; "Actual"; "Unit"; "Batch No"; "Manpower"].

Definition rowsOfGroup (g : DayGroup) : list (list Cell) :=
  if (Z.of_nat (List.length (entries g)) =? 0) then
    [[CStr (g_date g); CStr (strOr (offDayName g) "Off Day"); CStr "-"; CStr "-";
      CNum (Num 0); CNum (Num 0); CStr "-"; CStr "-"; CNum (Num 0)]]
  else
    map (fun d =>
           [CStr (date d);
            CStr (if isOffDay g then "Holiday (" ++ offDayName g ++ ")" else "Normal");
            CStr (process d); CStr (productName d);
            CNum (planQuantity d); CNum (actualQuantity d);
            CStr (strOr (e_unit d) "KG"); optStr (batchNo d); optNum (manpower d)])
      (entries g).

Definition csvRows (groups : list DayGroup) : list (list Cell) :=
  flat_map rowsOfGroup groups.

Definition newline : string := String (ascii_of_nat 10) EmptyString.

(** The text that follows the [data:] prefix of the link. *)
Definition csvText (groups : list DayGroup) : string :=
  join newline
    (join "," headers :: map (fun r => join "," (map cellText r)) (csvRows groups)).

Definition csvContent (groups : list DayGroup) : string :=
  "data:text/csv;charset=utf-8," ++ csvText groups.

Record Download : Type := mkDownload {
  href : string;
  download : string;
  dl_store : Store;
  dl_note : Notification
}.

(** [downloadCSV], up to [encodeURI] and the click on the link. *)
Definition downloadCSV (user : User) (groups : list DayGroup) (cat : Category)
    (selectedMonth : string) (s : Store) : Download :=
  {| href := csvContent groups;
     download := "Halagel_Full_Report_" ++ cat ++ "_" ++ selectedMonth ++ ".csv";
     dl_store :=
       addLog (mkLog (u_id user) (name user) EXPORT_REPORT
                 ("Exported full report for " ++ cat ++ " (" ++ selectedMonth ++ ")")) s;
     dl_note := mkNote "REPORT EXPORTED SUCCESSFULLY" success |}.

End Dashboard.

(* ================================================================== *)
(** * UserManagement.tsx *)

Module UserManagement.

(** The [newUser] state: a user without its id. *)
Record NewUser : Type := mkNewUser {
  n_name : string;
  n_username : string;
  n_email : string;
  n_role : Role;
  n_password : string
}.

(** The [users] state of the page and the store behind it. *)
Record State : Type := mkState {
  st_users : list User;
  st_store : Store
}.

Definition optText (o : option string) : string :=
  match o with Some s => s | None => "undefined" end.

(** [handleAddUser]; [now] is [Date.now().toString()]. *)
Definition handleAddUser (currentUser : User) (now : string) (newUser : NewUser)
    (st : State) : State * list Notification :=
  if existsb (fun u => String.eqb (toLowerCase (username u))
                         (toLowerCase (n_username newUser))) (st_users st)
  then (st, [])
  else
    let u := mkUser now (n_name newUser) (n_username newUser) (n_email newUser)
               (n_role newUser) (n_password newUser) in
    let updated := (st_users st ++ [u])%list in
    let s := saveUsers updated (st_store st) in
    let s :=
      addLog (mkLog (u_id currentUser) (name currentUser) ADD_USER
                ("Created new user account: " ++ name u ++ " ("
                   ++ match role u with
                      | admin => "admin" | manager => "manager"
                      | planner => "planner" | operator => "operator"
                      end ++ ")")) s in
    (mkState updated s, [mkNote ("NEW USER CREATED: " ++ toUpperCase (name u)) success]).

(** [handleDelete]; [confirmed] is the answer of [window.confirm]. *)
Definition handleDelete (currentUser : User) (confirmed : bool) (id : string)
    (st : State) : State * list Notification :=
  if confirmed then
    let target := find (fun u => String.eqb (u_id u) id) (st_users st) in
    let updated := filter (fun u => negb (String.eqb (u_id u) id)) (st_users st) in
    let s := saveUsers updated (st_store st) in
    let s :=
      addLog (mkLog (u_id currentUser) (name currentUser) DELETE_USER
                ("Removed user account: " ++ optText (option_map name target)
                   ++ " (@" ++ optText (option_map username target) ++ ")")) s in
    (mkState updated s,
     [mkNote ("USER REMOVED: "
                ++ optText (option_map (fun t => toUpperCase (name t)) target)) info])
  else (st, []).

(** The [disabled] attribute of the delete button in the row of [u]. *)
Definition deleteDisabled (users : list User) (u : User) : bool :=
  role_eqb (role u) admin
  && (Z.of_nat (List.length (filter (fun x => role_eqb (role x) admin) users)) <=? 1).

(** A click on the delete button in the row of [u]: a disabled button
    does not call its handler. *)
Definition clickDelete (currentUser : User) (confirmed : bool) (u : User)
    (st : State) : State * list Notification :=
  if deleteDisabled (st_users st) u then (st, [])
  else handleDelete currentUser confirmed (u_id u) st.

End UserManagement.

(* ================================================================== *)
(** * Vocabulary of the properties *)

Module Props.

Import InputModal.

(** A submission that failed: nothing written, nothing refreshed, the
    modal still open and one message shown. *)
Definition rejected (s : Store) (o : InputModal.Outcome) : Prop :=
  InputModal.store o = s
  /\ InputModal.refreshed o = false
  /\ InputModal.closed o = false
  /\ exists m, InputModal.notes o = [mkNote m info].

(** A submission that went through. *)
Definition synchronized (o : InputModal.Outcome) : Prop :=
  InputModal.notes o = [mkNote "PRODUCTION RECORD SYNCHRONIZED" success]
  /\ InputModal.refreshed o = true
  /\ InputModal.closed o = true.

(** The date of the form is an off-day of the calendar, as the modal
    compares dates. *)
Definition flagged (offDays : list OffDay) (d : string) : Prop :=
  exists od, In od offDays /\ normalizeDate (od_date od) = normalizeDate d.

(** [p'] is [p] up to the five fields that recording an actual writes. *)
Definition sameButActual (p p' : ProductionEntry) : Prop :=
  id p' = id p /\ date p' = date p /\ category p' = category p
  /\ process p' = process p /\ productName p' = productName p
  /\ e_unit p' = e_unit p /\ planQuantity p' = planQuantity p.

(** A text without a space in it. *)
Definition spaceFree (p : string) : Prop :=
  forall c, In c (list_ascii_of_string p) -> c <> " "%char.

Definition withTab (t : Tab) (f : Form) : Form :=
  mkForm (editEntry f) t (f_date f) (f_category f) (f_process f) (f_productName f)
    (f_quantity f) (f_unit f) (f_manpower f) (f_batchNo f) (selectedPlanId f).

(** ** The audit line of an edit, as the design document words it *)

Record FieldDiff : Type := mkFieldDiff {
  label : string;
  old : string;
  new : string;
  differs : bool
}.

Definition render (d : FieldDiff) : string :=
  label d ++ " (" ++ old d ++ " → " ++ new d ++ ")".

Definition batchOf (e : ProductionEntry) : string :=
  match batchNo e with Some b => b | None => "" end.

(** Date, product, category, process, unit, the quantity of the open tab,
    manpower and batch, each with its prior and its new value. *)
Definition fieldDiffs (e : ProductionEntry) (f : Form) : list FieldDiff :=
  let nd := normalizeDate (f_date f) in
  let newQty := parseInt (strOr (f_quantity f) "0") in
  let newManpower := parseInt (strOr (f_manpower f) "0") in
  [ mkFieldDiff "Date" (date e) nd (negb (String.eqb (date e) nd));
    mkFieldDiff "Product" (productName e) (f_productName f)
      (negb (String.eqb (productName e) (f_productName f)));
    mkFieldDiff "Category" (category e) (f_category f)
      (negb (String.eqb (category e) (f_category f)));
    mkFieldDiff "Process" (process e) (f_process f)
      (negb (String.eqb (process e) (f_process f)));
    mkFieldDiff "Unit" (e_unit e) (f_unit f) (negb (String.eqb (e_unit e) (f_unit f)));
    match tab f with
    | Plan => mkFieldDiff "Plan Qty" (numToString (planQuantity e)) (numToString newQty)
                (numNeq (planQuantity e) newQty)
    | Actual => mkFieldDiff "Actual Qty" (numToString (actualQuantity e))
                  (numToString newQty) (numNeq (actualQuantity e) newQty)
    end;
    mkFieldDiff "Manpower" (ZToString (optOr0 (manpower e))) (numToString newManpower)
      (numNeq (Num (optOr0 (manpower e))) newManpower);
    mkFieldDiff "Batch" (strOr (batchOf e) "None") (strOr (f_batchNo f) "None")
      (negb (String.eqb (batchOf e) (f_batchNo f))) ].

Definition changedFields (e : ProductionEntry) (f : Form) : list FieldDiff :=
  filter differs (fieldDiffs e f).

(** The one line an edit is to leave in the audit log. *)
Definition auditLine (env : Env) (e : ProductionEntry) (f : Form) : LogEntry :=
  mkLog (u_id (InputModal.user env)) (name (InputModal.user env)) EDIT_RECORD
    (match changedFields e f with
     | [] => "Updated record for " ++ f_productName f ++ " (" ++ process e ++ ") on "
               ++ date e ++ " (No values changed)"
     | cs => "Edited " ++ f_productName f ++ " (" ++ process e ++ ") on " ++ date e
               ++ ": " ++ join ", " (map render cs)
     end).

End Props.

(** ** Sample data *)

Module Sample.

Definition alice : User :=
  mkUser "u1" "Alice" "alice" "alice@example.com" admin "secret".

Definition bob : User :=
  mkUser "u2" "Bob" "bob" "bob@example.com" admin "secret".

Definition carol : User :=
  mkUser "u3" "Carol" "carol" "carol@example.com" operator "secret".

Definition env : InputModal.Env :=
  InputModal.mkEnv alice "1704900000000" "2024-01-10 16:00:00".

Definition gel : ProductionEntry :=
  mkEntry "1704870000000" "2024-01-10" "Healthcare" "Mixing" "Pain Relief Gel 50g" "KG"
    (Num 100) (Num 0) None None "u1" "2024-01-09 09:00:00".

Definition balm : ProductionEntry :=
  mkEntry "1704880000000" "2024-01-11" "Healthcare" "Filling" "Herbal Balm" "PCS"
    (Num 40) (Num 35) (Some "B-7") (Some (Num 3)) "u1" "2024-01-11 17:00:00".

Definition store0 : Store := mkStore [gel; balm] [] [alice; bob; carol].

Definition newYear : OffDay := mkOffDay "2024-01-01" "New Year".

Definition thaipusam : OffDay := mkOffDay "2024-01-25 00:00:00" "Thaipusam".

Definition calendar : list OffDay := [newYear; thaipusam].

(** A blank form of the modal on a given tab and date. *)
Definition blank (t : InputModal.Tab) (d : string) : InputModal.Form :=
  InputModal.mkForm None t d "Healthcare" "Mixing" "" "" "KG" "0" "" "".

(** The Actual tab with a plan selected and the figures filled in. *)
Definition actualOf (d planId : string) : InputModal.Form :=
  InputModal.mkForm None InputModal.Actual d "Healthcare" "Mixing" "" "80" "KG" "4" "B-1"
    planId.

(** A selection that went stale: no stored entry carries this id. *)
Definition staleActual : InputModal.Form := actualOf "2024-01-10" "1704860000000".

(** The edit modal opened on [balm]: a new date, one more unit made
    and the batch number cleared. *)
Definition editBalm : InputModal.Form :=
  InputModal.mkForm (Some balm) InputModal.Actual "2024-01-12" "Healthcare" "Filling"
    "Herbal Balm" "36" "PCS" "3" "" "".

(** The same modal submitted as it opened. *)
Definition editBalmUntouched : InputModal.Form :=
  InputModal.mkForm (Some balm) InputModal.Actual "2024-01-11" "Healthcare" "Filling"
    "Herbal Balm" "35" "PCS" "3" "B-7" "".

(** A process table for the examples (constants.ts is not part of the
    sources). *)
Definition processes : list ProcessType :=
  ["Mixing"; "Encapsulation"; "Filling"; "Sorting"; "Packing"].

(** An entry of January whose process is not in the table. *)
Definition blister : ProductionEntry :=
  mkEntry "1704890000000" "2024-01-12" "Healthcare" "Blistering" "Lozenges" "PCS"
    (Num 50) (Num 20) None None "u1" "2024-01-12 09:00:00".

(** A holiday of the month after. *)
Definition federalDay : OffDay := mkOffDay "2024-02-01" "Federal Territory Day".

Definition holidays : list OffDay :=
  [mkOffDay "2024-01-11" "Founders Day"; thaipusam; federalDay].

(** An entry stored with white space around its date and a time of
    day. *)
Definition nightShift : ProductionEntry :=
  mkEntry "1704895000000" " 2024-01-10 21:15:00 " "Healthcare" "Packing"
    "Pain Relief Gel 50g" "KG" (Num 60) (Num 55) (Some "B-9") (Some (Num 2)) "u1"
    "2024-01-10 21:15:00".

(** An entry of the month after. *)
Definition february : ProductionEntry :=
  mkEntry "1706750000000" "2024-02-01" "Healthcare" "Mixing" "Herbal Balm" "KG"
    (Num 30) (Num 0) None None "u1" "2024-02-01 08:00:00".

Definition january : list ProductionEntry := [gel; balm; nightShift; february].

End Sample.

(** ** Vocabulary of the aggregate views *)

Module Agg.

Import Dashboard.

(** The entries the monthly figures are summed over: those of the
    category, dated, whose month key is the selected month. *)
Definition monthEntries (data : list ProductionEntry) (cat : Category) (month : string)
    : list ProductionEntry :=
  filter (fun d => String.eqb (monthKey (date d)) month)
    (filter (fun d => String.eqb (category d) cat && truthy (date d)) data).

(** The sum of a quantity over a list of entries. *)
Definition total (q : ProductionEntry -> jsnum) (l : list ProductionEntry) : Z :=
  fold_right (fun d acc => or0 (q d) + acc) 0 l.

(** The process name an entry is counted under. *)
Definition bucketName (d : ProductionEntry) : string := strOr (process d) "Other".

Definition ofProcess (p : string) (l : list ProductionEntry) : list ProductionEntry :=
  filter (fun d => String.eqb (bucketName d) p) l.

(** The entries of a list that fall in the selected month. *)
Definition inMonth (month : string) (l : list ProductionEntry) : list ProductionEntry :=
  filter (fun d => String.eqb (monthKey (date d)) month) l.

(** The figures of one process over a list of entries. *)
Definition tallyOf (E : list ProductionEntry) (k : string) : ProcStat :=
  mkProcStat k (total planQuantity (ofProcess k E)) (total actualQuantity (ofProcess k E)).

(** The process names of the table, each at its first place. *)
Definition knownProcesses (PROCESSES : list ProcessType) : list string :=
  fold_left setAdd PROCESSES [].

(** An entry of the day listing of a month, as the grouping selects
    them. *)
Definition listed (data : list ProductionEntry) (cat : Category) (month : string)
    (d : ProductionEntry) : Prop :=
  In d data /\ category d = cat /\ date d <> ""
  /\ startsWith (trim (date d)) month = true.

(** The test an entry passes to be listed under the day [key]. *)
Definition onDay (cat : Category) (month key : string) (d : ProductionEntry) : bool :=
  String.eqb (category d) cat && truthy (date d)
  && startsWith (trim (date d)) month
  && String.eqb (dateKey (date d)) key.

Definition listedOffDay (offDays : list OffDay) (month : string) (od : OffDay) : Prop :=
  In od offDays /\ od_date od <> "" /\ startsWith (trim (od_date od)) month = true.

(** Comparison by code units, the collation of strings of digits and
    hyphens. *)
Definition codeUnitCompare (a b : string) : Z :=
  match String.compare a b with
  | Lt => -1
  | Eq => 0
  | Gt => 1
  end.

(** [a] may stand before [b] in a descending list. *)
Definition notBelow (localeCompare : string -> string -> Z) (a b : string) : Prop :=
  localeCompare b a <= 0.

(** What the design document says the unknown process names do: they
    are gathered in a bucket named Other. *)
Definition gatheredInOther (chart : list ProcStat) (unknown : list ProductionEntry)
    : Prop :=
  exists b, In b chart /\ ps_process b = "Other"
            /\ ps_Plan b = total planQuantity unknown
            /\ ps_Actual b = total actualQuantity unknown.

(** ** The rows of the export *)

(** The text of the row of an entry of the group [g]. *)
Definition entryLine (g : DayGroup) (d : ProductionEntry) : list string :=
  [date d;
   if isOffDay g then "Holiday (" ++ offDayName g ++ ")" else "Normal";
   process d; productName d;
   numToString (planQuantity d); numToString (actualQuantity d);
   strOr (e_unit d) "KG";
   match batchNo d with Some b => b | None => "" end;
   match manpower d with Some n => numToString n | None => "" end].

(** The text of the row that stands for a group without entries. *)
Definition placeholderLine (g : DayGroup) : list string :=
  [g_date g; strOr (offDayName g) "Off Day"; "-"; "-"; "0"; "0"; "-"; "-"; "0"].

(** The same row as the design document words it: the holiday name, or
    a hyphen. *)
Definition claimedPlaceholderLine (g : DayGroup) : list string :=
  [g_date g; strOr (offDayName g) "-"; "-"; "-"; "0"; "0"; "-"; "-"; "0"].

(** The text of the rows of a group. *)
Definition linesOfGroup (g : DayGroup) : list (list string) :=
  match entries g with
  | [] => [placeholderLine g]
  | ds => map (entryLine g) ds
  end.

End Agg.

(** ** Vocabulary of the user list *)

Module Admins.

Import UserManagement.

Definition isAdmin (u : User) : bool := role_eqb (role u) admin.

Definition hasAdmin (users : list User) : Prop :=
  exists u, In u users /\ role u = admin.

(** Distinct ids and an admin among the accounts. *)
Definition sound (users : list User) : Prop :=
  NoDup (map u_id users) /\ hasAdmin users.

(** One action on the page: an account is created under an id no
    account has yet (ids are millisecond time stamps), or the delete
    button of a listed account is clicked. *)
Inductive step (st : State) : State -> Prop :=
| step_add (cur : User) (now : string) (nu : NewUser) :
    ~ In now (map u_id (st_users st)) ->
    step st (fst (handleAddUser cur now nu st))
| step_delete (cur : User) (confirmed : bool) (u : User) :
    In u (st_users st) ->
    step st (fst (clickDelete cur confirmed u st)).

Inductive reachable (init : State) : State -> Prop :=
| reach_init : reachable init init
| reach_step (st st' : State) : reachable init st -> step st st' -> reachable init st'.

(** The same actions with no proviso on the id of a new account. *)
Inductive anyStep (st : State) : State -> Prop :=
| any_add (cur : User) (now : string) (nu : NewUser) :
    anyStep st (fst (handleAddUser cur now nu st))
| any_delete (cur : User) (confirmed : bool) (u : User) :
    In u (st_users st) ->
    anyStep st (fst (clickDelete cur confirmed u st)).

Inductive anyRun (init : State) : State -> Prop :=
| run_init : anyRun init init
| run_step (st st' : State) : anyRun init st -> anyStep st st' -> anyRun init st'.

End Admins.

(** ** Vocabulary of the further properties *)

Module Further.

Import InputModal Dashboard.

(** A text without white space in it, as a date input gives it. *)
Definition whitespaceFree (d : string) : Prop :=
  forall c, In c (list_ascii_of_string d) -> isWhiteSpace c = false.

(** [p] is an initial part of [s]. *)
Definition isPrefixOf (p s : string) : Prop := exists r, s = p ++ r.

(** A text of ASCII characters, on which the model of [toLowerCase] is
    that of the host. *)
Definition asciiText (s : string) : Prop :=
  forall c, In c (list_ascii_of_string s) -> (nat_of_ascii c < 128)%nat.

(** The sum of a list of numbers. *)
Definition sumZ (l : list Z) : Z := fold_right Z.add 0 l.

(** The entries counted under a process name that the table lacks. *)
Definition unknownEntries (PROCESSES : list ProcessType) (E : list ProductionEntry)
    : list ProductionEntry :=
  filter (fun d => negb (existsb (String.eqb (Agg.bucketName d)) PROCESSES)) E.

(** The test an entry passes to be in the day listing of a month. *)
Definition listedb (cat : Category) (month : string) (d : ProductionEntry) : bool :=
  String.eqb (category d) cat && truthy (date d) && startsWith (trim (date d)) month.

(** The record an edit leaves in place of [p], field by field. *)
Definition editedAs (env : InputModal.Env) (f : Form) (p p' : ProductionEntry) : Prop :=
  id p' = id p
  /\ date p' = normalizeDate (f_date f)
  /\ category p' = f_category f
  /\ process p' = f_process f
  /\ productName p' = f_productName f
  /\ e_unit p' = f_unit f
  /\ batchNo p' = Some (f_batchNo f)
  /\ manpower p' = Some (parseInt (strOr (f_manpower f) "0"))
  /\ lastUpdatedBy p' = u_id (InputModal.user env)
  /\ updatedAt p' = dbTimestamp env
  /\ match tab f with
     | Plan => planQuantity p' = parseInt (strOr (f_quantity f) "0")
               /\ actualQuantity p' = actualQuantity p
     | Actual => actualQuantity p' = parseInt (strOr (f_quantity f) "0")
                 /\ planQuantity p' = planQuantity p
     end.

(** The user list of a page in good order: distinct ids, user names
    distinct up to case, and the store holding the list shown. *)
Definition inOrder (st : UserManagement.State) : Prop :=
  NoDup (map u_id (UserManagement.st_users st))
  /\ NoDup (map (fun u => toLowerCase (username u)) (UserManagement.st_users st))
  /\ users (UserManagement.st_store st) = UserManagement.st_users st.

End Further.

(** ** Vocabulary of dates, in the words of the design document *)

Module Dates.

(** The white space of ASCII text: tab, line feed, vertical tab, form
    feed, carriage return and space. *)
Definition blank (c : ascii) : bool :=
  existsb (Nat.eqb (nat_of_ascii c)) [9; 10; 11; 12; 13; 32]%nat.

Fixpoint dropBlanks (l : list ascii) : list ascii :=
  match l with
  | c :: r => if blank c then dropBlanks r else l
  | [] => []
  end.

(** A text without the white space at its two ends. *)
Definition strip (s : string) : string :=
  string_of_list_ascii
    (rev (dropBlanks (rev (dropBlanks (list_ascii_of_string s))))).

(** The normalized date of the design document: the trimmed text cut to
    its first 10 characters. *)
Definition dayOf (d : string) : string := String.substring 0 10 (strip d).

(** The trimmed text of a date starts with the month. *)
Definition ofMonth (month d : string) : bool := String.prefix month (strip d).

(** [p] is what stands before the first space of [t]: the whole of [t]
    when it has no space. *)
Definition headOf (t p : string) : Prop :=
  Props.spaceFree p /\ (t = p \/ exists r, t = p ++ String " " r).

(** Two dates whose trimmed texts are the same up to their first
    space. *)
Definition sameHead (a b : string) : Prop :=
  exists p, headOf (strip a) p /\ headOf (strip b) p.

End Dates.

(** ** Vocabulary of the day listing, in the words of the design document *)

Module Days.

(** An entry of the month: of the category, dated, its trimmed date
    starting with the month. *)
Definition listed (data : list ProductionEntry) (cat : Category) (month : string)
    (d : ProductionEntry) : Prop :=
  In d data /\ category d = cat /\ date d <> ""
  /\ Dates.ofMonth month (date d) = true.

(** An off-day of the month. *)
Definition listedOffDay (offDays : list OffDay) (month : string) (od : OffDay) : Prop :=
  In od offDays /\ od_date od <> "" /\ Dates.ofMonth month (od_date od) = true.

(** The test of being an entry of the month on the day [key]. *)
Definition onDay (cat : Category) (month key : string) (d : ProductionEntry) : bool :=
  String.eqb (category d) cat && negb (String.eqb (date d) "")
  && Dates.ofMonth month (date d)
  && String.eqb (Dates.dayOf (date d)) key.

(** The sum of the actual quantities; what is not a number adds
    nothing. *)
Definition sumActual (l : list ProductionEntry) : Z :=
  fold_right (fun d acc => match actualQuantity d with Num z => z | NaN => 0 end + acc) 0 l.

(** The first off-day of the month on the day [key]. *)
Definition firstOffDay (offDays : list OffDay) (month key : string) : option OffDay :=
  find (fun od => negb (String.eqb (od_date od) "") && Dates.ofMonth month (od_date od)
                  && String.eqb (Dates.dayOf (od_date od)) key) offDays.

End Days.

(** ** Vocabulary of the audit line, from the records before and after *)

Module EditLog.

Import InputModal.

Record Change : Type := mkChange {
  field : string;
  before : string;
  after : string
}.

(** "Field (old → new)" *)
Definition shown (c : Change) : string :=
  field c ++ " (" ++ before c ++ " → " ++ after c ++ ")".

Definition sameText (a b : string) : bool :=
  if string_dec a b then true else false.

(** The same number on both sides; what is not a number is the same as
    nothing, itself included. *)
Definition sameNumber (a b : jsnum) : bool :=
  match a, b with
  | Num x, Num y => if Z.eq_dec x y then true else false
  | _, _ => false
  end.

Definition textChange (l a b : string) : list Change :=
  if sameText a b then [] else [mkChange l a b].

Definition numberChange (l : string) (a b : jsnum) : list Change :=
  if sameNumber a b then [] else [mkChange l (numToString a) (numToString b)].

(** The manpower of the prior record: 0 when it is absent or not a
    number. *)
Definition priorManpower (e : ProductionEntry) : jsnum :=
  match manpower e with
  | Some (Num z) => Num z
  | _ => Num 0
  end.

Definition writtenManpower (e : ProductionEntry) : jsnum :=
  match manpower e with
  | Some n => n
  | None => Num 0
  end.

(** The batch number of a record: the empty text when it is absent. *)
Definition batchText (e : ProductionEntry) : string :=
  match batchNo e with
  | Some b => b
  | None => ""
  end.

(** An empty batch number shows as None. *)
Definition orNone (b : string) : string :=
  if sameText b "" then "None" else b.

Definition batchChange (e e' : ProductionEntry) : list Change :=
  if sameText (batchText e) (batchText e') then []
  else [mkChange "Batch" (orNone (batchText e)) (orNone (batchText e'))].

(** What changed from the record [e] as it was to the record [e'] an
    edit on the tab [t] leaves, in the order of the line. *)
Definition changesBetween (t : Tab) (e e' : ProductionEntry) : list Change :=
  (textChange "Date" (date e) (date e')
   ++ textChange "Product" (productName e) (productName e')
   ++ textChange "Category" (category e) (category e')
   ++ textChange "Process" (process e) (process e')
   ++ textChange "Unit" (e_unit e) (e_unit e')
   ++ match t with
      | Plan => numberChange "Plan Qty" (planQuantity e) (planQuantity e')
      | Actual => numberChange "Actual Qty" (actualQuantity e) (actualQuantity e')
      end
   ++ numberChange "Manpower" (priorManpower e) (writtenManpower e')
   ++ batchChange e e')%list.

(** The text of the line for the changes [cs]. *)
Definition lineText (e e' : ProductionEntry) (cs : list Change) : string :=
  match cs with
  | [] => "Updated record for " ++ productName e' ++ " (" ++ process e ++ ") on "
            ++ date e ++ " (No values changed)"
  | _ => "Edited " ++ productName e' ++ " (" ++ process e ++ ") on " ++ date e ++ ": "
           ++ String.concat ", " (map shown cs)
  end.

(** The fields whose stored values are not the same before and after,
    with no allowance for absent values. *)
Definition storedDiffs (t : Tab) (e e' : ProductionEntry) : list string :=
  let diff {A : Type} (dec : forall a b : A, {a = b} + {a <> b}) (l : string) (a b : A)
    : list string := if dec a b then [] else [l] in
  let jsnum_dec : forall a b : jsnum, {a = b} + {a <> b} :=
    fun a b => ltac:(decide equality; apply Z.eq_dec) in
  (diff string_dec "Date" (date e) (date e')
   ++ diff string_dec "Product" (productName e) (productName e')
   ++ diff string_dec "Category" (category e) (category e')
   ++ diff string_dec "Process" (process e) (process e')
   ++ diff string_dec "Unit" (e_unit e) (e_unit e')
   ++ match t with
      | Plan => diff jsnum_dec "Plan Qty" (planQuantity e) (planQuantity e')
      | Actual => diff jsnum_dec "Actual Qty" (actualQuantity e) (actualQuantity e')
      end
   ++ diff (fun a b : option jsnum => ltac:(decide equality)) "Manpower"
        (manpower e) (manpower e')
   ++ diff (fun a b : option string => ltac:(decide equality; apply string_dec)) "Batch"
        (batchNo e) (batchNo e'))%list.

End EditLog.

(** ** Vocabulary of doubles *)

Module Doubles.

(** Zero or a positive finite number: a value of the interval from 0 to
    infinity, infinity not included. *)
Definition nonnegFinite (x : double) : Prop :=
  x = SpecFloat.S754_zero false
  \/ exists m e, x = SpecFloat.S754_finite false m e.

(** A finite number other than zero. *)
Definition nonzeroFinite (x : double) : Prop :=
  exists s m e, x = SpecFloat.S754_finite s m e.

(** The integer a double holds, when it holds one. *)
Definition integerOf (x : double) : option Z :=
  match x with
  | SpecFloat.S754_zero _ => Some 0
  | SpecFloat.S754_finite s m e =>
      let v := if s then Zneg m else Zpos m in
      if 0 <=? e then Some (v * 2 ^ e)
      else if (v mod 2 ^ (- e)) =? 0 then Some (v / 2 ^ (- e))
      else None
  | _ => None
  end.

End Doubles.

(* ================================================================== *)
(** * Properties *)

(** ** General facts about the host functions *)

Section ListFacts.
Context {A : Type}.

Lemma map_if_id (p : A -> bool) (g : A -> A) (l : list A) :
  (forall x, In x l -> p x = false) ->
  map (fun x => if p x then g x else x) l = l.
Proof.
  induction l as [|x l IH]; intros H; simpl.
  - reflexivity.
  - rewrite (H x (or_introl eq_refl)). f_equal. apply IH.
    intros y Hy. apply H. now right.
Qed.

Lemma nth_error_map_if (p : A -> bool) (g : A -> A) (l : list A) (i : nat) (x : A) :
  nth_error l i = Some x ->
  nth_error (map (fun x => if p x then g x else x) l) i
  = Some (if p x then g x else x).
Proof.
  intros H. rewrite nth_error_map, H. reflexivity.
Qed.

Lemma find_none_iff (p : A -> bool) (l : list A) :
  find p l = None <-> forall x, In x l -> p x = false.
Proof.
  split.
  - intros H x Hx. exact (find_none p l H x Hx).
  - induction l as [|y l IH]; intros H; simpl.
    + reflexivity.
    + rewrite (H y (or_introl eq_refl)). apply IH.
      intros x Hx. apply H. now right.
Qed.

Lemma find_some_ex (p : A -> bool) (l : list A) :
  (exists x, In x l /\ p x = true) -> exists y, find p l = Some y /\ In y l /\ p y = true.
Proof.
  intros [x [Hx Hp]]. destruct (find p l) as [y|] eqn:E.
  - exists y. split; [reflexivity|]. exact (find_some p l E).
  - rewrite (find_none p l E x Hx) in Hp. discriminate.
Qed.

Lemma filter_twice (p q : A -> bool) (l : list A) :
  filter q (filter p l) = filter (fun x => p x && q x) l.
Proof.
  induction l as [|x l IH]; simpl; [reflexivity|].
  destruct (p x); simpl; [|assumption]. destruct (q x); now rewrite IH.
Qed.

Lemma filter_without (p : A -> bool) (l1 l2 : list A) (x : A) :
  p x = false -> filter p (l1 ++ x :: l2) = filter p (l1 ++ l2).
Proof.
  intros H. rewrite !filter_app. simpl. now rewrite H.
Qed.
End ListFacts.

Lemma truthy_true (s : string) : truthy s = true <-> s <> "".
Proof. destruct s; simpl; split; congruence. Qed.

Lemma truthy_false (s : string) : truthy s = false <-> s = "".
Proof. destruct s; simpl; split; congruence. Qed.

(** ** The entry editor *)

Section Editor.

Import InputModal Props.

Variable env : Env.
Variable offDays : list OffDay.

Lemma currentOffDay_flagged (d : string) :
  flagged offDays d -> exists od, currentOffDay offDays d = Some od /\ In od offDays.
Proof.
  intros [od [Hin Heq]]. unfold currentOffDay.
  destruct (find_some_ex
              (fun od => String.eqb (normalizeDate (od_date od)) (normalizeDate d)) offDays)
    as [y [Hy [Hin' _]]].
  - exists od. split; [assumption|]. now apply String.eqb_eq.
  - exists y. split; assumption.
Qed.

(** A new submission on an off-day stops before the store is read,
    whatever the tab. *)
Lemma locked_outcome (f : Form) (s : Store) :
  editEntry f = None -> flagged offDays (f_date f) ->
  exists od, In od offDays
    /\ handleSubmit env offDays f s
       = mkOutcome s [mkNote ("ENTRY RESTRICTED: Today is " ++ description od) info]
           false false.
Proof.
  intros He Hf. destruct (currentOffDay_flagged _ Hf) as [od [Hc Hin]].
  exists od. split; [assumption|]. unfold handleSubmit. now rewrite He, Hc.
Qed.

Lemma unlocked_outcome (f : Form) (s : Store) :
  editEntry f <> None \/ currentOffDay offDays (f_date f) = None ->
  handleSubmit env offDays f s
  = match tryBody env f (normalizeDate (f_date f)) s with
    | inr s' => mkOutcome s' [mkNote "PRODUCTION RECORD SYNCHRONIZED" success] true true
    | inl msg => mkOutcome s [mkNote (strOr msg "Operation failed") info] false false
    end.
Proof.
  intros H. unfold handleSubmit.
  destruct (editEntry f) as [e|]; [reflexivity|].
  destruct H as [H|H]; [congruence|]. now rewrite H.
Qed.

End Editor.

(** C1, as the code has it.  On the Actual tab of a new submission, away
    from off-days: with no plan selected the submission fails with the
    message "Please select a plan" and writes nothing; with a plan id
    selected it goes through, appends one RECORD_ACTUAL line, keeps the
    number and the order of the stored entries, leaves every entry with
    another id as it was, and on an entry with the selected id changes
    nothing but actualQuantity, batchNo, manpower, lastUpdatedBy and
    updatedAt; so when no stored entry has the selected id the collection
    is written back unchanged and no error is raised. *)
Theorem recordActual_touches_five_fields
    (env : InputModal.Env) (offDays : list OffDay) (f : InputModal.Form) (s : Store) :
  InputModal.editEntry f = None ->
  InputModal.tab f = InputModal.Actual ->
  InputModal.currentOffDay offDays (InputModal.f_date f) = None ->
  let out := InputModal.handleSubmit env offDays f s in
  let planId := InputModal.selectedPlanId f in
  (planId = "" ->
     Props.rejected s out
     /\ InputModal.notes out = [mkNote "Please select a plan" info])
  /\ (planId <> "" ->
        Props.synchronized out
        /\ (exists l, logs (InputModal.store out) = (logs s ++ [l])%list
                      /\ action l = RECORD_ACTUAL)
        /\ users (InputModal.store out) = users s
        /\ List.length (production (InputModal.store out)) = List.length (production s)
        /\ (forall i p, nth_error (production s) i = Some p ->
              exists p', nth_error (production (InputModal.store out)) i = Some p'
                /\ (id p <> planId -> p' = p)
                /\ (id p = planId ->
                      Props.sameButActual p p'
                      /\ actualQuantity p' = parseInt (strOr (InputModal.f_quantity f) "0")
                      /\ batchNo p' = Some (InputModal.f_batchNo f)
                      /\ manpower p' = Some (parseInt (strOr (InputModal.f_manpower f) "0"))
                      /\ lastUpdatedBy p' = u_id (InputModal.user env)
                      /\ updatedAt p' = InputModal.dbTimestamp env))
        /\ ((forall p, In p (production s) -> id p <> planId) ->
              production (InputModal.store out) = production s)).
Proof.
  intros He Ht Hoff out planId. subst out planId.
  rewrite unlocked_outcome by now right.
  unfold InputModal.tryBody. rewrite He, Ht. split.
  - intros Hid. rewrite Hid. simpl. repeat split. now exists "Please select a plan".
  - intros Hid. apply truthy_true in Hid. rewrite Hid. simpl.
    split; [repeat split|]. split; [eexists; split; reflexivity|].
    split; [reflexivity|]. split; [apply length_map|]. split.
    + intros i p Hp. unfold getProductionData.
      rewrite (nth_error_map_if _ _ _ _ _ Hp). eexists. split; [reflexivity|]. split.
      * intros Hne. apply String.eqb_neq in Hne. now rewrite Hne.
      * intros Heq. apply String.eqb_eq in Heq. rewrite Heq.
        unfold Props.sameButActual. simpl. repeat split.
    + intros Hno. apply map_if_id. intros x Hx. apply String.eqb_neq. now apply Hno.
Qed.

Lemma recordActual_touches_five_fields_witness :
  let f := Sample.actualOf "2024-01-10" "1704870000000" in
  let out := InputModal.handleSubmit Sample.env Sample.calendar f Sample.store0 in
  InputModal.editEntry f = None
  /\ InputModal.tab f = InputModal.Actual
  /\ InputModal.currentOffDay Sample.calendar (InputModal.f_date f) = None
  /\ Props.synchronized out
  /\ users (InputModal.store out) = users Sample.store0.
Proof.
  intros f out.
  assert (He : InputModal.editEntry f = None) by reflexivity.
  assert (Ht : InputModal.tab f = InputModal.Actual) by reflexivity.
  assert (Ho : InputModal.currentOffDay Sample.calendar (InputModal.f_date f) = None)
    by reflexivity.
  destruct (recordActual_touches_five_fields Sample.env Sample.calendar f Sample.store0
              He Ht Ho) as [_ H].
  assert (Hid : InputModal.selectedPlanId f <> "") by discriminate.
  destruct (H Hid) as [Hs [_ [Hu _]]].
  repeat split; try assumption; apply Hs.
Defined.

(** C1, as the design document words it, fails: a plan id that is not in
    the candidate list of the day (nor anywhere in the store) is not turned
    down.  The submission is reported as synchronized and a RECORD_ACTUAL
    line is logged, with the stored entries written back as they were. *)
Lemma recordActual_stale_id_not_rejected :
  let f := Sample.staleActual in
  let out := InputModal.handleSubmit Sample.env Sample.calendar f Sample.store0 in
  (forall p, In p (InputModal.plans (production Sample.store0) (InputModal.f_date f)) ->
             id p <> InputModal.selectedPlanId f)
  /\ (forall p, In p (production Sample.store0) -> id p <> InputModal.selectedPlanId f)
  /\ ~ Props.rejected Sample.store0 out
  /\ Props.synchronized out
  /\ production (InputModal.store out) = production Sample.store0
  /\ logs (InputModal.store out)
     = [mkLog "u1" "Alice" RECORD_ACTUAL "Recorded actual output of 80 KG for product"].
Proof.
  intros f out. split; [|split; [|split; [|split; [|split]]]].
  - intros p Hp. vm_compute in Hp. destruct Hp as [Hp|[]]. subst p. discriminate.
  - intros p Hp. simpl in Hp. destruct Hp as [Hp|[Hp|[]]]; subst p; discriminate.
  - intros [_ [_ [Hc _]]]. vm_compute in Hc. discriminate.
  - repeat split.
  - reflexivity.
  - reflexivity.
Qed.

(** C2, at an off-day that the calendar holds with a time of day.  The
    day 2024-01-25 is an off-day of the calendar: the modal turns a new
    plan on it down and leaves the store as it was.  The plan page
    compares the two texts as they are, finds no off-day, appends the plan
    to the stored entries and logs it. *)
Lemma plan_page_writes_on_listed_off_day :
  let fd := InputPlan.mkFormData "2024-01-25" "Healthcare" "Mixing" "Gel" "10" "KG" in
  let penv := InputPlan.mkEnv Sample.alice "1706140800000" "2024-01-25T00:00:00.000Z" in
  let page := InputPlan.handleSubmit penv Sample.calendar fd Sample.store0 in
  let f := InputModal.mkForm None InputModal.Plan "2024-01-25" "Healthcare" "Mixing"
             "Gel" "10" "KG" "0" "" "" in
  let modal := InputModal.handleSubmit Sample.env Sample.calendar f Sample.store0 in
  In Sample.thaipusam Sample.calendar
  /\ Dates.dayOf (od_date Sample.thaipusam) = Dates.dayOf (InputPlan.fd_date fd)
  /\ Props.flagged Sample.calendar (InputPlan.fd_date fd)
  /\ Props.rejected Sample.store0 modal
  /\ InputModal.notes modal = [mkNote "ENTRY RESTRICTED: Today is Thaipusam" info]
  /\ InputPlan.currentOffDay Sample.calendar fd = None
  /\ production (InputPlan.store page)
     = (production Sample.store0
          ++ [mkEntry "1706140800000" "2024-01-25" "Healthcare" "Mixing" "Gel" "KG"
                (Num 10) (Num 0) None None "u1" "2024-01-25T00:00:00.000Z"])%list
  /\ logs (InputPlan.store page)
     = [mkLog "u1" "Alice" CREATE_PLAN "Planned 10 KG for Gel on 2024-01-25"]
  /\ InputPlan.msg page = InputPlan.mkMsg false "Plan entry added successfully."
  /\ InputPlan.store page <> Sample.store0.
Proof.
  intros fd penv page f modal.
  split; [simpl; auto|]. split; [reflexivity|].
  split; [exists Sample.thaipusam; split; [simpl; auto | reflexivity]|].
  split; [repeat split; eexists; reflexivity|].
  split; [reflexivity|]. split; [reflexivity|]. split; [reflexivity|].
  split; [reflexivity|]. split; [reflexivity|]. discriminate.
Qed.

(** C10.  A new submission on the Actual tab whose date is an off-day of
    the calendar is turned down before the store is read or written, with
    the very outcome the Plan tab has for the same form. *)
Theorem offday_lock_covers_actual_tab
    (env : InputModal.Env) (offDays : list OffDay) (f : InputModal.Form) (s : Store) :
  InputModal.editEntry f = None ->
  InputModal.tab f = InputModal.Actual ->
  Props.flagged offDays (InputModal.f_date f) ->
  let out := InputModal.handleSubmit env offDays f s in
  Props.rejected s out
  /\ InputModal.store out = s
  /\ out = InputModal.handleSubmit env offDays (Props.withTab InputModal.Plan f) s.
Proof.
  intros He _ Hf out. subst out.
  destruct (currentOffDay_flagged offDays _ Hf) as [od [Hc _]].
  unfold InputModal.handleSubmit. cbn [Props.withTab InputModal.editEntry InputModal.f_date].
  rewrite He, Hc. split; [|split]; try reflexivity.
  repeat split. eexists. reflexivity.
Qed.

Lemma offday_lock_covers_actual_tab_witness :
  let f := Sample.actualOf "2024-01-25" "1704870000000" in
  Props.flagged Sample.calendar (InputModal.f_date f)
  /\ InputModal.store (InputModal.handleSubmit Sample.env Sample.calendar f Sample.store0)
     = Sample.store0.
Proof.
  intros f.
  assert (Hf : Props.flagged Sample.calendar (InputModal.f_date f)).
  { exists Sample.thaipusam. split; [simpl; auto | reflexivity]. }
  split; [exact Hf|].
  apply (offday_lock_covers_actual_tab Sample.env Sample.calendar f Sample.store0
           eq_refl eq_refl Hf).
Defined.

(** ** The audit line of an edit *)

Section Audit.

Import InputModal Props.

(** The handler's run of tests and pushes lists the fields that differ,
    in the order of the table. *)
Lemma changes_are_changed_fields (e : ProductionEntry) (f : Form) :
  changes e f (normalizeDate (f_date f)) = map render (changedFields e f).
Proof.
  unfold changes, changedFields, fieldDiffs, render, batchOf.
  cbn [filter differs label old new map].
  destruct (tab f);
    cbn [differs label old new];
    repeat match goal with
           | |- context [if ?b then _ else _] => destruct b
           end;
    reflexivity.
Qed.

Lemma nonempty_length {A : Type} (l : list A) :
  (0 <? Z.of_nat (List.length l)) = match l with [] => false | _ => true end.
Proof. destruct l; simpl; [reflexivity|]. apply Z.ltb_lt. lia. Qed.

Lemma edit_log_details (env : Env) (e : ProductionEntry) (f : Form) (s : Store) :
  editEntry f = Some e ->
  exists s',
    tryBody env f (normalizeDate (f_date f)) s = inr s'
    /\ logs s' = (logs s ++ [auditLine env e f])%list
    /\ users s' = users s.
Proof.
  intros He. unfold tryBody. rewrite He. eexists. split; [reflexivity|].
  split; [|reflexivity].
  cbn [logs addLog saveProductionData]. do 2 f_equal.
  unfold auditLine. f_equal.
  rewrite nonempty_length, changes_are_changed_fields.
  destruct (changedFields e f); reflexivity.
Qed.

End Audit.

(** *** The line, from the records before and after *)

Section AuditWords.

Import InputModal EditLog.

Lemma sameText_eqb (a b : string) : sameText a b = String.eqb a b.
Proof.
  unfold sameText. destruct (string_dec a b) as [->|H].
  - now rewrite String.eqb_refl.
  - symmetry. now apply String.eqb_neq.
Qed.

Lemma sameNumber_numNeq (a b : jsnum) : sameNumber a b = negb (numNeq a b).
Proof.
  destruct a as [x|], b as [y|]; simpl; try reflexivity.
  destruct (Z.eq_dec x y) as [->|H].
  - now rewrite Z.eqb_refl.
  - apply Z.eqb_neq in H. now rewrite H.
Qed.

Lemma orNone_strOr (b : string) : orNone b = strOr b "None".
Proof. destruct b; reflexivity. Qed.

Lemma priorManpower_optOr0 (e : ProductionEntry) :
  priorManpower e = Num (optOr0 (manpower e)).
Proof. unfold priorManpower. destruct (manpower e) as [[z|]|]; reflexivity. Qed.

(** The handler's tests and pushes give the changes between the record
    it was opened on and the record it writes in its place. *)
Lemma changes_between (env : Env) (e : ProductionEntry) (f : Form) :
  changes e f (normalizeDate (f_date f))
  = map shown
      (changesBetween (tab f) e (editedRecord env f (normalizeDate (f_date f)) e)).
Proof.
  unfold changes, changesBetween, textChange, numberChange, batchChange, writtenManpower,
    batchText, editedRecord.
  cbn [date productName category process e_unit manpower batchNo planQuantity
         actualQuantity].
  rewrite priorManpower_optOr0, !orNone_strOr, !sameText_eqb.
  destruct (tab f); rewrite !sameNumber_numNeq;
    repeat match goal with
           | |- context [String.eqb ?a ?b] => destruct (String.eqb a b)
           | |- context [numNeq ?a ?b] => destruct (numNeq a b)
           end;
    reflexivity.
Qed.

Lemma edit_between (env : Env) (e : ProductionEntry) (f : Form) (s : Store) (i : nat) :
  editEntry f = Some e -> nth_error (production s) i = Some e ->
  let e' := editedRecord env f (normalizeDate (f_date f)) e in
  exists s',
    tryBody env f (normalizeDate (f_date f)) s = inr s'
    /\ nth_error (production s') i = Some e'
    /\ logs s'
       = (logs s
            ++ [mkLog (u_id (user env)) (name (user env)) EDIT_RECORD
                  (lineText e e' (changesBetween (tab f) e e'))])%list.
Proof.
  intros He Hi e'. unfold tryBody. rewrite He. eexists. split; [reflexivity|]. split.
  - cbn [production addLog saveProductionData]. unfold getProductionData.
    rewrite (nth_error_map_if _ _ _ _ _ Hi), String.eqb_refl. reflexivity.
  - cbn [logs addLog saveProductionData]. do 3 f_equal.
    rewrite nonempty_length, (changes_between env). fold e'. unfold lineText.
    cbn [editedRecord productName]. unfold join.
    destruct (changesBetween (tab f) e e'); reflexivity.
Qed.

End AuditWords.

(** C6, as the code has it.  An edit of a stored entry writes exactly one
    line to the audit log, an EDIT_RECORD line of the signed-in user.
    The line goes by the record as it was and the record the edit leaves
    in its place: a text field (date, product, category, process, unit)
    counts as changed when the two texts differ, the quantity of the open
    tab and the manpower when they are not the same number, with an
    absent prior manpower read as 0, and the batch when the two texts
    differ, with an absent batch read as the empty text.  When nothing
    counts as changed the line is the "(No values changed)" message;
    otherwise it lists exactly the changed fields, in that order, each as
    "Field (old → new)" (an empty batch shown as None), joined by
    commas. *)
Theorem edit_writes_one_diff_line
    (env : InputModal.Env) (offDays : list OffDay) (f : InputModal.Form) (s : Store)
    (e : ProductionEntry) (i : nat) :
  InputModal.editEntry f = Some e ->
  nth_error (production s) i = Some e ->
  let out := InputModal.handleSubmit env offDays f s in
  exists e' line,
    nth_error (production (InputModal.store out)) i = Some e'
    /\ logs (InputModal.store out) = (logs s ++ [line])%list
    /\ userId line = u_id (InputModal.user env)
    /\ userName line = name (InputModal.user env)
    /\ action line = EDIT_RECORD
    /\ (EditLog.changesBetween (InputModal.tab f) e e' = [] ->
          details line
          = "Updated record for " ++ productName e' ++ " (" ++ process e ++ ") on "
              ++ date e ++ " (No values changed)")
    /\ (EditLog.changesBetween (InputModal.tab f) e e' <> [] ->
          details line
          = "Edited " ++ productName e' ++ " (" ++ process e ++ ") on " ++ date e ++ ": "
              ++ String.concat ", "
                   (map EditLog.shown (EditLog.changesBetween (InputModal.tab f) e e'))).
Proof.
  intros He Hi out. subst out.
  rewrite unlocked_outcome by (left; congruence).
  destruct (edit_between env e f s i He Hi) as [s' [Hb [Hn Hl]]].
  rewrite Hb. cbn [InputModal.store].
  eexists. eexists. split; [exact Hn|]. split; [exact Hl|].
  split; [reflexivity|]. split; [reflexivity|]. split; [reflexivity|].
  cbn [details]. unfold EditLog.lineText. split.
  - intros H. now rewrite H.
  - intros H.
    destruct (EditLog.changesBetween (InputModal.tab f) e
                (InputModal.editedRecord env f
                   (InputModal.normalizeDate (InputModal.f_date f)) e));
      [congruence|reflexivity].
Qed.

Lemma edit_writes_one_diff_line_witness :
  let f := Sample.editBalm in
  let out := InputModal.handleSubmit Sample.env Sample.calendar f Sample.store0 in
  InputModal.editEntry f = Some Sample.balm
  /\ nth_error (production Sample.store0) 1 = Some Sample.balm
  /\ (exists e' line,
        nth_error (production (InputModal.store out)) 1 = Some e'
        /\ logs (InputModal.store out) = (logs Sample.store0 ++ [line])%list
        /\ action line = EDIT_RECORD)
  /\ map details (logs (InputModal.store out))
     = ["Edited Herbal Balm (Filling) on 2024-01-11: "
          ++ "Date (2024-01-11 → 2024-01-12), Actual Qty (35 → 36), Batch (B-7 → None)"].
Proof.
  intros f out.
  assert (He : InputModal.editEntry f = Some Sample.balm) by reflexivity.
  assert (Hi : nth_error (production Sample.store0) 1 = Some Sample.balm) by reflexivity.
  split; [exact He|]. split; [exact Hi|]. split; [|reflexivity].
  destruct (edit_writes_one_diff_line Sample.env Sample.calendar f Sample.store0
              Sample.balm 1 He Hi) as [e' [line [H1 [H2 [_ [_ [H3 _]]]]]]].
  exists e', line. split; [exact H1|]. split; [exact H2|exact H3].
Defined.

(** C6, as the design document words it, fails: the edit modal opened on
    an entry without manpower and batch number, and submitted as it
    opened, writes a manpower of 0 and an empty batch number where there
    was none, yet the line reads "(No values changed)". *)
Lemma absent_fields_rewritten_unlogged :
  let f := InputModal.openFor Sample.gel in
  let out := InputModal.handleSubmit Sample.env Sample.calendar f Sample.store0 in
  nth_error (production Sample.store0) 0 = Some Sample.gel
  /\ manpower Sample.gel = None
  /\ batchNo Sample.gel = None
  /\ exists e',
       nth_error (production (InputModal.store out)) 0 = Some e'
       /\ manpower e' = Some (Num 0)
       /\ batchNo e' = Some ""
       /\ EditLog.storedDiffs (InputModal.tab f) Sample.gel e' = ["Manpower"; "Batch"]
       /\ map details (logs (InputModal.store out))
          = ["Updated record for Pain Relief Gel 50g (Mixing) on 2024-01-10 "
               ++ "(No values changed)"].
Proof.
  intros f out. split; [reflexivity|]. split; [reflexivity|]. split; [reflexivity|].
  eexists. split; [reflexivity|]. split; [reflexivity|]. split; [reflexivity|].
  split; reflexivity.
Qed.

(** ** Date keys *)

Section DateKeys.

Import Props.

Lemma splitSpaceHead_app (p r : string) :
  spaceFree p -> (r = "" \/ exists r', r = String " " r') ->
  splitSpaceHead (p ++ r) = p.
Proof.
  induction p as [|c p IH]; intros Hp Hr.
  - destruct Hr as [->|[r' ->]]; reflexivity.
  - simpl. destruct (Ascii.eqb c " ") eqn:E.
    + apply Ascii.eqb_eq in E. exfalso. apply (Hp c); [now left | assumption].
    + f_equal. apply IH; [|assumption]. intros c' Hc'. apply Hp. now right.
Qed.

Lemma substring0_app (p r : string) :
  substring0 (String.length p) (p ++ r) = p.
Proof.
  induction p as [|c p IH]; simpl.
  - destruct r; reflexivity.
  - now rewrite IH.
Qed.

End DateKeys.

(** ** The words for dates and the functions of the code *)

Section DateWords.

Import Props Dates.

Lemma isWhiteSpace_blank (c : ascii) : isWhiteSpace c = blank c.
Proof. destruct c as [[] [] [] [] [] [] [] []]; reflexivity. Qed.

Lemma trimStart_dropBlanks (s : string) :
  list_ascii_of_string (trimStart s) = dropBlanks (list_ascii_of_string s).
Proof.
  induction s as [|c s IH]; simpl; [reflexivity|].
  rewrite isWhiteSpace_blank. destruct (blank c); [exact IH|reflexivity].
Qed.

Lemma dropBlanks_app (a b : list ascii) :
  dropBlanks (a ++ b)
  = match dropBlanks a with
    | [] => dropBlanks b
    | x => (x ++ b)%list
    end.
Proof.
  induction a as [|c a IH]; simpl; [reflexivity|].
  destruct (blank c); [exact IH|reflexivity].
Qed.

Lemma trimEnd_dropBlanks (s : string) :
  list_ascii_of_string (trimEnd s) = rev (dropBlanks (rev (list_ascii_of_string s))).
Proof.
  induction s as [|c s IH]; [reflexivity|].
  cbn [trimEnd list_ascii_of_string rev]. rewrite dropBlanks_app.
  destruct (dropBlanks (rev (list_ascii_of_string s))) as [|x l] eqn:E.
  - destruct (trimEnd s); [|discriminate IH].
    simpl. rewrite isWhiteSpace_blank. destruct (blank c); reflexivity.
  - rewrite rev_app_distr, <- IH.
    destruct (trimEnd s) as [|c' r'] eqn:Et; [|reflexivity].
    simpl in IH. symmetry in IH. apply app_eq_nil in IH. destruct IH; discriminate.
Qed.

(** [trim] strips the white space at the two ends. *)
Lemma trim_strip (s : string) : trim s = strip s.
Proof.
  unfold trim, strip. rewrite <- trimStart_dropBlanks, <- trimEnd_dropBlanks.
  symmetry. apply string_of_list_ascii_of_string.
Qed.

Lemma substring0_substring (n : nat) (s : string) :
  substring0 n s = String.substring 0 n s.
Proof.
  revert s. induction n as [|n IH]; intros [|c s]; simpl; try reflexivity.
  now rewrite IH.
Qed.

Lemma startsWith_prefix (p : string) : forall s, startsWith s p = String.prefix p s.
Proof.
  induction p as [|a p IH]; intros [|b s]; simpl; try reflexivity.
  destruct (ascii_dec a b) as [->|H].
  - rewrite Ascii.eqb_refl. apply IH.
  - apply Ascii.eqb_neq in H. now rewrite H.
Qed.

Lemma dateKey_dayOf (d : string) : Dashboard.dateKey d = dayOf d.
Proof. unfold Dashboard.dateKey, dayOf. now rewrite trim_strip, substring0_substring. Qed.

Lemma startsWith_ofMonth (d month : string) : startsWith (trim d) month = ofMonth month d.
Proof. unfold ofMonth. now rewrite trim_strip, startsWith_prefix. Qed.

Lemma truthy_eqb (s : string) : truthy s = negb (String.eqb s "").
Proof. destruct s; reflexivity. Qed.

Lemma append_empty (p : string) : p ++ "" = p.
Proof. induction p as [|c p IH]; simpl; [reflexivity|now rewrite IH]. Qed.

Lemma head_of_split (t : string) : headOf t (splitSpaceHead t).
Proof.
  induction t as [|c t [Hs Ht]]; simpl.
  - split; [intros c []|now left].
  - destruct (Ascii.eqb c " ") eqn:E.
    + apply Ascii.eqb_eq in E. subst c. split; [intros c []|].
      right. exists t. reflexivity.
    + apply Ascii.eqb_neq in E. split.
      * intros c' [Hc|Hc]; [now subst c'|now apply Hs].
      * destruct Ht as [Ht|[r Ht]].
        -- left. now rewrite <- Ht.
        -- right. exists r. simpl. now rewrite <- Ht.
Qed.

Lemma headOf_split (t p : string) : headOf t p -> splitSpaceHead t = p.
Proof.
  intros [Hs [Ht|[r Ht]]]; subst t.
  - rewrite <- (append_empty p) at 1. apply splitSpaceHead_app; [assumption|now left].
  - apply splitSpaceHead_app; [assumption|]. right. now exists r.
Qed.

(** The modal's form of a date is what stands before the first space of
    the trimmed text. *)
Lemma normalizeDate_headOf (d p : string) :
  InputModal.normalizeDate d = p <-> headOf (strip d) p.
Proof.
  unfold InputModal.normalizeDate. rewrite trim_strip. split.
  - intros <-. apply head_of_split.
  - apply headOf_split.
Qed.

Lemma sameHead_normalizeDate (a b : string) :
  sameHead a b <-> InputModal.normalizeDate a = InputModal.normalizeDate b.
Proof.
  split.
  - intros [p [Ha Hb]]. apply normalizeDate_headOf in Ha, Hb. congruence.
  - intros H. exists (InputModal.normalizeDate a). split.
    + now apply normalizeDate_headOf.
    + apply normalizeDate_headOf. now symmetry.
Qed.

(** The off-day check of the modal, in these words. *)
Lemma currentOffDay_words (offDays : list OffDay) (d : string) :
  (forall od, InputModal.currentOffDay offDays d = Some od ->
              In od offDays /\ sameHead (od_date od) d)
  /\ (InputModal.currentOffDay offDays d = None
      <-> forall od, In od offDays -> ~ sameHead (od_date od) d).
Proof.
  unfold InputModal.currentOffDay. split.
  - intros od H. apply find_some in H. destruct H as [Hin Hb].
    apply String.eqb_eq in Hb. split; [assumption|]. now apply sameHead_normalizeDate.
  - rewrite find_none_iff. split; intros H od Hin.
    + intros Hs. apply sameHead_normalizeDate in Hs.
      specialize (H od Hin). cbv beta in H. apply String.eqb_neq in H. contradiction.
    + apply String.eqb_neq. intros Hs. apply (H od Hin). now apply sameHead_normalizeDate.
Qed.

(** The candidate list of the Actual tab, in these words. *)
Lemma plans_words (all : list ProductionEntry) (d : string) (p : ProductionEntry) :
  In p (InputModal.plans all d) <-> In p all /\ sameHead (date p) d.
Proof.
  unfold InputModal.plans. rewrite filter_In, String.eqb_eq, sameHead_normalizeDate.
  reflexivity.
Qed.

End DateWords.

(** ** Sets and maps in insertion order *)

Section Insertion.

Lemma existsb_eqb_In (x : string) (s : list string) :
  existsb (String.eqb x) s = true <-> In x s.
Proof.
  rewrite existsb_exists. split.
  - intros [y [Hy He]]. apply String.eqb_eq in He. now subst.
  - intros H. exists x. split; [assumption | apply String.eqb_refl].
Qed.

Lemma setAdd_In (s : list string) (x y : string) :
  In y (setAdd s x) <-> In y s \/ y = x.
Proof.
  unfold setAdd. destruct (existsb (String.eqb x) s) eqn:E.
  - apply existsb_eqb_In in E. split; [now left|]. intros [H| ->]; assumption.
  - rewrite in_app_iff. simpl. intuition.
Qed.

Lemma setAdd_NoDup (s : list string) (x : string) :
  NoDup s -> NoDup (setAdd s x).
Proof.
  intros H. unfold setAdd. destruct (existsb (String.eqb x) s) eqn:E; [assumption|].
  assert (Hx : ~ In x s).
  { intros Hin. apply existsb_eqb_In in Hin. congruence. }
  clear E. induction H as [|a l Ha Hl IH]; simpl.
  - constructor; [intros []|constructor].
  - constructor.
    + rewrite in_app_iff. simpl. intros [H1|[H1|[]]]; [now apply Ha|].
      subst. apply Hx. now left.
    + apply IH. intros H1. apply Hx. now right.
Qed.

Lemma setAdd_cons (a x : string) (s : list string) :
  a <> x -> setAdd (a :: s) x = a :: setAdd s x.
Proof.
  intros H. unfold setAdd. simpl.
  assert (E : String.eqb x a = false) by (apply String.eqb_neq; congruence).
  rewrite E. simpl. now destruct (existsb (String.eqb x) s).
Qed.

(** Adding the keys of a list one by one, with a key chosen by [key]
    and a guard [ok]. *)
Lemma fold_setAdd_spec {A : Type} (ok : A -> bool) (key : A -> string) (l : list A) :
  forall s, NoDup s ->
    let r := fold_left (fun s d => if ok d then setAdd s (key d) else s) l s in
    NoDup r
    /\ forall k, In k r <-> In k s \/ exists d, In d l /\ ok d = true /\ key d = k.
Proof.
  induction l as [|d l IH]; intros s Hs; simpl.
  - split; [assumption|]. intros k. split; [now left|].
    intros [H|[d [[] _]]]. assumption.
  - destruct (ok d) eqn:Eo.
    + destruct (IH (setAdd s (key d)) (setAdd_NoDup _ _ Hs)) as [Hn Hi].
      split; [exact Hn|]. intros k. rewrite Hi, setAdd_In. split.
      * intros [[H|H]|[d' [H1 [H2 H3]]]]; [now left| |].
        -- right. exists d. repeat split; auto.
        -- right. exists d'. repeat split; auto.
      * intros [H|[d' [[H1|H1] [H2 H3]]]]; [now left; left| |].
        -- subst d'. left. right. now symmetry.
        -- right. exists d'. repeat split; auto.
    + destruct (IH s Hs) as [Hn Hi]. split; [exact Hn|]. intros k. rewrite Hi. split.
      * intros [H|[d' [H1 [H2 H3]]]]; [now left|]. right. exists d'. repeat split; auto.
      * intros [H|[d' [[H1|H1] [H2 H3]]]]; [now left| |].
        -- subst d'. congruence.
        -- right. exists d'. repeat split; auto.
Qed.

Context {V : Type}.
Variable f : string -> V.

(** A map that holds [f k] under every key [k] of [keys]. *)
Let table (keys : list string) : list (string * V) := map (fun k => (k, f k)) keys.

Lemma mapHas_table (keys : list string) (n : string) :
  mapHas (table keys) n = existsb (String.eqb n) keys.
Proof.
  unfold mapHas, table. induction keys as [|k keys IH]; simpl; [reflexivity|].
  now rewrite IH, (String.eqb_sym k n).
Qed.

Lemma mapGet_table (keys : list string) (n : string) :
  In n keys -> mapGet (table keys) n = Some (f n).
Proof.
  unfold mapGet, table. induction keys as [|k keys IH]; simpl; [intros []|].
  intros H. destruct (String.eqb k n) eqn:E.
  - apply String.eqb_eq in E. now subst.
  - apply IH. destruct H as [H|H]; [|assumption]. apply String.eqb_neq in E. congruence.
Qed.

Lemma mapSet_table (keys : list string) (n : string) (v : V) :
  In n keys -> NoDup keys ->
  mapSet (table keys) n v = map (fun k => (k, if String.eqb k n then v else f k)) keys.
Proof.
  unfold table. induction keys as [|k keys IH]; simpl; [intros []|].
  intros H Hn. inversion Hn as [|? ? Hk Hn']; subst.
  destruct (String.eqb k n) eqn:E.
  - apply String.eqb_eq in E. subst k. f_equal.
    apply map_ext_in. intros a Ha.
    assert (E : String.eqb a n = false)
      by (apply String.eqb_neq; intros ->; contradiction).
    now rewrite E.
  - f_equal. apply IH; [|assumption].
    destruct H as [H|H]; [|assumption]. apply String.eqb_neq in E. congruence.
Qed.

Lemma mapSet_table_new (keys : list string) (n : string) :
  mapSet (table keys) n (f n) = table (setAdd keys n).
Proof.
  unfold table. induction keys as [|k keys IH]; simpl; [reflexivity|].
  destruct (String.eqb k n) eqn:E.
  - apply String.eqb_eq in E. subst k. unfold setAdd. simpl.
    now rewrite String.eqb_refl.
  - rewrite IH. apply String.eqb_neq in E. now rewrite (setAdd_cons k n keys E).
Qed.

End Insertion.

(** ** The monthly figures *)

Section Monthly.

Import Dashboard Agg.

Variable localeCompare : string -> string -> Z.
Variable PROCESSES : list ProcessType.

Lemma total_app (q : ProductionEntry -> jsnum) (l1 l2 : list ProductionEntry) :
  total q (l1 ++ l2) = total q l1 + total q l2.
Proof.
  unfold total. induction l1 as [|d l1 IH]; simpl; [reflexivity|]. rewrite IH. lia.
Qed.

Lemma knownProcesses_spec :
  NoDup (knownProcesses PROCESSES)
  /\ forall p, In p (knownProcesses PROCESSES) <-> In p PROCESSES.
Proof.
  destruct (fold_setAdd_spec (fun _ : string => true) (fun p => p) PROCESSES []
              (NoDup_nil _)) as [Hn Hi].
  split; [exact Hn|]. intros p. unfold knownProcesses. rewrite (Hi p). split.
  - intros [[]|[d [H1 [_ H2]]]]. now subst.
  - intros H. right. exists p. auto.
Qed.

(** The map starts with a zero under every process of the table. *)
Lemma initialProcessMap_spec :
  initialProcessMap PROCESSES = map (fun k => (k, tallyOf [] k)) (knownProcesses PROCESSES).
Proof.
  unfold initialProcessMap, knownProcesses.
  change (@nil (string * ProcStat)) with (map (fun k => (k, tallyOf [] k)) []) at 1.
  generalize (@nil string). induction PROCESSES as [|p ps IH]; intros keys; simpl.
  - reflexivity.
  - rewrite <- IH. f_equal.
    exact (mapSet_table_new (tallyOf []) keys p).
Qed.

Lemma ofProcess_snoc (k : string) (E : list ProductionEntry) (d : ProductionEntry) :
  ofProcess k (E ++ [d])
  = (ofProcess k E ++ if String.eqb (bucketName d) k then [d] else [])%list.
Proof.
  unfold ofProcess. rewrite filter_app. simpl.
  now destruct (String.eqb (bucketName d) k).
Qed.

Lemma tallyOf_snoc (k : string) (E : list ProductionEntry) (d : ProductionEntry) :
  tallyOf (E ++ [d]) k
  = if String.eqb k (bucketName d)
    then mkProcStat (ps_process (tallyOf E k))
           (ps_Plan (tallyOf E k) + or0 (planQuantity d))
           (ps_Actual (tallyOf E k) + or0 (actualQuantity d))
    else tallyOf E k.
Proof.
  unfold tallyOf. rewrite ofProcess_snoc, (String.eqb_sym k).
  destruct (String.eqb (bucketName d) k).
  - rewrite !total_app. simpl. f_equal; unfold total; simpl; lia.
  - now rewrite app_nil_r.
Qed.

(** One turn of the loop on a map that holds the figures of [E]. *)
Lemma accumulate_tally (month : string) (keys : list string) (E : list ProductionEntry)
    (p a : Z) (d : ProductionEntry) :
  NoDup keys ->
  accumulate month (p, a, map (fun k => (k, tallyOf E k)) keys) d
  = if String.eqb (monthKey (date d)) month
    then (p + or0 (planQuantity d), a + or0 (actualQuantity d),
          map (fun k => (k, tallyOf (E ++ [d]) k)) keys)
    else (p, a, map (fun k => (k, tallyOf E k)) keys).
Proof.
  intros Hn. unfold accumulate.
  destruct (String.eqb (monthKey (date d)) month); [|reflexivity].
  f_equal. fold (bucketName d).
  rewrite (mapHas_table (tallyOf E)).
  destruct (existsb (String.eqb (bucketName d)) keys) eqn:Eh.
  - apply existsb_eqb_In in Eh.
    rewrite (mapGet_table (tallyOf E) keys _ Eh).
    rewrite (mapSet_table (tallyOf E) keys _ _ Eh Hn).
    apply map_ext. intros k. f_equal. rewrite tallyOf_snoc.
    destruct (String.eqb k (bucketName d)) eqn:Ek; [|reflexivity].
    apply String.eqb_eq in Ek. now subst k.
  - apply map_ext_in. intros k Hk. f_equal. rewrite tallyOf_snoc.
    destruct (String.eqb k (bucketName d)) eqn:Ek; [|reflexivity].
    apply String.eqb_eq in Ek. subst k. apply existsb_eqb_In in Hk. congruence.
Qed.

Lemma fold_accumulate (month : string) (keys : list string) (l : list ProductionEntry) :
  NoDup keys ->
  forall (E : list ProductionEntry) (p a : Z),
    fold_left (accumulate month) l (p, a, map (fun k => (k, tallyOf E k)) keys)
    = (p + total planQuantity (inMonth month l),
       a + total actualQuantity (inMonth month l),
       map (fun k => (k, tallyOf (E ++ inMonth month l) k)) keys).
Proof.
  intros Hn. induction l as [|d l IH]; intros E p a; cbn [fold_left].
  - simpl. rewrite app_nil_r. unfold total. simpl. now rewrite !Z.add_0_r.
  - rewrite (accumulate_tally month keys E p a d Hn).
    unfold inMonth at 1 2 3. cbn [filter]. fold (inMonth month l).
    destruct (String.eqb (monthKey (date d)) month).
    + rewrite IH. rewrite <- app_assoc. simpl.
      unfold total at 3 4. simpl. fold (total planQuantity (inMonth month l)).
      fold (total actualQuantity (inMonth month l)). now rewrite !Z.add_assoc.
    + apply IH.
Qed.

(** The three results of [dashboardData], in closed form. *)
Lemma dashboardData_spec (data : list ProductionEntry) (cat : Category) (month : string) :
  let dd := dashboardData localeCompare PROCESSES data cat month in
  let E := monthEntries data cat month in
  plan (selectedMonthStats dd) = total planQuantity E
  /\ actual (selectedMonthStats dd) = total actualQuantity E
  /\ efficiency (selectedMonthStats dd)
     = efficiencyOf (total planQuantity E) (total actualQuantity E)
  /\ chartData dd = map (tallyOf E) (knownProcesses PROCESSES).
Proof.
  intros dd E. subst dd E. unfold dashboardData.
  rewrite initialProcessMap_spec.
  rewrite (fold_accumulate month _ _ (proj1 knownProcesses_spec)).
  cbn [selectedMonthStats chartData plan actual efficiency app].
  unfold monthEntries, relevantOf, inMonth, mapValues.
  rewrite map_map. simpl. repeat split.
Qed.

End Monthly.

(** ** Doubles of the safe range *)

Section DoubleFacts.

Import SpecFloat.

Lemma digits2_pos_bounds (p : positive) :
  2 ^ (Zpos (digits2_pos p) - 1) <= Zpos p < 2 ^ Zpos (digits2_pos p).
Proof.
  induction p as [p IH|p IH|]; cbn [digits2_pos].
  - rewrite Pos2Z.inj_succ.
    replace (Z.succ (Zpos (digits2_pos p)) - 1) with (Z.succ (Zpos (digits2_pos p) - 1))
      by lia.
    rewrite !Z.pow_succ_r by lia. lia.
  - rewrite Pos2Z.inj_succ.
    replace (Z.succ (Zpos (digits2_pos p)) - 1) with (Z.succ (Zpos (digits2_pos p) - 1))
      by lia.
    rewrite !Z.pow_succ_r by lia. lia.
  - simpl. lia.
Qed.

Lemma size_nonneg (m : Z) : 0 <= Zdigits2 m.
Proof. destruct m; simpl; lia. Qed.

Lemma below_size (m : Z) : 0 <= m -> m < 2 ^ Zdigits2 m.
Proof.
  destruct m as [|p|p]; intros H; [simpl; lia| |lia].
  apply digits2_pos_bounds.
Qed.

Lemma size_le (m k : Z) : 0 <= m -> 0 <= k -> m < 2 ^ k -> Zdigits2 m <= k.
Proof.
  destruct m as [|p|p]; intros Hm Hk H; [simpl; lia| |lia].
  cbn [Zdigits2]. destruct (digits2_pos_bounds p) as [Hlo _].
  assert (Hlt : 2 ^ (Zpos (digits2_pos p) - 1) < 2 ^ k) by lia.
  apply Z.pow_lt_mono_r_iff in Hlt; lia.
Qed.

Lemma size_mono (a b : Z) : 0 <= a <= b -> Zdigits2 a <= Zdigits2 b.
Proof.
  intros H. apply size_le; [lia|apply size_nonneg|].
  pose proof (below_size b). lia.
Qed.

Lemma size_succ (m : Z) : 0 <= m -> Zdigits2 (m + 1) <= Zdigits2 m + 1.
Proof.
  intros H. pose proof (size_nonneg m). apply size_le; [lia|lia|].
  rewrite Z.pow_add_r by lia. pose proof (below_size m H). lia.
Qed.

Lemma size_mul (a b : Z) : 0 <= a -> 0 <= b -> Zdigits2 (a * b) <= Zdigits2 a + Zdigits2 b.
Proof.
  intros Ha Hb. pose proof (size_nonneg a). pose proof (size_nonneg b).
  apply size_le; [nia|lia|]. rewrite Z.pow_add_r by lia.
  pose proof (below_size a Ha). pose proof (below_size b Hb). nia.
Qed.

Lemma size_div_pow (m n : Z) :
  0 <= m -> 0 < n -> Zdigits2 (m / 2 ^ n) <= Z.max (Zdigits2 m - n) 0.
Proof.
  intros Hm Hn. pose proof (size_nonneg m) as Hd. pose proof (below_size m Hm) as Hlt.
  assert (Hp : 0 < 2 ^ n) by (apply Z.pow_pos_nonneg; lia).
  apply size_le; [apply Z.div_pos; lia|lia|].
  apply Z.div_lt_upper_bound; [lia|].
  destruct (Z.le_gt_cases n (Zdigits2 m)) as [Hle|Hgt].
  - rewrite Z.max_l by lia. rewrite <- Z.pow_add_r by lia.
    replace (n + (Zdigits2 m - n)) with (Zdigits2 m) by lia. exact Hlt.
  - rewrite Z.max_r by lia. rewrite Z.pow_0_r, Z.mul_1_r.
    assert (2 ^ Zdigits2 m <= 2 ^ n) by (apply Z.pow_le_mono_r; lia). lia.
Qed.

(** One shift to the right halves the mantissa. *)
Lemma shr_1_half (mrs : shr_record) :
  0 <= shr_m mrs -> shr_m (shr_1 mrs) = shr_m mrs / 2.
Proof.
  destruct mrs as [m r s]. cbn [shr_m]. intros H.
  destruct m as [|[p|p|]|p]; cbn [shr_1 shr_m]; try lia; try reflexivity.
  - rewrite Pos2Z.inj_xI. apply Z.div_unique with 1; lia.
  - rewrite Pos2Z.inj_xO. apply Z.div_unique with 0; lia.
Qed.

Lemma iter_shr_1 (p : positive) :
  forall mrs, 0 <= shr_m mrs ->
    shr_m (iter_pos shr_1 p mrs) = shr_m mrs / 2 ^ Zpos p.
Proof.
  induction p as [p IH|p IH|]; intros mrs H; cbn [iter_pos];
    try assert (Hpow : 0 < 2 ^ Zpos p) by (apply Z.pow_pos_nonneg; lia).
  - assert (H1 : 0 <= shr_m (shr_1 mrs))
      by (rewrite shr_1_half by assumption; apply Z.div_pos; lia).
    assert (H2 : 0 <= shr_m (iter_pos shr_1 p (shr_1 mrs)))
      by (rewrite IH by assumption; apply Z.div_pos; lia).
    rewrite IH, IH, shr_1_half by assumption.
    rewrite !Z.div_div by lia.
    f_equal. rewrite (Pos2Z.inj_xI p).
    replace (2 * Zpos p + 1) with (1 + Zpos p + Zpos p) by lia.
    rewrite (Z.pow_add_r 2 (1 + Zpos p) (Zpos p)), (Z.pow_add_r 2 1 (Zpos p)) by lia.
    change (2 ^ 1) with 2. lia.
  - assert (H2 : 0 <= shr_m (iter_pos shr_1 p mrs))
      by (rewrite IH by assumption; apply Z.div_pos; lia).
    rewrite IH, IH by assumption.
    rewrite Z.div_div by lia.
    f_equal. rewrite (Pos2Z.inj_xO p).
    replace (2 * Zpos p) with (Zpos p + Zpos p) by lia.
    rewrite (Z.pow_add_r 2 (Zpos p) (Zpos p)) by lia. lia.
  - rewrite shr_1_half by assumption. reflexivity.
Qed.

Lemma shr_record_of_loc_m (m : Z) (l : location) : shr_m (shr_record_of_loc m l) = m.
Proof. destruct l as [|[]]; reflexivity. Qed.

(** One alignment of a mantissa to the exponent of the format. *)
Lemma shr_fexp_bounds (m e K : Z) (l : location) :
  0 <= m -> Zdigits2 m + e <= K ->
  0 <= shr_m (fst (shr_fexp 53 1024 m e l))
  /\ Zdigits2 (shr_m (fst (shr_fexp 53 1024 m e l))) + snd (shr_fexp 53 1024 m e l)
     <= Z.max K (-1074)
  /\ snd (shr_fexp 53 1024 m e l) <= Z.max e (Z.max (K - 53) (-1074)).
Proof.
  intros Hm HK. unfold shr_fexp, shr, fexp, emin.
  set (n := Z.max (Zdigits2 m + e - 53) (3 - 1024 - 53) - e).
  pose proof (size_nonneg m) as Hd.
  destruct n as [|p|p] eqn:En; cbn [fst snd].
  - rewrite shr_record_of_loc_m. lia.
  - rewrite iter_shr_1 by (rewrite shr_record_of_loc_m; lia).
    rewrite shr_record_of_loc_m.
    assert (Hp : 0 < 2 ^ Zpos p) by (apply Z.pow_pos_nonneg; lia).
    split; [apply Z.div_pos; lia|].
    pose proof (size_div_pow m (Zpos p) Hm ltac:(lia)). lia.
  - rewrite shr_record_of_loc_m. lia.
Qed.

Lemma round_nearest_even_bounds (m : Z) (l : location) :
  m <= round_nearest_even m l <= m + 1.
Proof.
  unfold round_nearest_even. destruct l as [|[]]; try destruct (Z.even m); lia.
Qed.

(** Rounding a mantissa that is not negative and whose size stays below
    the overflow threshold gives zero or a positive finite number. *)
Lemma binary_round_aux_bounded (mx ex K : Z) (lx : location) :
  0 <= mx -> ex <= 971 -> -1074 <= K <= 1023 -> Zdigits2 mx + ex <= K ->
  binary_round_aux 53 1024 false mx ex lx = S754_zero false
  \/ exists m e,
       binary_round_aux 53 1024 false mx ex lx = S754_finite false m e
       /\ Zdigits2 (Zpos m) + e <= K + 1 /\ e <= 971.
Proof.
  intros Hm He HK Hd. unfold binary_round_aux.
  destruct (shr_fexp_bounds mx ex K lx Hm Hd) as [H1 [H2 H3]].
  destruct (shr_fexp 53 1024 mx ex lx) as [mrs' e'] eqn:E1. cbn [fst snd] in *.
  set (mr := round_nearest_even (shr_m mrs') (loc_of_shr_record mrs')).
  pose proof (round_nearest_even_bounds (shr_m mrs') (loc_of_shr_record mrs')) as Hr.
  fold mr in Hr.
  assert (Hmr : 0 <= mr) by lia.
  assert (Hdr : Zdigits2 mr + e' <= K + 1).
  { pose proof (size_mono mr (shr_m mrs' + 1) ltac:(lia)).
    pose proof (size_succ (shr_m mrs') H1). lia. }
  destruct (shr_fexp_bounds mr e' (K + 1) loc_Exact Hmr Hdr) as [G1 [G2 G3]].
  destruct (shr_fexp 53 1024 mr e' loc_Exact) as [mrs'' e''] eqn:E2. cbn [fst snd] in *.
  destruct (shr_m mrs'') as [|m|m] eqn:Em; [now left| |lia].
  right. assert (Hle : (e'' <=? 1024 - 53) = true) by (apply Z.leb_le; lia).
  rewrite Hle. exists m, e''. split; [reflexivity|]. lia.
Qed.

Lemma iter_xO_size (d z : positive) :
  digits2_pos (Pos.iter xO z d) = (digits2_pos z + d)%positive.
Proof.
  induction d as [|d IH] using Pos.peano_ind.
  - simpl. lia.
  - rewrite Pos.iter_succ. cbn [digits2_pos]. rewrite IH. lia.
Qed.

Lemma iter_xO_value (d z : positive) :
  Zpos (Pos.iter xO z d) = Zpos z * 2 ^ Zpos d.
Proof.
  induction d as [|d IH] using Pos.peano_ind.
  - simpl. lia.
  - rewrite Pos.iter_succ, Pos2Z.inj_xO, IH, Pos2Z.inj_succ, Z.pow_succ_r by lia. lia.
Qed.

(** An integer of the safe range above zero is a finite double with a
    full mantissa, and is held exactly. *)
Lemma ofInt_finite (z : Z) :
  0 < z < 2 ^ 53 ->
  exists m e, ofInt z = S754_finite false m e
              /\ Zdigits2 (Zpos m) = 53 /\ -52 <= e <= 0
              /\ Zpos m = z * 2 ^ (- e).
Proof.
  intros Hz. destruct z as [|p|p]; try lia.
  unfold ofInt, binary_normalize, binary_round.
  assert (Hd : 1 <= Zpos (digits2_pos p) <= 53).
  { pose proof (size_le (Zpos p) 53 ltac:(lia) ltac:(lia) ltac:(lia)) as H.
    cbn [Zdigits2] in H. lia. }
  assert (Hal : exists mz ez,
             shl_align p 0 (fexp 53 1024 (Zpos (digits2_pos p) + 0)) = (mz, ez)
             /\ Zpos (digits2_pos mz) = 53 /\ ez = Zpos (digits2_pos p) - 53
             /\ Zpos mz = Zpos p * 2 ^ (- ez)).
  { unfold shl_align, fexp, emin.
    destruct (Z.max (Zpos (digits2_pos p) + 0 - 53) (3 - 1024 - 53) - 0) as [|q|q] eqn:E.
    - exists p, 0. split; [reflexivity|]. split; [lia|]. split; [lia|].
      change (2 ^ (- 0)) with 1. lia.
    - lia.
    - exists (Pos.iter xO p q), (Z.max (Zpos (digits2_pos p) + 0 - 53) (3 - 1024 - 53)).
      split; [reflexivity|]. rewrite iter_xO_size, iter_xO_value.
      split; [lia|]. split; [lia|]. f_equal. f_equal. lia. }
  destruct Hal as [mz [ez [Hal [Hdz [Hez Hval]]]]]. rewrite Hal.
  unfold binary_round_aux.
  assert (Hs : forall l,
             shr_fexp 53 1024 (Zpos mz) ez l = (shr_record_of_loc (Zpos mz) l, ez)).
  { intros l. unfold shr_fexp, shr, fexp, emin. cbn [Zdigits2]. rewrite Hdz.
    destruct (Z.max (53 + ez - 53) (3 - 1024 - 53) - ez) eqn:E; try reflexivity. lia. }
  rewrite Hs. cbn [shr_record_of_loc loc_of_shr_record shr_m round_nearest_even].
  rewrite Hs. cbn [shr_record_of_loc shr_m].
  assert (Hle : (ez <=? 1024 - 53) = true) by (apply Z.leb_le; lia).
  rewrite Hle. exists mz, ez. split; [reflexivity|]. cbn [Zdigits2].
  split; [lia|]. split; [lia|exact Hval].
Qed.

Lemma ofInt_exact (z : Z) : 0 <= z < 2 ^ 53 -> Doubles.integerOf (ofInt z) = Some z.
Proof.
  intros Hz. destruct (Z.eq_dec z 0) as [->|Hne]; [reflexivity|].
  destruct (ofInt_finite z ltac:(lia)) as [m [e [Hm [_ [He Hv]]]]]. rewrite Hm.
  unfold Doubles.integerOf.
  assert (Hp : 0 < 2 ^ (- e)) by (apply Z.pow_pos_nonneg; lia).
  destruct (0 <=? e) eqn:E0.
  - apply Z.leb_le in E0. assert (e = 0) by lia. subst e.
    f_equal. simpl in Hv. simpl. lia.
  - rewrite Hv, Z.mod_mul by lia. simpl. rewrite Z.div_mul by lia. reflexivity.
Qed.

(** The quotient of two full mantissas, before it is rounded. *)
Lemma div_core_bounds (m1 m2 : positive) (e1 e2 : Z) :
  Zdigits2 (Zpos m1) = 53 -> Zdigits2 (Zpos m2) = 53 ->
  -52 <= e1 <= 0 -> -52 <= e2 <= 0 ->
  let '(mz, ez, lz) := SFdiv_core_binary 53 1024 (Zpos m1) e1 (Zpos m2) e2 in
  0 <= mz /\ ez <= 52 /\ Zdigits2 mz + ez <= 105.
Proof.
  intros H1 H2 He1 He2. unfold SFdiv_core_binary. rewrite H1, H2.
  set (e' := Z.min (fexp 53 1024 (53 + e1 - (53 + e2))) (e1 - e2)).
  set (s := e1 - e2 - e').
  assert (Hs : 0 <= s) by (unfold s, e'; lia).
  set (m' := match s with Zpos _ => Z.shiftl (Zpos m1) s | 0 => Zpos m1 | Zneg _ => 0 end).
  assert (Hm' : m' = Zpos m1 * 2 ^ s).
  { unfold m'. destruct s as [|q|q] eqn:Es; [lia| |lia].
    now rewrite Z.shiftl_mul_pow2 by lia. }
  pose proof (Z.div_eucl_eq m' (Zpos m2) ltac:(lia)) as Heq.
  pose proof (Z.mod_pos_bound m' (Zpos m2) ltac:(lia)) as Hmod.
  unfold Z.modulo in Hmod.
  destruct (Z.div_eucl m' (Zpos m2)) as [q r] eqn:Ed.
  assert (Hp : 0 < 2 ^ s) by (apply Z.pow_pos_nonneg; lia).
  assert (Hq : 0 <= q <= m') by nia.
  split; [lia|]. split; [unfold e'; lia|].
  pose proof (size_mono q m' Hq) as Hqm.
  assert (Hdm : Zdigits2 m' <= 53 + s).
  { apply size_le; [lia|lia|]. rewrite Hm', Z.pow_add_r by lia.
    pose proof (below_size (Zpos m1) ltac:(lia)) as Ha. rewrite H1 in Ha. nia. }
  unfold s in *. lia.
Qed.

(** The efficiency of quantities of the safe range is zero or a positive
    finite number: the division and the multiplication neither overflow
    nor meet a zero divisor. *)
Lemma efficiencyOf_nonnegFinite (P A : Z) :
  0 <= P < 2 ^ 53 -> 0 <= A < 2 ^ 53 ->
  Doubles.nonnegFinite (Dashboard.efficiencyOf P A).
Proof.
  intros HP HA. unfold Dashboard.efficiencyOf, fmul, fdiv.
  destruct (0 <? P) eqn:E; [|now left].
  apply Z.ltb_lt in E.
  destruct (ofInt_finite P ltac:(lia)) as [mp [ep [Hp [Hdp [Hep _]]]]]. rewrite Hp.
  change (ofInt 100) with (S754_finite false 7036874417766400 (-46)).
  destruct (Z.eq_dec A 0) as [->|Hne]; [now left|].
  destruct (ofInt_finite A ltac:(lia)) as [ma [ea [Ha [Hda [Hea _]]]]]. rewrite Ha.
  cbn [SFdiv xorb].
  pose proof (div_core_bounds ma mp ea ep Hda Hdp Hea Hep) as Hc.
  destruct (SFdiv_core_binary 53 1024 (Zpos ma) ea (Zpos mp) ep) as [[mz ez] lz].
  destruct Hc as [Hmz [Hez Hdz]].
  destruct (binary_round_aux_bounded mz ez 105 lz Hmz ltac:(lia) ltac:(lia) Hdz)
    as [Hq|[m [e [Hq [Hdq Heq]]]]]; rewrite Hq; [now left|].
  cbn [SFmul xorb].
  assert (Hdd : Zdigits2 (Zpos (m * 7036874417766400)) + (e + -46) <= 113).
  { rewrite Pos2Z.inj_mul.
    pose proof (size_mul (Zpos m) 7036874417766400 ltac:(lia) ltac:(lia)) as Hm.
    change (Zdigits2 7036874417766400) with 53 in Hm. lia. }
  destruct (binary_round_aux_bounded (Zpos (m * 7036874417766400)) (e + -46) 113 loc_Exact
              ltac:(lia) ltac:(lia) ltac:(lia) Hdd)
    as [Hr|[m2 [e2 [Hr _]]]]; rewrite Hr; [now left|].
  right. now exists m2, e2.
Qed.

End DoubleFacts.

(** C3.  With P the sum of the plan quantities and A the sum of the actual
    quantities of the month, both nonnegative (and of the safe range, as
    sums of quantities are), the statistics carry P and A.  When P > 0
    the efficiency is A/P*100 as JavaScript computes it: the double
    nearest to the quotient of the doubles of A and P, which hold A and P
    exactly, times 100 and rounded again; the divisor is a finite double
    other than zero.  When P = 0 the efficiency is exactly 0, whatever A
    is, and nothing is divided.  In all cases the efficiency is zero or a
    positive finite number: a value of [0, ∞), neither NaN nor infinite. *)
Theorem efficiency_guarded_ratio
    (localeCompare : string -> string -> Z) (PROCESSES : list ProcessType)
    (data : list ProductionEntry) (cat : Category) (month : string) :
  let st := Dashboard.selectedMonthStats
              (Dashboard.dashboardData localeCompare PROCESSES data cat month) in
  let P := Agg.total planQuantity (Agg.monthEntries data cat month) in
  let A := Agg.total actualQuantity (Agg.monthEntries data cat month) in
  0 <= P < 2 ^ 53 -> 0 <= A < 2 ^ 53 ->
  Dashboard.plan st = P
  /\ Dashboard.actual st = A
  /\ (0 < P ->
        Dashboard.efficiency st
        = SpecFloat.SFmul 53 1024
            (SpecFloat.SFdiv 53 1024
               (SpecFloat.binary_normalize 53 1024 A 0 false)
               (SpecFloat.binary_normalize 53 1024 P 0 false))
            (SpecFloat.binary_normalize 53 1024 100 0 false)
        /\ Doubles.integerOf (SpecFloat.binary_normalize 53 1024 A 0 false) = Some A
        /\ Doubles.integerOf (SpecFloat.binary_normalize 53 1024 P 0 false) = Some P
        /\ Doubles.nonzeroFinite (SpecFloat.binary_normalize 53 1024 P 0 false))
  /\ (P = 0 -> Dashboard.efficiency st = SpecFloat.S754_zero false)
  /\ Doubles.nonnegFinite (Dashboard.efficiency st).
Proof.
  intros st P A HP HA.
  destruct (dashboardData_spec localeCompare PROCESSES data cat month)
    as [Hp [Ha [He _]]].
  fold st in Hp, Ha, He. fold P in Hp, He. fold A in Ha, He.
  split; [exact Hp|]. split; [exact Ha|]. rewrite He. split; [|split].
  - intros Hpos. unfold Dashboard.efficiencyOf.
    rewrite (proj2 (Z.ltb_lt 0 P) Hpos). split; [reflexivity|].
    split; [exact (ofInt_exact A HA)|]. split; [exact (ofInt_exact P HP)|].
    destruct (ofInt_finite P ltac:(lia)) as [m [e [Hm _]]].
    exists false, m, e. exact Hm.
  - intros H0. unfold Dashboard.efficiencyOf. rewrite H0. reflexivity.
  - exact (efficiencyOf_nonnegFinite P A HP HA).
Qed.

Lemma efficiency_guarded_ratio_witness :
  let data := production Sample.store0 in
  let st := Dashboard.selectedMonthStats
              (Dashboard.dashboardData Agg.codeUnitCompare Sample.processes data
                 "Healthcare" "2024-01") in
  0 <= Agg.total planQuantity (Agg.monthEntries data "Healthcare" "2024-01") < 2 ^ 53
  /\ 0 <= Agg.total actualQuantity (Agg.monthEntries data "Healthcare" "2024-01") < 2 ^ 53
  /\ Dashboard.plan st = 140
  /\ Dashboard.actual st = 35
  /\ Dashboard.efficiency st = SpecFloat.S754_finite false 7036874417766400 (-48)
  /\ Doubles.integerOf (Dashboard.efficiency st) = Some 25
  /\ Doubles.nonnegFinite (Dashboard.efficiency st).
Proof.
  intros data st.
  assert (HP : 0 <= Agg.total planQuantity (Agg.monthEntries data "Healthcare" "2024-01")
               < 2 ^ 53)
    by (vm_compute; split; [discriminate|reflexivity]).
  assert (HA : 0 <= Agg.total actualQuantity (Agg.monthEntries data "Healthcare" "2024-01")
               < 2 ^ 53)
    by (vm_compute; split; [discriminate|reflexivity]).
  split; [exact HP|]. split; [exact HA|].
  destruct (efficiency_guarded_ratio Agg.codeUnitCompare Sample.processes data
              "Healthcare" "2024-01" HP HA) as [Hp [Ha [_ [_ Hn]]]].
  split; [exact Hp|]. split; [exact Ha|].
  split; [reflexivity|]. split; [reflexivity|exact Hn].
Defined.

(** C4, as the code has it.  The breakdown holds each process of the table
    exactly once, in the order of the table.  The figures of a process are
    the sums over the entries of the category and month counted under its
    name (an entry without a process name counts under Other), so they
    are 0 and 0 when no entry is counted under it.  An entry counted under
    a name that is not in the table is in no bucket: the breakdown is the
    same with and without it. *)
Theorem breakdown_over_known_processes
    (localeCompare : string -> string -> Z) (PROCESSES : list ProcessType)
    (cat : Category) (month : string) :
  let chartOf data :=
    Dashboard.chartData (Dashboard.dashboardData localeCompare PROCESSES data cat month) in
  (forall data,
      map Dashboard.ps_process (chartOf data) = Agg.knownProcesses PROCESSES
      /\ NoDup (map Dashboard.ps_process (chartOf data))
      /\ (forall p, In p PROCESSES <-> In p (map Dashboard.ps_process (chartOf data))))
  /\ (forall data b,
        In b (chartOf data) ->
        let mine := Agg.ofProcess (Dashboard.ps_process b)
                      (Agg.monthEntries data cat month) in
        Dashboard.ps_Plan b = Agg.total planQuantity mine
        /\ Dashboard.ps_Actual b = Agg.total actualQuantity mine
        /\ (mine = [] -> Dashboard.ps_Plan b = 0 /\ Dashboard.ps_Actual b = 0))
  /\ (forall data1 data2 d,
        ~ In (Agg.bucketName d) PROCESSES ->
        chartOf (data1 ++ d :: data2)%list = chartOf (data1 ++ data2)%list).
Proof.
  intros chartOf.
  assert (Hc : forall data,
             chartOf data
             = map (Agg.tallyOf (Agg.monthEntries data cat month))
                 (Agg.knownProcesses PROCESSES)).
  { intros data. apply (dashboardData_spec localeCompare PROCESSES data cat month). }
  destruct (knownProcesses_spec PROCESSES) as [Hn Hi].
  split; [|split].
  - intros data. rewrite Hc, map_map. cbn [Agg.tallyOf Dashboard.ps_process].
    rewrite map_id. split; [reflexivity|]. split; [exact Hn|].
    intros p. symmetry. apply Hi.
  - intros data b Hb mine. subst mine. rewrite Hc in Hb. apply in_map_iff in Hb.
    destruct Hb as [k [Hk _]]. subst b. cbn [Agg.tallyOf Dashboard.ps_process
      Dashboard.ps_Plan Dashboard.ps_Actual].
    split; [reflexivity|]. split; [reflexivity|]. intros ->. split; reflexivity.
  - intros data1 data2 d Hd. rewrite !Hc. apply map_ext_in. intros k Hk.
    apply Hi in Hk. unfold Agg.tallyOf, Agg.ofProcess, Agg.monthEntries.
    assert (Ek : String.eqb (Agg.bucketName d) k = false).
    { apply String.eqb_neq. intros E. subst k. contradiction. }
    rewrite !filter_twice. rewrite (filter_without _ data1 data2 d); [reflexivity|].
    rewrite Ek. now rewrite !andb_false_r.
Qed.

Lemma breakdown_over_known_processes_witness :
  let chartOf data :=
    Dashboard.chartData
      (Dashboard.dashboardData Agg.codeUnitCompare Sample.processes data
         "Healthcare" "2024-01") in
  ~ In (Agg.bucketName Sample.blister) Sample.processes
  /\ chartOf [Sample.gel; Sample.blister; Sample.balm] = chartOf [Sample.gel; Sample.balm].
Proof.
  intros chartOf.
  assert (H : ~ In (Agg.bucketName Sample.blister) Sample.processes).
  { simpl. intros Hin. repeat (destruct Hin as [Hin|Hin]; [discriminate|]). exact Hin. }
  split; [exact H|].
  apply (proj2 (proj2 (breakdown_over_known_processes Agg.codeUnitCompare Sample.processes
                         "Healthcare" "2024-01")) [Sample.gel] [Sample.balm] Sample.blister H).
Defined.

(** C4, as the design document words it, fails: the figures of an entry
    whose process name is not in the table are gathered in no Other
    bucket.  Without Other in the table there is no such bucket; with
    Other in the table that bucket stays at zero. *)
Lemma unknown_process_not_gathered :
  let data := [Sample.gel; Sample.blister] in
  let chartOf table :=
    Dashboard.chartData
      (Dashboard.dashboardData Agg.codeUnitCompare table data "Healthcare" "2024-01") in
  ~ In (process Sample.blister) Sample.processes
  /\ In Sample.blister (Agg.monthEntries data "Healthcare" "2024-01")
  /\ chartOf Sample.processes
     = [Dashboard.mkProcStat "Mixing" 100 0; Dashboard.mkProcStat "Encapsulation" 0 0;
        Dashboard.mkProcStat "Filling" 0 0; Dashboard.mkProcStat "Sorting" 0 0;
        Dashboard.mkProcStat "Packing" 0 0]
  /\ ~ Agg.gatheredInOther (chartOf Sample.processes) [Sample.blister]
  /\ In (Dashboard.mkProcStat "Other" 0 0) (chartOf (Sample.processes ++ ["Other"])%list)
  /\ ~ Agg.gatheredInOther (chartOf (Sample.processes ++ ["Other"])%list) [Sample.blister].
Proof.
  intros data chartOf. split; [|split; [|split; [|split; [|split]]]].
  - simpl. intros Hin. repeat (destruct Hin as [Hin|Hin]; [discriminate|]). exact Hin.
  - vm_compute. right. now left.
  - reflexivity.
  - intros [b [Hb [Hname _]]]. vm_compute in Hb.
    repeat (destruct Hb as [Hb|Hb]; [subst b; discriminate|]). exact Hb.
  - vm_compute. do 5 right. now left.
  - intros [b [Hb [Hname [Hplan _]]]]. vm_compute in Hb.
    repeat (destruct Hb as [Hb|Hb]; [subst b; discriminate|]). exact Hb.
Qed.

(** ** Sorting *)

Section Sorting.

Context {A : Type}.
Variable cmp : A -> A -> Z.

(** [a] may stand before [b]. *)
Let before (a b : A) : Prop := cmp a b <= 0.

Lemma insertSorted_Permutation (x : A) (l : list A) :
  Permutation (insertSorted cmp x l) (x :: l).
Proof.
  induction l as [|y l IH]; simpl.
  - apply Permutation_refl.
  - destruct (cmp x y <=? 0).
    + apply Permutation_refl.
    + apply Permutation_trans with (y :: x :: l).
      * now apply perm_skip.
      * apply perm_swap.
Qed.

Lemma sort_Permutation (l : list A) : Permutation (sort cmp l) l.
Proof.
  unfold sort. induction l as [|x l IH]; simpl.
  - apply perm_nil.
  - apply Permutation_trans with (x :: fold_right (insertSorted cmp) [] l).
    + apply insertSorted_Permutation.
    + now apply perm_skip.
Qed.

Hypothesis cmp_total : forall a b, cmp a b <= 0 \/ cmp b a <= 0.

Lemma insertSorted_Sorted (x : A) (l : list A) :
  Sorted before l -> Sorted before (insertSorted cmp x l).
Proof.
  induction 1 as [|y l Hl IH Hhd]; simpl.
  - repeat constructor.
  - destruct (cmp x y <=? 0) eqn:E.
    + apply Z.leb_le in E. constructor; [now constructor|]. now constructor.
    + apply Z.leb_gt in E.
      assert (Hyx : before y x) by (destruct (cmp_total x y); [lia|assumption]).
      constructor; [assumption|].
      destruct Hhd as [|z l' Hz]; simpl.
      * now constructor.
      * destruct (cmp x z <=? 0); now constructor.
Qed.

Lemma sort_Sorted (l : list A) : Sorted before (sort cmp l).
Proof.
  unfold sort. induction l as [|x l IH]; simpl.
  - constructor.
  - now apply insertSorted_Sorted.
Qed.

Hypothesis cmp_trans : forall a b c, cmp a b <= 0 -> cmp b c <= 0 -> cmp a c <= 0.

Lemma sort_StronglySorted (l : list A) : StronglySorted before (sort cmp l).
Proof.
  apply Sorted_StronglySorted; [|apply sort_Sorted].
  intros a b c. apply cmp_trans.
Qed.

End Sorting.

Lemma Permutation_filter {A : Type} (p : A -> bool) (l l' : list A) :
  Permutation l l' -> Permutation (filter p l) (filter p l').
Proof.
  induction 1 as [|x l l' H IH|x y l|l l' l'' H1 IH1 H2 IH2]; simpl.
  - apply perm_nil.
  - destruct (p x); [now apply perm_skip | assumption].
  - destruct (p x), (p y); try apply Permutation_refl. apply perm_swap.
  - now apply Permutation_trans with (filter p l').
Qed.

(** ** Comparison by code units is a total preorder *)

Section CodeUnits.

Import Agg.

Lemma codeUnitCompare_le (a b : string) :
  codeUnitCompare a b <= 0 <-> String.compare a b <> Gt.
Proof.
  unfold codeUnitCompare. destruct (String.compare a b); split; intros H;
    try lia; try discriminate; congruence.
Qed.

Lemma codeUnitCompare_total (a b : string) :
  codeUnitCompare a b <= 0 \/ codeUnitCompare b a <= 0.
Proof.
  rewrite !codeUnitCompare_le. rewrite (String.compare_antisym b a).
  destruct (String.compare a b); simpl; [left|left|right]; discriminate.
Qed.

Lemma compare_trans (a : string) :
  forall b c, String.compare a b <> Gt -> String.compare b c <> Gt ->
              String.compare a c <> Gt.
Proof.
  induction a as [|x a IH]; intros [|y b] [|z c]; simpl; try congruence.
  unfold Ascii.compare.
  destruct (N.compare_spec (N_of_ascii x) (N_of_ascii y)) as [Exy|Exy|Exy];
    destruct (N.compare_spec (N_of_ascii y) (N_of_ascii z)) as [Eyz|Eyz|Eyz];
    destruct (N.compare_spec (N_of_ascii x) (N_of_ascii z)) as [Exz|Exz|Exz];
    try congruence; try lia; try (intros; discriminate).
  apply IH.
Qed.

Lemma codeUnitCompare_trans (a b c : string) :
  codeUnitCompare a b <= 0 -> codeUnitCompare b c <= 0 -> codeUnitCompare a c <= 0.
Proof. rewrite !codeUnitCompare_le. apply compare_trans. Qed.

End CodeUnits.

(** ** The day listing *)

Section Daily.

Import Dashboard Agg.

Variable localeCompare : string -> string -> Z.
Variable PROCESSES : list ProcessType.
Variable data : list ProductionEntry.
Variable offDays : list OffDay.
Variable cat : Category.
Variable month : string.

Let FE : list ProductionEntry :=
  filteredEntriesOf (filteredData (dashboardData localeCompare PROCESSES data cat month))
    month.
Let FO : list OffDay := filteredOffDaysOf offDays month.

Lemma filteredData_Permutation :
  Permutation (filteredData (dashboardData localeCompare PROCESSES data cat month))
    (relevantOf data cat).
Proof.
  unfold dashboardData.
  destruct (fold_left (accumulate month) (relevantOf data cat)
              (0, 0, initialProcessMap PROCESSES)) as [[p a] m].
  cbn [filteredData]. apply sort_Permutation.
Qed.

Lemma FE_Permutation :
  Permutation FE
    (filter (fun d => String.eqb (category d) cat && truthy (date d)
                      && (truthy (date d) && startsWith (trim (date d)) month)) data).
Proof.
  unfold FE, filteredEntriesOf.
  rewrite <- (filter_twice (fun d => String.eqb (category d) cat && truthy (date d))
                (fun d => truthy (date d) && startsWith (trim (date d)) month) data).
  apply Permutation_filter. apply filteredData_Permutation.
Qed.

Lemma FE_listed (d : ProductionEntry) : In d FE <-> listed data cat month d.
Proof.
  split.
  - intros H. apply (Permutation_in _ FE_Permutation) in H.
    apply filter_In in H. destruct H as [Hin Hb].
    apply andb_true_iff in Hb. destruct Hb as [H1 H2].
    apply andb_true_iff in H1. destruct H1 as [Hc Ht].
    apply andb_true_iff in H2. destruct H2 as [_ Hs].
    repeat split; try assumption.
    + now apply String.eqb_eq.
    + now apply truthy_true.
  - intros [Hin [Hc [Ht Hs]]].
    apply (Permutation_in _ (Permutation_sym FE_Permutation)).
    apply filter_In. split; [assumption|].
    apply truthy_true in Ht. rewrite Ht, Hs.
    rewrite (proj2 (String.eqb_eq _ _) Hc). reflexivity.
Qed.

Lemma FO_listed (od : OffDay) : In od FO <-> listedOffDay offDays month od.
Proof.
  unfold FO, filteredOffDaysOf, listedOffDay. rewrite filter_In, andb_true_iff, truthy_true.
  tauto.
Qed.

Lemma entries_Permutation (key : string) :
  Permutation (entries (groupOf FE FO key)) (filter (onDay cat month key) data).
Proof.
  cbn [groupOf entries].
  apply Permutation_trans
    with (filter (fun d => truthy (date d) && String.eqb (dateKey (date d)) key)
            (filter (fun d => String.eqb (category d) cat && truthy (date d)
                              && (truthy (date d) && startsWith (trim (date d)) month))
               data)).
  - apply Permutation_filter. apply FE_Permutation.
  - rewrite filter_twice. erewrite filter_ext; [apply Permutation_refl|].
    intros d. unfold onDay. cbv beta.
    destruct (String.eqb (category d) cat), (truthy (date d)),
      (startsWith (trim (date d)) month), (String.eqb (dateKey (date d)) key);
      reflexivity.
Qed.

Lemma sum_fold_left (l : list ProductionEntry) (z : Z) :
  fold_left (fun sum entry => sum + or0 (actualQuantity entry)) l z
  = z + total actualQuantity l.
Proof.
  revert z. induction l as [|d l IH]; intros z; simpl.
  - unfold total. simpl. lia.
  - rewrite IH. unfold total. simpl. lia.
Qed.

Lemma dates_spec :
  NoDup (datesOf FE FO)
  /\ forall k, In k (datesOf FE FO)
               <-> (exists d, listed data cat month d /\ dateKey (date d) = k)
                   \/ (exists od, listedOffDay offDays month od
                                  /\ dateKey (od_date od) = k).
Proof.
  unfold datesOf.
  destruct (fold_setAdd_spec (fun d => truthy (date d)) (fun d => dateKey (date d)) FE []
              (NoDup_nil _)) as [Hn1 Hi1].
  destruct (fold_setAdd_spec (fun od => truthy (od_date od))
              (fun od => dateKey (od_date od)) FO _ Hn1) as [Hn2 Hi2].
  split; [exact Hn2|]. intros k. rewrite (Hi2 k), (Hi1 k). split.
  - intros [[[]|[d [Hd [_ Hk]]]]|[od [Hod [_ Hk]]]].
    + left. exists d. split; [now apply FE_listed | assumption].
    + right. exists od. split; [now apply FO_listed | assumption].
  - intros [[d [Hd Hk]]|[od [Hod Hk]]].
    + left. right. exists d. split; [now apply FE_listed|]. split; [|assumption].
      apply truthy_true. apply Hd.
    + right. exists od. split; [now apply FO_listed|]. split; [|assumption].
      apply truthy_true. apply Hod.
Qed.

Lemma groups_keys :
  map g_date (dailyGroups localeCompare PROCESSES data offDays cat month)
  = sort (fun a b => localeCompare b a) (datesOf FE FO).
Proof.
  unfold dailyGroups, dailyGroupsOf. fold FE FO. rewrite map_map.
  cbn [groupOf g_date]. apply map_id.
Qed.

Lemma group_of_key (g : DayGroup) :
  In g (dailyGroups localeCompare PROCESSES data offDays cat month) ->
  g = groupOf FE FO (g_date g) /\ In (g_date g) (datesOf FE FO).
Proof.
  unfold dailyGroups, dailyGroupsOf. fold FE FO. intros H.
  apply in_map_iff in H. destruct H as [k [Hk Hin]]. subst g. cbn [groupOf g_date].
  split; [reflexivity|].
  exact (Permutation_in _ (sort_Permutation _ _) Hin).
Qed.

Lemma offDay_of_group (key : string) :
  let g := groupOf FE FO key in
  (isOffDay g = true ->
     exists od, listedOffDay offDays month od /\ dateKey (od_date od) = key
                /\ offDayName g = description od)
  /\ (isOffDay g = false ->
        offDayName g = ""
        /\ forall od, listedOffDay offDays month od -> dateKey (od_date od) <> key).
Proof.
  cbn [groupOf isOffDay offDayName].
  destruct (find (fun od => truthy (od_date od) && String.eqb (dateKey (od_date od)) key)
              FO) as [od|] eqn:E.
  - split; [|discriminate]. intros _. apply find_some in E. destruct E as [Hin Hb].
    apply andb_true_iff in Hb. destruct Hb as [_ Hk]. apply String.eqb_eq in Hk.
    exists od. split; [now apply FO_listed|]. split; [assumption|reflexivity].
  - split; [discriminate|]. intros _. split; [reflexivity|]. intros od Hod Hk.
    assert (Hin : In od FO) by now apply FO_listed.
    pose proof (find_none _ _ E od Hin) as Hb. cbv beta in Hb.
    apply String.eqb_eq in Hk. rewrite Hk, andb_true_r in Hb.
    apply truthy_false in Hb. now destruct Hod as [_ [Hne _]].
Qed.

End Daily.

(** The day listing by the key of the code: what a group carries. *)
Lemma group_by_key
    (localeCompare : string -> string -> Z) (PROCESSES : list ProcessType)
    (data : list ProductionEntry) (offDays : list OffDay) (cat : Category)
    (month : string) (g : Dashboard.DayGroup) :
  In g (Dashboard.dailyGroups localeCompare PROCESSES data offDays cat month) ->
  Permutation (Dashboard.entries g)
    (filter (Agg.onDay cat month (Dashboard.g_date g)) data)
  /\ (forall d, In d (Dashboard.entries g)
                <-> Agg.listed data cat month d
                    /\ Dashboard.dateKey (date d) = Dashboard.g_date g)
  /\ Dashboard.totalActualForDate g
     = Agg.total actualQuantity (Dashboard.entries g)
  /\ (Dashboard.isOffDay g = true
      <-> exists od, Agg.listedOffDay offDays month od
                     /\ Dashboard.dateKey (od_date od) = Dashboard.g_date g)
  /\ (Dashboard.isOffDay g = false -> Dashboard.offDayName g = "").
Proof.
  intros Hg.
  set (FE := Dashboard.filteredEntriesOf
               (Dashboard.filteredData
                  (Dashboard.dashboardData localeCompare PROCESSES data cat month)) month).
  set (FO := Dashboard.filteredOffDaysOf offDays month).
  destruct (group_of_key localeCompare PROCESSES data offDays cat month g Hg)
    as [Heq _].
  fold FE FO in Heq.
  pose proof (entries_Permutation localeCompare PROCESSES data offDays cat month
                (Dashboard.g_date g)) as Hp.
  fold FE FO in Hp. rewrite <- Heq in Hp.
  pose proof (offDay_of_group localeCompare PROCESSES data offDays cat month
                (Dashboard.g_date g)) as [Hon Hoff].
  fold FE FO in Hon, Hoff. rewrite <- Heq in Hon, Hoff.
  split; [exact Hp|]. split; [|split; [|split]].
  - intros d. rewrite Heq at 1. cbn [Dashboard.groupOf Dashboard.entries].
    rewrite filter_In, andb_true_iff, String.eqb_eq.
    pose proof (FE_listed localeCompare PROCESSES data cat month d) as Hfe.
    fold FE in Hfe. rewrite Hfe.
    split.
    + intros [Hl [_ Hk]]. split; assumption.
    + intros [Hl Hk]. split; [assumption|]. split; [|assumption].
      apply truthy_true. apply Hl.
  - rewrite Heq. cbn [Dashboard.groupOf Dashboard.totalActualForDate Dashboard.entries].
    rewrite sum_fold_left. apply Z.add_0_l.
  - split.
    + intros H. destruct (Hon H) as [od [H1 [H2 _]]]. exists od. split; assumption.
    + intros [od [H1 H2]]. destruct (Dashboard.isOffDay g) eqn:E; [reflexivity|].
      destruct (Hoff eq_refl) as [_ Hno]. exfalso. exact (Hno od H1 H2).
  - intros H. apply Hoff. exact H.
Qed.

(** ** The day listing in the words of the design document *)

Section DailyWords.

Import Dashboard.

Variable localeCompare : string -> string -> Z.
Variable PROCESSES : list ProcessType.
Variable data : list ProductionEntry.
Variable offDays : list OffDay.
Variable cat : Category.
Variable month : string.

Let groups : list DayGroup :=
  dailyGroups localeCompare PROCESSES data offDays cat month.

Lemma listed_words (d : ProductionEntry) :
  Agg.listed data cat month d <-> Days.listed data cat month d.
Proof. unfold Agg.listed, Days.listed. now rewrite startsWith_ofMonth. Qed.

Lemma listedOffDay_words (od : OffDay) :
  Agg.listedOffDay offDays month od <-> Days.listedOffDay offDays month od.
Proof. unfold Agg.listedOffDay, Days.listedOffDay. now rewrite startsWith_ofMonth. Qed.

Lemma onDay_words (key : string) (d : ProductionEntry) :
  Agg.onDay cat month key d = Days.onDay cat month key d.
Proof.
  unfold Agg.onDay, Days.onDay. now rewrite truthy_eqb, startsWith_ofMonth, dateKey_dayOf.
Qed.

Lemma total_sumActual (l : list ProductionEntry) :
  Agg.total actualQuantity l = Days.sumActual l.
Proof.
  unfold Agg.total, Days.sumActual. induction l as [|d l IH]; simpl; [reflexivity|].
  rewrite IH. now destruct (actualQuantity d).
Qed.

Lemma find_in_filter {A : Type} (keep test : A -> bool) (l : list A) :
  find test (filter keep l) = find (fun x => keep x && test x) l.
Proof.
  induction l as [|x l IH]; simpl; [reflexivity|].
  destruct (keep x); simpl; [|exact IH]. now destruct (test x).
Qed.

Lemma find_agree {A : Type} (f g : A -> bool) (l : list A) :
  (forall x, f x = g x) -> find f l = find g l.
Proof.
  intros H. induction l as [|x l IH]; simpl; [reflexivity|]. now rewrite H, IH.
Qed.

(** The keys of the listing. *)
Lemma keys_words :
  NoDup (map g_date groups)
  /\ forall k,
       In k (map g_date groups)
       <-> (exists d, Days.listed data cat month d /\ Dates.dayOf (date d) = k)
           \/ (exists od, Days.listedOffDay offDays month od
                          /\ Dates.dayOf (od_date od) = k).
Proof.
  pose proof (dates_spec localeCompare PROCESSES data offDays cat month) as [Hnd Hin].
  pose proof (groups_keys localeCompare PROCESSES data offDays cat month) as Hkeys.
  fold groups in Hkeys.
  assert (Hperm : Permutation (map g_date groups)
                    (datesOf
                       (filteredEntriesOf
                          (filteredData
                             (dashboardData localeCompare PROCESSES data cat month))
                          month)
                       (filteredOffDaysOf offDays month)))
    by (rewrite Hkeys; apply sort_Permutation).
  split.
  - apply (Permutation_NoDup (Permutation_sym Hperm)). exact Hnd.
  - intros k. split.
    + intros H. apply (Permutation_in _ Hperm) in H. apply Hin in H.
      destruct H as [[d [Hd Hk]]|[od [Hod Hk]]]; [left; exists d|right; exists od].
      * split; [now apply listed_words|now rewrite <- dateKey_dayOf].
      * split; [now apply listedOffDay_words|now rewrite <- dateKey_dayOf].
    + intros H. apply (Permutation_in _ (Permutation_sym Hperm)). apply Hin.
      destruct H as [[d [Hd Hk]]|[od [Hod Hk]]]; [left; exists d|right; exists od].
      * split; [now apply listed_words|now rewrite dateKey_dayOf].
      * split; [now apply listedOffDay_words|now rewrite dateKey_dayOf].
Qed.

(** The holiday a group shows is the first off-day of the month on its
    day. *)
Lemma group_first_offDay (g : DayGroup) :
  In g groups ->
  match Days.firstOffDay offDays month (g_date g) with
  | Some od => isOffDay g = true /\ offDayName g = description od
  | None => isOffDay g = false /\ offDayName g = ""
  end.
Proof.
  intros Hg.
  destruct (group_of_key localeCompare PROCESSES data offDays cat month g Hg)
    as [Heq _].
  assert (Hi : isOffDay g
               = isOffDay
                   (groupOf
                      (filteredEntriesOf
                         (filteredData
                            (dashboardData localeCompare PROCESSES data cat month))
                         month)
                      (filteredOffDaysOf offDays month) (g_date g)))
    by now rewrite <- Heq.
  assert (Hn : offDayName g
               = offDayName
                   (groupOf
                      (filteredEntriesOf
                         (filteredData
                            (dashboardData localeCompare PROCESSES data cat month))
                         month)
                      (filteredOffDaysOf offDays month) (g_date g)))
    by now rewrite <- Heq.
  rewrite Hi, Hn. cbn [groupOf isOffDay offDayName].
  unfold filteredOffDaysOf. rewrite find_in_filter.
  rewrite (find_agree _
             (fun od => negb (String.eqb (od_date od) "")
                        && Dates.ofMonth month (od_date od)
                        && String.eqb (Dates.dayOf (od_date od)) (g_date g))).
  - fold (Days.firstOffDay offDays month (g_date g)).
    destruct (Days.firstOffDay offDays month (g_date g)); split; reflexivity.
  - intros od. rewrite truthy_eqb, startsWith_ofMonth, dateKey_dayOf.
    destruct (String.eqb (od_date od) ""), (Dates.ofMonth month (od_date od)),
      (String.eqb (Dates.dayOf (od_date od)) (g_date g)); reflexivity.
Qed.

(** What a group carries. *)
Lemma group_words (g : DayGroup) :
  In g groups ->
  Permutation (entries g) (filter (Days.onDay cat month (g_date g)) data)
  /\ (forall d, In d (entries g)
                <-> Days.listed data cat month d /\ Dates.dayOf (date d) = g_date g)
  /\ totalActualForDate g = Days.sumActual (entries g)
  /\ (isOffDay g = true
      <-> exists od, Days.listedOffDay offDays month od
                     /\ Dates.dayOf (od_date od) = g_date g).
Proof.
  intros Hg.
  destruct (group_by_key localeCompare PROCESSES data offDays cat month g Hg)
    as [Hp [He [Ht [Hf _]]]].
  split; [|split; [|split]].
  - rewrite (filter_ext _ _ (fun d => eq_sym (onDay_words (g_date g) d))). exact Hp.
  - intros d. rewrite He, listed_words, dateKey_dayOf. reflexivity.
  - rewrite Ht. apply total_sumActual.
  - rewrite Hf. split; intros [od [Hod Hk]]; exists od.
    + split; [now apply listedOffDay_words|now rewrite <- dateKey_dayOf].
    + split; [now apply listedOffDay_words|now rewrite dateKey_dayOf].
Qed.

End DailyWords.

(** C5.  When the collation of the host is a total preorder, the day
    listing of a category and month has one group for each distinct
    normalized date (the trimmed date cut to its first 10 characters)
    found among the dated entries of the category and the dated off-days
    whose trimmed date starts with the month, and no other group; the
    dates stand in descending order.  A group carries the entries of the
    month on its date, the sum of their actual quantities (what is not a
    number adding nothing), and the off-day flag, which is set exactly
    when an off-day of the month falls on its date, with the description
    of the first such off-day of the calendar (the empty text when there
    is none).  An off-day of the month on which no entry falls still has
    its group, with no entries and the flag set. *)
Theorem daily_groups_by_day_key
    (localeCompare : string -> string -> Z) (PROCESSES : list ProcessType)
    (data : list ProductionEntry) (offDays : list OffDay) (cat : Category)
    (month : string) :
  (forall a b, localeCompare a b <= 0 \/ localeCompare b a <= 0) ->
  (forall a b c, localeCompare a b <= 0 -> localeCompare b c <= 0 ->
                 localeCompare a c <= 0) ->
  let groups := Dashboard.dailyGroups localeCompare PROCESSES data offDays cat month in
  let keys := map Dashboard.g_date groups in
  NoDup keys
  /\ (forall k,
        In k keys
        <-> (exists d, Days.listed data cat month d /\ Dates.dayOf (date d) = k)
            \/ (exists od, Days.listedOffDay offDays month od
                           /\ Dates.dayOf (od_date od) = k))
  /\ StronglySorted (fun a b => localeCompare b a <= 0) keys
  /\ (forall g,
        In g groups ->
        Permutation (Dashboard.entries g)
          (filter (Days.onDay cat month (Dashboard.g_date g)) data)
        /\ (forall d, In d (Dashboard.entries g)
                      <-> Days.listed data cat month d
                          /\ Dates.dayOf (date d) = Dashboard.g_date g)
        /\ Dashboard.totalActualForDate g = Days.sumActual (Dashboard.entries g)
        /\ (Dashboard.isOffDay g = true
            <-> exists od, Days.listedOffDay offDays month od
                           /\ Dates.dayOf (od_date od) = Dashboard.g_date g)
        /\ match Days.firstOffDay offDays month (Dashboard.g_date g) with
           | Some od => Dashboard.isOffDay g = true
                        /\ Dashboard.offDayName g = description od
           | None => Dashboard.isOffDay g = false /\ Dashboard.offDayName g = ""
           end)
  /\ (forall od,
        Days.listedOffDay offDays month od ->
        (forall d, Days.listed data cat month d ->
                   Dates.dayOf (date d) <> Dates.dayOf (od_date od)) ->
        exists g, In g groups
                  /\ Dashboard.g_date g = Dates.dayOf (od_date od)
                  /\ Dashboard.entries g = []
                  /\ Dashboard.isOffDay g = true).
Proof.
  intros Htotal Htrans groups keys.
  destruct (keys_words localeCompare PROCESSES data offDays cat month) as [Hnd Hin].
  fold groups in Hnd, Hin. fold keys in Hnd, Hin.
  split; [exact Hnd|]. split; [exact Hin|]. split; [|split].
  - unfold keys, groups.
    rewrite (groups_keys localeCompare PROCESSES data offDays cat month).
    apply (sort_StronglySorted (fun a b => localeCompare b a)).
    + intros a b. destruct (Htotal a b); [right|left]; assumption.
    + intros a b c Hab Hbc. exact (Htrans c b a Hbc Hab).
  - intros g Hg.
    destruct (group_words localeCompare PROCESSES data offDays cat month g Hg)
      as [Hp [He [Ht Hf]]].
    split; [exact Hp|]. split; [exact He|]. split; [exact Ht|]. split; [exact Hf|].
    exact (group_first_offDay localeCompare PROCESSES data offDays cat month g Hg).
  - intros od Hod Hnone.
    assert (Hk : In (Dates.dayOf (od_date od)) keys).
    { apply Hin. right. exists od. split; [assumption|reflexivity]. }
    unfold keys in Hk. apply in_map_iff in Hk. destruct Hk as [g [Hgk Hg]].
    exists g. split; [assumption|]. split; [assumption|].
    destruct (group_words localeCompare PROCESSES data offDays cat month g Hg)
      as [_ [He [_ Hf]]]. split.
    + destruct (Dashboard.entries g) as [|d l] eqn:E; [reflexivity|].
      exfalso. destruct (proj1 (He d) (or_introl eq_refl)) as [Hl Hd].
      apply (Hnone d Hl). congruence.
    + apply Hf. exists od. split; [assumption|]. congruence.
Qed.

Lemma daily_groups_by_day_key_witness :
  let groups :=
    Dashboard.dailyGroups Agg.codeUnitCompare Sample.processes Sample.january
      Sample.holidays "Healthcare" "2024-01" in
  (forall a b, Agg.codeUnitCompare a b <= 0 \/ Agg.codeUnitCompare b a <= 0)
  /\ (forall a b c, Agg.codeUnitCompare a b <= 0 -> Agg.codeUnitCompare b c <= 0 ->
                    Agg.codeUnitCompare a c <= 0)
  /\ NoDup (map Dashboard.g_date groups)
  /\ StronglySorted (fun a b => Agg.codeUnitCompare b a <= 0)
       (map Dashboard.g_date groups)
  /\ (In "2024-01-10" (map Dashboard.g_date groups)
      <-> (exists d, Days.listed Sample.january "Healthcare" "2024-01" d
                     /\ Dates.dayOf (date d) = "2024-01-10")
          \/ (exists od, Days.listedOffDay Sample.holidays "2024-01" od
                         /\ Dates.dayOf (od_date od) = "2024-01-10"))
  /\ map (fun g => (Dashboard.g_date g, Dashboard.totalActualForDate g,
                    map productName (Dashboard.entries g), Dashboard.isOffDay g,
                    Dashboard.offDayName g)) groups
     = [("2024-01-25", 0, [], true, "Thaipusam");
        ("2024-01-11", 35, ["Herbal Balm"], true, "Founders Day");
        ("2024-01-10", 55, ["Pain Relief Gel 50g"; "Pain Relief Gel 50g"], false, "")]
  /\ map (fun g => map date (Dashboard.entries g)) groups
     = [[]; ["2024-01-11"]; ["2024-01-10"; " 2024-01-10 21:15:00 "]].
Proof.
  intros groups.
  split; [exact codeUnitCompare_total|]. split; [exact codeUnitCompare_trans|].
  destruct (daily_groups_by_day_key Agg.codeUnitCompare Sample.processes
              Sample.january Sample.holidays "Healthcare" "2024-01"
              codeUnitCompare_total codeUnitCompare_trans) as [Hn [Hk [Hs _]]].
  split; [exact Hn|]. split; [exact Hs|]. split; [exact (Hk "2024-01-10")|].
  split; reflexivity.
Defined.

(** C7, as the code has it.  The day listing of the dashboard goes by the
    trimmed date cut to its first 10 characters: that is the key of a
    day, an entry of the month stands in the group of its key and an
    off-day of the month flags the group of its key.  The modal goes by
    the trimmed date up to its first space: the off-day check finds an
    off-day exactly when one has the same such text as the date of the
    form, the candidate plans of a day are the stored entries with the
    same such text, and a new plan and an edited entry are stored under
    it.  The two forms agree, and are the date of 10 characters, whenever
    the trimmed text is a date of 10 characters without a space, alone or
    followed by a space and a time of day. *)
Theorem date_key_by_component :
  (forall d, Dashboard.dateKey d = String.substring 0 10 (Dates.strip d))
  /\ (forall localeCompare PROCESSES data offDays cat month g,
        In g (Dashboard.dailyGroups localeCompare PROCESSES data offDays cat month) ->
        (forall d, In d (Dashboard.entries g)
                   <-> Days.listed data cat month d
                       /\ String.substring 0 10 (Dates.strip (date d))
                          = Dashboard.g_date g)
        /\ (Dashboard.isOffDay g = true
            <-> exists od, Days.listedOffDay offDays month od
                           /\ String.substring 0 10 (Dates.strip (od_date od))
                              = Dashboard.g_date g))
  /\ (forall d p, InputModal.normalizeDate d = p <-> Dates.headOf (Dates.strip d) p)
  /\ (forall offDays d,
        (forall od, InputModal.currentOffDay offDays d = Some od ->
                    In od offDays /\ Dates.sameHead (od_date od) d)
        /\ (InputModal.currentOffDay offDays d = None
            <-> forall od, In od offDays -> ~ Dates.sameHead (od_date od) d))
  /\ (forall all d p,
        In p (InputModal.plans all d) <-> In p all /\ Dates.sameHead (date p) d)
  /\ (forall env offDays f s,
        InputModal.editEntry f = None ->
        InputModal.tab f = InputModal.Plan ->
        (forall od, In od offDays -> ~ Dates.sameHead (od_date od) (InputModal.f_date f)) ->
        exists e,
          production (InputModal.store (InputModal.handleSubmit env offDays f s))
          = (production s ++ [e])%list
          /\ Dates.headOf (Dates.strip (InputModal.f_date f)) (date e))
  /\ (forall env offDays f s e i,
        InputModal.editEntry f = Some e ->
        nth_error (production s) i = Some e ->
        exists e',
          nth_error
            (production (InputModal.store (InputModal.handleSubmit env offDays f s))) i
          = Some e'
          /\ Dates.headOf (Dates.strip (InputModal.f_date f)) (date e'))
  /\ (forall d p r,
        Dates.strip d = p ++ r -> String.length p = 10%nat -> Props.spaceFree p ->
        (r = "" \/ exists r', r = String " " r') ->
        InputModal.normalizeDate d = p /\ Dashboard.dateKey d = p).
Proof.
  split; [exact dateKey_dayOf|]. split; [|split; [|split; [|split; [|split; [|split]]]]].
  - intros localeCompare PROCESSES data offDays cat month g Hg.
    destruct (group_words localeCompare PROCESSES data offDays cat month g Hg)
      as [_ [He [_ Hf]]].
    split; [exact He|exact Hf].
  - exact normalizeDate_headOf.
  - exact currentOffDay_words.
  - exact plans_words.
  - intros env offDays f s He Ht Ho.
    apply (proj2 (currentOffDay_words offDays (InputModal.f_date f))) in Ho.
    rewrite unlocked_outcome by now right.
    unfold InputModal.tryBody. rewrite He, Ht. eexists. split; [reflexivity|].
    cbn [date]. now apply normalizeDate_headOf.
  - intros env offDays f s e i He Hi.
    rewrite unlocked_outcome by (left; congruence).
    destruct (edit_between env e f s i He Hi) as [s' [Hb [Hn _]]].
    rewrite Hb. cbn [InputModal.store]. eexists. split; [exact Hn|].
    cbn [InputModal.editedRecord date]. now apply normalizeDate_headOf.
  - intros d p r Ht Hlen Hp Hr. unfold InputModal.normalizeDate, Dashboard.dateKey.
    rewrite trim_strip, Ht. split.
    + now apply splitSpaceHead_app.
    + rewrite <- Hlen. apply substring0_app.
Qed.

Lemma date_key_by_component_witness :
  let d := "  2024-01-10 08:30:00 " in
  let cal := [mkOffDay " 2024-01-10 00:00:00" "Founders Day"] in
  Dates.strip d = "2024-01-10" ++ " 08:30:00"
  /\ InputModal.normalizeDate d = "2024-01-10"
  /\ Dashboard.dateKey d = "2024-01-10"
  /\ InputModal.currentOffDay cal d = Some (mkOffDay " 2024-01-10 00:00:00" "Founders Day")
  /\ Dates.sameHead " 2024-01-10 00:00:00" d.
Proof.
  intros d cal.
  assert (Hs : Dates.strip d = "2024-01-10" ++ " 08:30:00") by reflexivity.
  assert (Hp : Props.spaceFree "2024-01-10").
  { intros c Hc. simpl in Hc.
    repeat (destruct Hc as [Hc|Hc]; [subst c; discriminate|]). destruct Hc. }
  split; [exact Hs|].
  destruct date_key_by_component as [_ [_ [_ [Hoff [_ [_ [_ Hagree]]]]]]].
  destruct (Hagree d "2024-01-10" " 08:30:00" Hs eq_refl Hp
              (or_intror (ex_intro _ "08:30:00" eq_refl))) as [Hn Hk].
  split; [exact Hn|]. split; [exact Hk|]. split; [reflexivity|].
  exact (proj2 (proj1 (Hoff cal d) _ eq_refl)).
Defined.

(** C7, as the design document words it, fails in the modal: a date that
    the store holds in the ISO form, the time of day following the letter
    T, is not cut to its first 10 characters there.  The dashboard shows
    such an off-day on its day and lists such an entry under its day; the
    modal finds no off-day on that day, writes the plan, and does not
    offer the entry as a candidate of the day. *)
Lemma date_not_cut_to_ten_characters :
  let stored := "2024-01-25T00:00:00.000Z" in
  let cal := [mkOffDay stored "Thaipusam"] in
  let f := InputModal.mkForm None InputModal.Plan "2024-01-25" "Healthcare" "Mixing"
             "Gel" "10" "KG" "0" "" "" in
  let out := InputModal.handleSubmit Sample.env cal f Sample.store0 in
  let early :=
    mkEntry "1706140000000" "2024-01-25T06:00:00.000Z" "Healthcare" "Packing" "Gel" "KG"
      (Num 20) (Num 0) None None "u1" "2024-01-25T06:00:00.000Z" in
  String.substring 0 10 (Dates.strip stored) = "2024-01-25"
  /\ InputModal.normalizeDate stored = stored
  /\ InputModal.normalizeDate stored <> String.substring 0 10 (Dates.strip stored)
  /\ InputModal.currentOffDay cal (InputModal.f_date f) = None
  /\ map date (production (InputModal.store out))
     = ["2024-01-10"; "2024-01-11"; "2024-01-25"]
  /\ InputModal.plans [early] "2024-01-25" = []
  /\ map (fun g => (Dashboard.g_date g, map id (Dashboard.entries g),
                    Dashboard.isOffDay g, Dashboard.offDayName g))
       (Dashboard.dailyGroups Agg.codeUnitCompare Sample.processes
          (production (InputModal.store out) ++ [early])%list cal "Healthcare" "2024-01")
     = [("2024-01-25", ["1706140000000"; "1704900000000"], true, "Thaipusam");
        ("2024-01-11", ["1704880000000"], false, "");
        ("2024-01-10", ["1704870000000"], false, "")].
Proof.
  intros stored cal f out early. split; [reflexivity|]. split; [reflexivity|].
  split; [discriminate|]. split; [reflexivity|]. split; [reflexivity|].
  split; reflexivity.
Qed.

(** ** The export *)

Section Exporter.

Import Dashboard Agg.

Lemma rowsOfGroup_lines (g : DayGroup) :
  map (map cellText) (rowsOfGroup g) = linesOfGroup g.
Proof.
  unfold rowsOfGroup, linesOfGroup. destruct (entries g) as [|d ds] eqn:E.
  - reflexivity.
  - assert (Hz : (Z.of_nat (List.length (d :: ds)) =? 0) = false)
      by (apply Z.eqb_neq; simpl; lia).
    rewrite Hz. rewrite map_map. apply map_ext. intros e. unfold entryLine. simpl.
    destruct (batchNo e), (manpower e); reflexivity.
Qed.

Lemma csvRows_lines (groups : list DayGroup) :
  map (map cellText) (csvRows groups) = flat_map linesOfGroup groups.
Proof.
  unfold csvRows. induction groups as [|g gs IH]; simpl; [reflexivity|].
  now rewrite map_app, IH, rowsOfGroup_lines.
Qed.

End Exporter.

(** C9, as the code has it.  The exported text is the header line
    Date,Status,Process,Product,Plan,Actual,Unit,Batch No,Manpower followed
    by the lines of the groups in their order, cells joined by commas and
    lines by line feeds.  A group with entries gives one line for each of
    its entries; a group without entries gives one line that shows its
    date, the holiday name, or the words Off Day when it has no holiday
    name, a hyphen for process, product, unit and batch, and 0 for plan,
    actual and manpower. *)
Theorem csv_lines_by_group (groups : list Dashboard.DayGroup) :
  Dashboard.csvText groups
  = join Dashboard.newline
      ("Date,Status,Process,Product,Plan,Actual,Unit,Batch No,Manpower"
         :: map (join ",") (flat_map Agg.linesOfGroup groups))
  /\ Dashboard.csvContent groups
     = "data:text/csv;charset=utf-8," ++ Dashboard.csvText groups
  /\ (forall g,
        Dashboard.entries g = [] ->
        Agg.linesOfGroup g
        = [[Dashboard.g_date g; strOr (Dashboard.offDayName g) "Off Day";
            "-"; "-"; "0"; "0"; "-"; "-"; "0"]])
  /\ (forall g,
        Dashboard.entries g <> [] ->
        Agg.linesOfGroup g = map (Agg.entryLine g) (Dashboard.entries g)
        /\ List.length (Agg.linesOfGroup g) = List.length (Dashboard.entries g)).
Proof.
  split; [|split; [reflexivity|split]].
  - unfold Dashboard.csvText. f_equal. f_equal.
    rewrite <- csvRows_lines, map_map. reflexivity.
  - intros g Hg. unfold Agg.linesOfGroup. now rewrite Hg.
  - intros g Hg. unfold Agg.linesOfGroup.
    destruct (Dashboard.entries g) as [|d ds]; [congruence|].
    split; [reflexivity | apply length_map].
Qed.

Lemma csv_lines_by_group_witness :
  let g := Dashboard.mkDayGroup "2024-01-25" 0 [] true "Thaipusam" in
  Dashboard.entries g = []
  /\ Agg.linesOfGroup g = [["2024-01-25"; "Thaipusam"; "-"; "-"; "0"; "0"; "-"; "-"; "0"]].
Proof.
  intros g. split; [reflexivity|].
  apply (proj1 (proj2 (proj2 (csv_lines_by_group [g]))) g eq_refl).
Defined.

(** C9, as the design document words it, fails on the stand-in for a name:
    for an off-day without a description and without entries the status
    cell reads Off Day, not a hyphen. *)
Lemma placeholder_reads_off_day :
  let groups :=
    Dashboard.dailyGroups Agg.codeUnitCompare Sample.processes []
      [mkOffDay "2024-01-20" ""] "Healthcare" "2024-01" in
  groups = [Dashboard.mkDayGroup "2024-01-20" 0 [] true ""]
  /\ map (map Dashboard.cellText) (Dashboard.csvRows groups)
     = [["2024-01-20"; "Off Day"; "-"; "-"; "0"; "0"; "-"; "-"; "0"]]
  /\ map (map Dashboard.cellText) (Dashboard.csvRows groups)
     <> map Agg.claimedPlaceholderLine groups
  /\ Dashboard.csvText groups
     = "Date,Status,Process,Product,Plan,Actual,Unit,Batch No,Manpower"
         ++ Dashboard.newline ++ "2024-01-20,Off Day,-,-,0,0,-,-,0".
Proof.
  intros groups. split; [reflexivity|]. split; [reflexivity|].
  split; [discriminate|reflexivity].
Qed.

(** ** The user list *)

Section Users.

Import UserManagement Admins.

Lemma role_eqb_eq (a b : Role) : role_eqb a b = true <-> a = b.
Proof. destruct a, b; simpl; split; congruence. Qed.

Lemma admins_In (users : list User) (u : User) :
  In u (filter isAdmin users) <-> In u users /\ role u = admin.
Proof. rewrite filter_In. unfold isAdmin. now rewrite role_eqb_eq. Qed.

Lemma two_members {A : Type} (l : list A) (a b : A) :
  In a l -> In b l -> a <> b -> (2 <= List.length l)%nat.
Proof.
  destruct l as [|x [|y l]]; simpl; intros Ha Hb Hab.
  - destruct Ha.
  - destruct Ha as [Ha|[]], Hb as [Hb|[]]. congruence.
  - lia.
Qed.

Lemma distinct_ids_filter (keep : User -> bool) (us : list User) :
  NoDup (map u_id us) -> NoDup (map u_id (filter keep us)).
Proof.
  induction us as [|x us IH]; simpl; intros H; [constructor|].
  apply NoDup_cons_iff in H. destruct H as [Hx Hus].
  destruct (keep x); simpl; [|now apply IH].
  apply NoDup_cons_iff. split; [|now apply IH].
  intros Hin. apply Hx. apply in_map_iff in Hin. destruct Hin as [y [Hy Hin]].
  apply filter_In in Hin. apply in_map_iff. exists y. tauto.
Qed.

(** Among two or more accounts with distinct ids, one has an id other
    than a given one. *)
Lemma other_id (l : list User) (i : string) :
  NoDup (map u_id l) -> (2 <= List.length l)%nat ->
  exists a, In a l /\ u_id a <> i.
Proof.
  destruct l as [|x [|y l]]; simpl; intros Hn Hlen; try lia.
  destruct (string_dec (u_id x) i) as [E|E].
  - exists y. split; [auto|]. inversion Hn as [|? ? Hx _]; subst.
    intros Hy. apply Hx. left. congruence.
  - exists x. split; [auto|assumption].
Qed.

Lemma disabled_iff (users : list User) (u : User) :
  deleteDisabled users u = true
  <-> role u = admin /\ (List.length (filter isAdmin users) <= 1)%nat.
Proof.
  unfold deleteDisabled. rewrite andb_true_iff, role_eqb_eq, Z.leb_le.
  fold isAdmin. split; intros [H1 H2]; split; try assumption; lia.
Qed.

(** What a click on the delete button leaves of the list. *)
Lemma clickDelete_users (cur : User) (confirmed : bool) (u : User) (st : State) :
  st_users (fst (clickDelete cur confirmed u st))
  = if deleteDisabled (st_users st) u || negb confirmed then st_users st
    else filter (fun x => negb (String.eqb (u_id x) (u_id u))) (st_users st).
Proof.
  unfold clickDelete, handleDelete.
  destruct (deleteDisabled (st_users st) u), confirmed; reflexivity.
Qed.

Lemma handleAddUser_users (cur : User) (now : string) (nu : NewUser) (st : State) :
  st_users (fst (handleAddUser cur now nu st)) = st_users st
  \/ st_users (fst (handleAddUser cur now nu st))
     = (st_users st
          ++ [mkUser now (n_name nu) (n_username nu) (n_email nu) (n_role nu)
                (n_password nu)])%list.
Proof.
  unfold handleAddUser.
  destruct (existsb _ (st_users st)); [left|right]; reflexivity.
Qed.

Lemma step_sound (st st' : State) :
  step st st' -> sound (st_users st) -> sound (st_users st').
Proof.
  intros Hstep [Hn [a [Ha Hrole]]]. destruct Hstep as [cur now nu Hfresh|cur c u Hu].
  - destruct (handleAddUser_users cur now nu st) as [E|E]; rewrite E.
    + split; [assumption|]. exists a. split; assumption.
    + split.
      * rewrite map_app. simpl. apply NoDup_app; [assumption| |].
        -- constructor; [intros []|constructor].
        -- intros x Hx [Hx'|[]]. subst x. contradiction.
      * exists a. split; [|assumption]. apply in_or_app. now left.
  - rewrite clickDelete_users.
    destruct (deleteDisabled (st_users st) u || negb c) eqn:E.
    + split; [assumption|]. exists a. split; assumption.
    + apply orb_false_iff in E. destruct E as [Hd _].
      split; [now apply distinct_ids_filter|].
      assert (Hex : exists b, In b (st_users st) /\ role b = admin /\ u_id b <> u_id u).
      { destruct (role_eqb (role u) admin) eqn:Er.
        - apply role_eqb_eq in Er.
          assert (Hlen : (2 <= List.length (filter isAdmin (st_users st)))%nat).
          { destruct (le_lt_dec (List.length (filter isAdmin (st_users st))) 1)
              as [Hle|Hgt]; [|lia].
            exfalso. assert (Ht : deleteDisabled (st_users st) u = true)
              by (apply disabled_iff; split; assumption).
            congruence. }
          destruct (other_id (filter isAdmin (st_users st)) (u_id u)
                      (distinct_ids_filter _ _ Hn) Hlen) as [b [Hb Hid]].
          apply admins_In in Hb. exists b. tauto.
        - exists a. split; [assumption|]. split; [assumption|].
          intros Hid. 
          assert (a = u).
          { clear - Hn Ha Hu Hid. induction (st_users st) as [|x l IH]; [destruct Ha|].
            simpl in Hn. inversion Hn as [|? ? Hx Hl]; subst.
            destruct Ha as [Ha|Ha], Hu as [Hu|Hu]; subst.
            - reflexivity.
            - exfalso. apply Hx. rewrite Hid. now apply in_map.
            - exfalso. apply Hx. rewrite <- Hid. now apply in_map.
            - now apply IH. }
          subst a. rewrite Hrole in Er. discriminate. }
      destruct Hex as [b [Hb [Hrb Hid]]]. exists b. split; [|assumption].
      apply filter_In. split; [assumption|].
      apply negb_true_iff. now apply String.eqb_neq.
Qed.

End Users.

(** C8.  The delete button of the only admin is disabled: a click on it
    changes nothing and logs nothing.  The delete of an admin goes
    through when another admin with another id is listed: that account is
    gone, the other admin stays and the list is saved.  Hence from a list
    with distinct ids and an admin, every list reached by creating
    accounts (under fresh ids) and clicking delete buttons has an
    admin. *)
Theorem last_admin_cannot_be_deleted :
  (forall cur confirmed u st,
      role u = admin ->
      (List.length (filter Admins.isAdmin (UserManagement.st_users st)) <= 1)%nat ->
      UserManagement.clickDelete cur confirmed u st = (st, []))
  /\ (forall cur u v st,
        In u (UserManagement.st_users st) -> role u = admin ->
        In v (UserManagement.st_users st) -> role v = admin -> u_id v <> u_id u ->
        let st' := fst (UserManagement.clickDelete cur true u st) in
        UserManagement.st_users st'
        = filter (fun x => negb (String.eqb (u_id x) (u_id u))) (UserManagement.st_users st)
        /\ ~ In u (UserManagement.st_users st')
        /\ In v (UserManagement.st_users st')
        /\ users (UserManagement.st_store st') = UserManagement.st_users st')
  /\ (forall init st,
        NoDup (map u_id (UserManagement.st_users init)) ->
        Admins.hasAdmin (UserManagement.st_users init) ->
        Admins.reachable init st ->
        Admins.hasAdmin (UserManagement.st_users st)).
Proof.
  split; [|split].
  - intros cur confirmed u st Hr Hlen. unfold UserManagement.clickDelete.
    now rewrite (proj2 (disabled_iff (UserManagement.st_users st) u) (conj Hr Hlen)).
  - intros cur u v st Hu Hru Hv Hrv Hid st'.
    assert (Hen : UserManagement.deleteDisabled (UserManagement.st_users st) u = false).
    { destruct (UserManagement.deleteDisabled (UserManagement.st_users st) u) eqn:E;
        [|reflexivity].
      apply disabled_iff in E. destruct E as [_ Hle]. exfalso.
      assert (2 <= List.length (filter Admins.isAdmin (UserManagement.st_users st)))%nat.
      { apply (two_members _ u v); try (apply admins_In; split; assumption).
        intros E. subst v. congruence. }
      lia. }
    assert (Hus : UserManagement.st_users st'
                  = filter (fun x => negb (String.eqb (u_id x) (u_id u)))
                      (UserManagement.st_users st)).
    { subst st'. rewrite clickDelete_users, Hen. reflexivity. }
    split; [exact Hus|]. rewrite Hus. split; [|split].
    + rewrite filter_In, String.eqb_refl. intros [_ H]. discriminate.
    + apply filter_In. split; [assumption|].
      apply negb_true_iff. now apply String.eqb_neq.
    + subst st'. unfold UserManagement.clickDelete. rewrite Hen. reflexivity.
  - intros init st Hn Ha Hreach.
    enough (H : Admins.sound (UserManagement.st_users st)) by apply H.
    induction Hreach as [|st st' _ IH Hstep].
    + split; assumption.
    + exact (step_sound st st' Hstep IH).
Qed.

Lemma last_admin_cannot_be_deleted_witness :
  let st := UserManagement.mkState [Sample.alice; Sample.carol]
              (mkStore [] [] [Sample.alice; Sample.carol]) in
  role Sample.alice = admin
  /\ (List.length (filter Admins.isAdmin (UserManagement.st_users st)) <= 1)%nat
  /\ UserManagement.clickDelete Sample.alice true Sample.alice st = (st, []).
Proof.
  intros st.
  assert (Hr : role Sample.alice = admin) by reflexivity.
  assert (Hl : (List.length (filter Admins.isAdmin (UserManagement.st_users st)) <= 1)%nat)
    by (simpl; lia).
  split; [exact Hr|]. split; [exact Hl|].
  exact (proj1 last_admin_cannot_be_deleted Sample.alice true Sample.alice st Hr Hl).
Defined.

(** C8, as the design document words it, fails on a list in which two
    accounts share an id: the delete goes by id, so the delete of an
    account that is no admin takes the admin of the same id with it.
    Two accounts get one id when they are created under one value of the
    clock. *)
Lemma shared_id_removes_last_admin :
  let dave := mkUser "u1" "Dave" "dave" "dave@example.com" operator "secret" in
  let st := UserManagement.mkState [Sample.alice; dave]
              (mkStore [] [] [Sample.alice; dave]) in
  let st' := fst (UserManagement.clickDelete Sample.alice true dave st) in
  let init := UserManagement.mkState [Sample.alice; Sample.carol]
                (mkStore [] [] [Sample.alice; Sample.carol]) in
  let s1 := fst (UserManagement.handleAddUser Sample.alice "1705046400000"
                   (UserManagement.mkNewUser "Dave" "dave" "dave@example.com" operator
                      "secret") init) in
  let s2 := fst (UserManagement.handleAddUser Sample.alice "1705046400000"
                   (UserManagement.mkNewUser "Erin" "erin" "erin@example.com" admin
                      "secret") s1) in
  let erin := mkUser "1705046400000" "Erin" "erin" "erin@example.com" admin "secret" in
  let dave2 := mkUser "1705046400000" "Dave" "dave" "dave@example.com" operator
                 "secret" in
  let s3 := fst (UserManagement.clickDelete erin true Sample.alice s2) in
  let s4 := fst (UserManagement.clickDelete erin true dave2 s3) in
  (Admins.hasAdmin (UserManagement.st_users st)
   /\ Admins.anyRun st st'
   /\ UserManagement.st_users st' = []
   /\ ~ Admins.hasAdmin (UserManagement.st_users st'))
  /\ (Admins.hasAdmin (UserManagement.st_users init)
      /\ NoDup (map u_id (UserManagement.st_users init))
      /\ UserManagement.st_users s2 = [Sample.alice; Sample.carol; dave2; erin]
      /\ UserManagement.st_users s3 = [Sample.carol; dave2; erin]
      /\ Admins.anyRun init s4
      /\ UserManagement.st_users s4 = [Sample.carol]
      /\ users (UserManagement.st_store s4) = [Sample.carol]
      /\ ~ Admins.hasAdmin (UserManagement.st_users s4)).
Proof.
  intros dave st st' init s1 s2 erin dave2 s3 s4. split.
  - split; [exists Sample.alice; split; [now left|reflexivity]|].
    split.
    + apply (Admins.run_step st st st' (Admins.run_init st)).
      apply Admins.any_delete. simpl. auto.
    + split; [reflexivity|]. intros [u [[] _]].
  - split; [exists Sample.alice; split; [now left|reflexivity]|].
    split.
    { repeat (constructor; [simpl; intros H;
                            repeat (destruct H as [H|H]; [discriminate|]); exact H|]).
      constructor. }
    split; [reflexivity|]. split; [reflexivity|]. split.
    + apply (Admins.run_step init s3 s4).
      * apply (Admins.run_step init s2 s3).
        -- apply (Admins.run_step init s1 s2).
           ++ apply (Admins.run_step init init s1 (Admins.run_init init)).
              apply Admins.any_add.
           ++ apply Admins.any_add.
        -- apply Admins.any_delete. simpl. auto.
      * apply Admins.any_delete. simpl. auto.
    + split; [reflexivity|]. split; [reflexivity|].
      intros [u [[Hu|[]] Hr]]. subst u. discriminate.
Qed.

(** ** Worked examples *)

Section Examples.

Import Sample.

(** A plan of 100 KG, an actual of 80 on the same entry, and the figures
    of the month: plan 100, actual 80, efficiency 80. *)
Example plan_then_actual_then_month :
  let plan := InputModal.mkForm None InputModal.Plan "2024-01-10" "Healthcare" "Mixing"
                "Pain Relief Gel 50g" "100" "KG" "0" "" "" in
  let s1 := InputModal.store
              (InputModal.handleSubmit env calendar plan (mkStore [] [] [alice])) in
  let s2 := InputModal.store
              (InputModal.handleSubmit env calendar
                 (actualOf "2024-01-10" (InputModal.now env)) s1) in
  let st := Dashboard.selectedMonthStats
              (Dashboard.dashboardData Agg.codeUnitCompare processes (production s2)
                 "Healthcare" "2024-01") in
  Dashboard.plan st = 100
  /\ Dashboard.actual st = 80
  /\ Dashboard.efficiency st = ofInt 80.
Proof.
  intros plan s1 s2 st. split; [reflexivity|]. split; reflexivity.
Qed.

(** The quotient is rounded before it is multiplied: 7 made of 25 planned
    shows as 28.000000000000004, one unit in the last place above 28. *)
Example seven_of_twenty_five :
  Dashboard.efficiencyOf 25 7 = SpecFloat.S754_finite false 7881299347898369 (-48)
  /\ ofInt 28 = SpecFloat.S754_finite false 7881299347898368 (-48)
  /\ Doubles.integerOf (Dashboard.efficiencyOf 25 7) = None.
Proof. split; [reflexivity|]. split; reflexivity. Qed.

(** The edit modal submitted as it opened logs the no-change line. *)
Example untouched_edit_logs_no_change :
  logs (InputModal.store
          (InputModal.handleSubmit env calendar (InputModal.openFor balm) store0))
  = [mkLog "u1" "Alice" EDIT_RECORD
       "Updated record for Herbal Balm (Filling) on 2024-01-11 (No values changed)"].
Proof. reflexivity. Qed.

(** One field changed: the line names that field and no other. *)
Example one_change_logs_one_field :
  let f := InputModal.mkForm (Some balm) InputModal.Actual "2024-01-11" "Healthcare"
             "Filling" "Herbal Balm" "36" "PCS" "3" "B-7" "" in
  logs (InputModal.store (InputModal.handleSubmit env calendar f store0))
  = [mkLog "u1" "Alice" EDIT_RECORD
       "Edited Herbal Balm (Filling) on 2024-01-11: Actual Qty (35 → 36)"].
Proof. reflexivity. Qed.

(** The day listing of January: a holiday without entries has its group,
    flagged and empty. *)
Example january_listing :
  map (fun g => (Dashboard.g_date g, Dashboard.totalActualForDate g,
                 map productName (Dashboard.entries g), Dashboard.isOffDay g,
                 Dashboard.offDayName g))
    (Dashboard.dailyGroups Agg.codeUnitCompare processes (production store0) holidays
       "Healthcare" "2024-01")
  = [("2024-01-25", 0, [], true, "Thaipusam");
     ("2024-01-11", 35, ["Herbal Balm"], true, "Founders Day");
     ("2024-01-10", 0, ["Pain Relief Gel 50g"], false, "")].
Proof. reflexivity. Qed.

(** The plan page compares dates as they are: an off-day stored with a
    time of day locks the modal but not the plan page. *)
Example plan_page_compares_dates_as_given :
  let fd := InputPlan.mkFormData "2024-01-25" "Healthcare" "Mixing" "Gel" "10" "KG" in
  let penv := InputPlan.mkEnv alice "1706140800000" "2024-01-25T00:00:00.000Z" in
  InputModal.currentOffDay calendar "2024-01-25" = Some thaipusam
  /\ InputPlan.currentOffDay calendar fd = None
  /\ List.length (production (InputPlan.store (InputPlan.handleSubmit penv calendar fd store0)))
     = 3%nat.
Proof. intros fd penv. repeat split. Qed.

(** Two admins: one may go; then the other may not. *)
Example second_admin_may_go :
  let st := UserManagement.mkState [alice; bob; carol] store0 in
  let st1 := fst (UserManagement.clickDelete alice true bob st) in
  let st2 := fst (UserManagement.clickDelete alice true alice st1) in
  UserManagement.st_users st1 = [alice; carol]
  /\ UserManagement.st_users st2 = [alice; carol].
Proof. intros st st1 st2. split; reflexivity. Qed.

End Examples.

(* ================================================================== *)
(** * Further properties of the code *)

(** ** Printing a number and reading it back *)

Section Decimal.

Import Decimal.

Lemma digits_acc (d : uint) :
  forall acc : positive,
    digits 10 (Some (Zpos acc)) (NilEmpty.string_of_uint d)
    = Some (Zpos (Pos.of_uint_acc d acc)).
Proof.
  induction d; intros acc; cbn [NilEmpty.string_of_uint digits Pos.of_uint_acc];
    try reflexivity;
    match goal with
    | |- context [digitVal 10 ?c] =>
        let v := eval vm_compute in (digitVal 10 c) in
        change (digitVal 10 c) with v
    end;
    cbv beta iota; rewrite <- IHd; do 2 f_equal; lia.
Qed.

Lemma digits_zero (d : uint) :
  digits 10 (Some 0) (NilEmpty.string_of_uint d) = Some (Z.of_N (Pos.of_uint d)).
Proof.
  induction d; cbn [NilEmpty.string_of_uint digits Pos.of_uint];
    try reflexivity;
    match goal with
    | |- context [digitVal 10 ?c] =>
        let v := eval vm_compute in (digitVal 10 c) in
        change (digitVal 10 c) with v
    end;
    cbv beta iota; try exact IHd;
    change (0 * 10 + ?k) with k; apply digits_acc.
Qed.

Lemma digits_start (d : uint) :
  d <> Nil ->
  digits 10 None (NilEmpty.string_of_uint d) = Some (Z.of_N (Pos.of_uint d)).
Proof.
  intros Hd. rewrite <- digits_zero.
  destruct d; [congruence| ..]; reflexivity.
Qed.

Lemma unsignedInt_decimal (d : uint) :
  unsignedInt (NilEmpty.string_of_uint d) = digits 10 None (NilEmpty.string_of_uint d).
Proof.
  destruct d as [|d| | | | | | | | |]; try reflexivity.
  destruct d; reflexivity.
Qed.

Lemma printed_nonnil (p : positive) :
  NilZero.string_of_uint (Pos.to_uint p) = NilEmpty.string_of_uint (Pos.to_uint p).
Proof.
  assert (Hn := DecimalPos.Unsigned.to_uint_nonnil p).
  unfold NilZero.string_of_uint. destruct (Pos.to_uint p); [congruence| ..]; reflexivity.
Qed.

(** A printed integer reads back as itself. *)
Lemma parseInt_ZToString (z : Z) : parseInt (ZToString z) = Num z.
Proof.
  unfold ZToString. destruct z as [|p|p]; [reflexivity| |];
    cbn [Z.to_int NilZero.string_of_int]; rewrite printed_nonnil;
    assert (Hn := DecimalPos.Unsigned.to_uint_nonnil p); unfold parseInt.
  - assert (Ht : trimStart (NilEmpty.string_of_uint (Pos.to_uint p))
                 = NilEmpty.string_of_uint (Pos.to_uint p))
      by (destruct (Pos.to_uint p); reflexivity).
    rewrite Ht.
    assert (Hb : match NilEmpty.string_of_uint (Pos.to_uint p) with
                 | String "-" r => (-1, r)
                 | String "+" r => (1, r)
                 | _ => (1, NilEmpty.string_of_uint (Pos.to_uint p))
                 end = (1, NilEmpty.string_of_uint (Pos.to_uint p)))
      by (destruct (Pos.to_uint p); reflexivity).
    rewrite Hb, unsignedInt_decimal, (digits_start _ Hn).
    rewrite DecimalPos.Unsigned.of_to. reflexivity.
  - cbn [trimStart]. change (isWhiteSpace "-") with false. cbv iota.
    rewrite unsignedInt_decimal, (digits_start _ Hn).
    rewrite DecimalPos.Unsigned.of_to. reflexivity.
Qed.

Lemma ZToString_nonempty (z : Z) : strOr (ZToString z) "0" = ZToString z.
Proof.
  unfold ZToString. destruct z as [|p|p]; [reflexivity| |reflexivity].
  cbn [Z.to_int NilZero.string_of_int]. rewrite printed_nonnil.
  assert (Hn := DecimalPos.Unsigned.to_uint_nonnil p).
  destruct (Pos.to_uint p); [congruence| ..]; reflexivity.
Qed.

End Decimal.

(** ** More on the entry editor *)

Section EditorMore.

Import InputModal Props Further.

Lemma numNeq_same (z : Z) : numNeq (Num z) (Num z) = false.
Proof. simpl. now rewrite Z.eqb_refl. Qed.

Lemma reread (z : Z) : parseInt (strOr (ZToString z) "0") = Num z.
Proof. now rewrite ZToString_nonempty, parseInt_ZToString. Qed.

Lemma openFor_changes_nothing (e : ProductionEntry) :
  normalizeDate (date e) = date e ->
  e_unit e <> "" ->
  numGt0 (actualQuantity e) = true \/ planQuantity e <> NaN ->
  manpower e <> Some NaN ->
  changedFields e (openFor e) = [].
Proof.
  intros Hd Hu Hq Hm. unfold changedFields, fieldDiffs.
  cbn [openFor f_date f_productName f_category f_process f_unit f_quantity f_manpower
         f_batchNo tab].
  rewrite !Hd, !String.eqb_refl.
  assert (Eu : strOr (e_unit e) "KG" = e_unit e).
  { revert Hu. destruct (e_unit e); intros Hu; [congruence|reflexivity]. }
  rewrite Eu. unfold batchOf. rewrite ?String.eqb_refl.
  assert (Em : numNeq (Num (optOr0 (manpower e)))
                 (parseInt
                    (strOr (strOr match manpower e with
                                  | Some n => numToString n
                                  | None => ""
                                  end "0") "0")) = false).
  { revert Hm. destruct (manpower e) as [[m|]|]; intros Hm; [|congruence|reflexivity].
    cbn [numToString optOr0 or0]. rewrite ZToString_nonempty, reread.
    apply numNeq_same. }
  rewrite Em.
  destruct (numGt0 (actualQuantity e)) eqn:Ea.
  - destruct (actualQuantity e) as [a|]; [|discriminate].
    cbn [or0]. rewrite reread, numNeq_same. reflexivity.
  - destruct Hq as [Hq|Hq]; [discriminate|].
    revert Hq. destruct (planQuantity e) as [p|]; intros Hq; [|congruence].
    cbn [or0]. rewrite reread, numNeq_same. reflexivity.
Qed.

(** What the body of an edit writes. *)
Lemma edit_body (env : Env) (f : Form) (s : Store) (e : ProductionEntry) :
  editEntry f = Some e ->
  exists s',
    tryBody env f (normalizeDate (f_date f)) s = inr s'
    /\ production s'
       = map (fun p => if String.eqb (id p) (id e)
                       then editedRecord env f (normalizeDate (f_date f)) p else p)
           (production s)
    /\ logs s' = (logs s ++ [auditLine env e f])%list
    /\ users s' = users s.
Proof.
  intros He. destruct (edit_log_details env e f s He) as [s' [Hb [Hl Hu]]].
  exists s'. split; [exact Hb|]. split; [|split; assumption].
  unfold tryBody in Hb. rewrite He in Hb. injection Hb as <-. reflexivity.
Qed.

End EditorMore.

(** X1.  The edit modal opened on an entry and submitted untouched logs
    the no-change line, provided the entry is stored the way the modal
    writes entries: the date in the modal's form of it, a unit, no NaN in
    the quantity the modal opens on nor in the manpower. *)
Theorem untouched_edit_logs_no_change_line
    (env : InputModal.Env) (offDays : list OffDay) (s : Store) (e : ProductionEntry) :
  InputModal.normalizeDate (date e) = date e ->
  e_unit e <> "" ->
  numGt0 (actualQuantity e) = true \/ planQuantity e <> NaN ->
  manpower e <> Some NaN ->
  logs (InputModal.store (InputModal.handleSubmit env offDays (InputModal.openFor e) s))
  = (logs s
       ++ [mkLog (u_id (InputModal.user env)) (name (InputModal.user env)) EDIT_RECORD
             ("Updated record for " ++ productName e ++ " (" ++ process e ++ ") on "
                ++ date e ++ " (No values changed)")])%list.
Proof.
  intros Hd Hu Hq Hm.
  rewrite unlocked_outcome by (left; discriminate).
  destruct (edit_body env (InputModal.openFor e) s e eq_refl) as [s' [Hb [_ [Hl _]]]].
  rewrite Hb. cbn [InputModal.store]. rewrite Hl. do 2 f_equal.
  unfold Props.auditLine. rewrite (openFor_changes_nothing e Hd Hu Hq Hm). reflexivity.
Qed.

Lemma untouched_edit_logs_no_change_line_witness :
  InputModal.normalizeDate (date Sample.gel) = date Sample.gel
  /\ e_unit Sample.gel <> ""
  /\ manpower Sample.gel <> Some NaN
  /\ List.length
       (logs (InputModal.store
                (InputModal.handleSubmit Sample.env Sample.calendar
                   (InputModal.openFor Sample.gel) Sample.store0))) = 1%nat.
Proof.
  assert (Hd : InputModal.normalizeDate (date Sample.gel) = date Sample.gel) by reflexivity.
  assert (Hu : e_unit Sample.gel <> "") by discriminate.
  assert (Hq : numGt0 (actualQuantity Sample.gel) = true \/ planQuantity Sample.gel <> NaN)
    by (right; discriminate).
  assert (Hm : manpower Sample.gel <> Some NaN) by discriminate.
  split; [exact Hd|]. split; [exact Hu|]. split; [exact Hm|].
  rewrite (untouched_edit_logs_no_change_line Sample.env Sample.calendar Sample.store0
             Sample.gel Hd Hu Hq Hm).
  reflexivity.
Defined.

(** X2.  An edit goes through whatever the calendar says, keeps the number
    and the order of the stored entries and every id, leaves the entries
    with another id as they were, and on an entry with the edited id
    writes the form: date, category, process, product, unit, batch,
    manpower, the quantity of the open tab (the other quantity is kept),
    the user and the time.  When no stored entry has the edited id, the
    entries are written back as they were. *)
Theorem edit_rewrites_only_its_record
    (env : InputModal.Env) (offDays : list OffDay) (f : InputModal.Form) (s : Store)
    (e : ProductionEntry) :
  InputModal.editEntry f = Some e ->
  let out := InputModal.handleSubmit env offDays f s in
  Props.synchronized out
  /\ users (InputModal.store out) = users s
  /\ map id (production (InputModal.store out)) = map id (production s)
  /\ (forall i p, nth_error (production s) i = Some p ->
        exists p', nth_error (production (InputModal.store out)) i = Some p'
          /\ (id p <> id e -> p' = p)
          /\ (id p = id e -> Further.editedAs env f p p'))
  /\ ((forall p, In p (production s) -> id p <> id e) ->
        production (InputModal.store out) = production s).
Proof.
  intros He out. subst out.
  rewrite unlocked_outcome by (left; congruence).
  destruct (edit_body env f s e He) as [s' [Hb [Hp [_ Hu]]]].
  rewrite Hb. cbn [InputModal.store]. split; [repeat split|]. split; [exact Hu|].
  rewrite Hp. split; [|split].
  - rewrite map_map. apply map_ext. intros p.
    now destruct (String.eqb (id p) (id e)).
  - intros i p Hi. rewrite (nth_error_map_if _ _ _ _ _ Hi). eexists.
    split; [reflexivity|]. split.
    + intros Hne. apply String.eqb_neq in Hne. now rewrite Hne.
    + intros Heq. apply String.eqb_eq in Heq. rewrite Heq.
      unfold Further.editedAs, InputModal.editedRecord. cbn.
      destruct (InputModal.tab f); repeat split.
  - intros Hno. apply map_if_id. intros p Hp'. apply String.eqb_neq. now apply Hno.
Qed.

Lemma edit_rewrites_only_its_record_witness :
  InputModal.editEntry Sample.editBalm = Some Sample.balm
  /\ map id (production
               (InputModal.store
                  (InputModal.handleSubmit Sample.env Sample.calendar Sample.editBalm
                     Sample.store0)))
     = map id (production Sample.store0).
Proof.
  split; [reflexivity|].
  apply (edit_rewrites_only_its_record Sample.env Sample.calendar Sample.editBalm
           Sample.store0 Sample.balm eq_refl).
Defined.

(** X3.  The off-day calendar has no say in an edit: the outcome is the
    one an empty calendar gives, also when the date of the form is an
    off-day. *)
Theorem edit_ignores_calendar
    (env : InputModal.Env) (offDays : list OffDay) (f : InputModal.Form) (s : Store) :
  InputModal.editEntry f <> None ->
  InputModal.handleSubmit env offDays f s = InputModal.handleSubmit env [] f s.
Proof.
  intros He. rewrite !unlocked_outcome by now left. reflexivity.
Qed.

Lemma edit_ignores_calendar_witness :
  let f := InputModal.mkForm (Some Sample.balm) InputModal.Actual "2024-01-25" "Healthcare"
             "Filling" "Herbal Balm" "35" "PCS" "3" "B-7" "" in
  InputModal.editEntry f <> None
  /\ Props.flagged Sample.calendar (InputModal.f_date f)
  /\ InputModal.handleSubmit Sample.env Sample.calendar f Sample.store0
     = InputModal.handleSubmit Sample.env [] f Sample.store0.
Proof.
  intros f. assert (He : InputModal.editEntry f <> None) by discriminate.
  split; [exact He|]. split.
  - exists Sample.thaipusam. split; [simpl; auto | reflexivity].
  - exact (edit_ignores_calendar Sample.env Sample.calendar f Sample.store0 He).
Defined.

(** ** The shape of normalized dates *)

Section DateShape.

Import Props Further.

Lemma splitSpaceHead_spaceFree (s : string) : spaceFree (splitSpaceHead s).
Proof.
  induction s as [|c s IH]; intros x Hx; simpl in Hx; [destruct Hx|].
  destruct (Ascii.eqb c " ") eqn:E; simpl in Hx; [destruct Hx|].
  destruct Hx as [Hx|Hx]; [|now apply IH].
  subst x. now apply Ascii.eqb_neq.
Qed.

Lemma splitSpaceHead_prefix (s : string) : isPrefixOf (splitSpaceHead s) s.
Proof.
  induction s as [|c s [r IH]]; [now exists ""|]. simpl.
  destruct (Ascii.eqb c " ").
  - now exists (String c s).
  - exists r. simpl. now rewrite <- IH.
Qed.

Lemma substring0_prefix (n : nat) (s : string) : isPrefixOf (substring0 n s) s.
Proof.
  revert s. induction n as [|n IH]; intros s.
  - exists s. now destruct s.
  - destruct s as [|c s]; [now exists ""|]. destruct (IH s) as [r Hr].
    exists r. simpl. now rewrite <- Hr.
Qed.

Lemma substring0_length (n : nat) (s : string) : (String.length (substring0 n s) <= n)%nat.
Proof.
  revert s. induction n as [|n IH]; intros [|c s]; simpl; try lia.
  specialize (IH s). lia.
Qed.

Lemma substring0_short (n : nat) (s : string) :
  (String.length s <= n)%nat -> substring0 n s = s.
Proof.
  revert s. induction n as [|n IH]; intros [|c s] H; simpl in *; try reflexivity; try lia.
  f_equal. apply IH. lia.
Qed.

Lemma whitespaceFree_tail (c : ascii) (s : string) :
  whitespaceFree (String c s) -> isWhiteSpace c = false /\ whitespaceFree s.
Proof.
  intros H. split; [apply H; now left|]. intros x Hx. apply H. now right.
Qed.

Lemma trimEnd_whitespaceFree (s : string) : whitespaceFree s -> trimEnd s = s.
Proof.
  induction s as [|c s IH]; intros H; [reflexivity|].
  apply whitespaceFree_tail in H. destruct H as [Hc Hs]. simpl.
  rewrite (IH Hs), Hc. now destruct s.
Qed.

Lemma trim_whitespaceFree (s : string) : whitespaceFree s -> trim s = s.
Proof.
  intros H. unfold trim.
  assert (Ht : trimStart s = s).
  { destruct s as [|c s]; [reflexivity|]. simpl.
    now rewrite (proj1 (whitespaceFree_tail c s H)). }
  rewrite Ht. now apply trimEnd_whitespaceFree.
Qed.

Lemma splitSpaceHead_whitespaceFree (s : string) :
  whitespaceFree s -> splitSpaceHead s = s.
Proof.
  induction s as [|c s IH]; intros H; [reflexivity|].
  apply whitespaceFree_tail in H. destruct H as [Hc Hs]. simpl.
  destruct (Ascii.eqb c " ") eqn:E.
  - apply Ascii.eqb_eq in E. subst c. discriminate.
  - now rewrite (IH Hs).
Qed.

Lemma normalizeDate_whitespaceFree (d : string) :
  whitespaceFree d -> InputModal.normalizeDate d = d.
Proof.
  intros H. unfold InputModal.normalizeDate. rewrite (trim_whitespaceFree d H).
  now apply splitSpaceHead_whitespaceFree.
Qed.

End DateShape.

(** X4.  The date the modal compares and stores is an initial part of the
    trimmed input and has no space in it; the day key of the dashboard is
    an initial part of the trimmed input of at most 10 characters.  On a
    date without white space, as a date input gives it, the modal's form
    is the date itself, and so is the day key when the date has at most
    10 characters. *)
Theorem normalized_date_shape (d : string) :
  Props.spaceFree (InputModal.normalizeDate d)
  /\ Further.isPrefixOf (InputModal.normalizeDate d) (trim d)
  /\ Further.isPrefixOf (Dashboard.dateKey d) (trim d)
  /\ (String.length (Dashboard.dateKey d) <= 10)%nat
  /\ (Further.whitespaceFree d ->
        InputModal.normalizeDate d = d
        /\ ((String.length d <= 10)%nat -> Dashboard.dateKey d = d)).
Proof.
  split; [apply splitSpaceHead_spaceFree|].
  split; [apply splitSpaceHead_prefix|].
  split; [apply substring0_prefix|].
  split; [apply substring0_length|].
  intros H. split; [now apply normalizeDate_whitespaceFree|].
  intros Hl. unfold Dashboard.dateKey. rewrite (trim_whitespaceFree d H).
  now apply substring0_short.
Qed.

Lemma normalized_date_shape_witness :
  Further.whitespaceFree "2024-01-10"
  /\ InputModal.normalizeDate "2024-01-10" = "2024-01-10".
Proof.
  assert (H : Further.whitespaceFree "2024-01-10").
  { intros c Hc. simpl in Hc.
    repeat (destruct Hc as [Hc|Hc]; [subst c; reflexivity|]). destruct Hc. }
  split; [exact H|].
  exact (proj1 (proj2 (proj2 (proj2 (proj2 (normalized_date_shape "2024-01-10")))) H)).
Defined.

(** ** Submissions as a whole *)

(** X5.  Whatever the form, a submission in the modal leaves the user list
    alone and either writes nothing at all (the modal stays open, nothing
    is refreshed) or is reported as synchronized, appends exactly one line
    to the audit log and keeps the ids of the stored entries in place,
    with at most one new id after them. *)
Theorem submit_writes_one_line_or_nothing
    (env : InputModal.Env) (offDays : list OffDay) (f : InputModal.Form) (s : Store) :
  let out := InputModal.handleSubmit env offDays f s in
  users (InputModal.store out) = users s
  /\ ((InputModal.store out = s
       /\ InputModal.closed out = false /\ InputModal.refreshed out = false)
      \/ (Props.synchronized out
          /\ (exists l, logs (InputModal.store out) = (logs s ++ [l])%list)
          /\ exists ids,
               map id (production (InputModal.store out))
               = (map id (production s) ++ ids)%list
               /\ (List.length ids <= 1)%nat)).
Proof.
  intros out. subst out. unfold InputModal.handleSubmit, InputModal.tryBody.
  destruct (InputModal.editEntry f) as [e|] eqn:He.
  - cbn. split; [reflexivity|]. right. split; [repeat split|].
    split; [eexists; reflexivity|]. exists []. rewrite app_nil_r. split; [|simpl; lia].
    unfold getProductionData. rewrite map_map. apply map_ext. intros p.
    now destruct (String.eqb (id p) (id e)).
  - destruct (InputModal.currentOffDay offDays (InputModal.f_date f)) as [od|].
    + cbn. split; [reflexivity|]. left. repeat split.
    + destruct (InputModal.tab f).
      * cbn. split; [reflexivity|]. right. split; [repeat split|].
        split; [eexists; reflexivity|]. eexists. unfold getProductionData.
        rewrite map_app. split; [reflexivity|]. simpl. lia.
      * destruct (truthy (InputModal.selectedPlanId f)); cbn.
        -- split; [reflexivity|]. right. split; [repeat split|].
           split; [eexists; reflexivity|]. exists []. rewrite app_nil_r.
           split; [|simpl; lia].
           unfold getProductionData. rewrite map_map. apply map_ext. intros p.
           now destruct (String.eqb (id p) (InputModal.selectedPlanId f)).
        -- split; [reflexivity|]. left. repeat split.
Qed.

Section TabsMore.

Import InputModal.

Variable env : Env.
Variable offDays : list OffDay.

(** What the Plan tab leaves behind. *)
Lemma plan_outcome (f : Form) (s : Store) :
  editEntry f = None -> tab f = Plan -> currentOffDay offDays (f_date f) = None ->
  exists l,
    InputModal.store (handleSubmit env offDays f s)
    = mkStore (production s ++ [plannedRecord env f])%list (logs s ++ [l])%list (users s)
    /\ action l = CREATE_PLAN.
Proof.
  intros He Ht Ho. rewrite unlocked_outcome by now right.
  unfold tryBody. rewrite He, Ht. eexists. split; reflexivity.
Qed.

(** What the Actual tab leaves behind once a plan is selected. *)
Lemma actual_outcome (f : Form) (s : Store) :
  editEntry f = None -> tab f = Actual -> currentOffDay offDays (f_date f) = None ->
  selectedPlanId f <> "" ->
  exists l,
    InputModal.store (handleSubmit env offDays f s)
    = mkStore
        (map (fun p => if String.eqb (id p) (selectedPlanId f)
                       then recordedActual env f p else p) (production s))
        (logs s ++ [l])%list (users s)
    /\ action l = RECORD_ACTUAL.
Proof.
  intros He Ht Ho Hsel. rewrite unlocked_outcome by now right.
  unfold tryBody. rewrite He, Ht, (proj2 (truthy_true _) Hsel).
  eexists. split; reflexivity.
Qed.

End TabsMore.

(** X6.  A plan created in the modal and an actual recorded on it.  When
    no stored entry has the id the new plan gets, the two submissions
    leave the old entries as they were, followed by one entry that
    carries the plan quantity of the first form and the actual quantity,
    batch and manpower of the second, and two more lines in the log.
    When the date of the plan has no white space, the new plan is among
    the candidates the Actual tab lists for that date. *)
Theorem plan_then_actual_on_it
    (env1 env2 : InputModal.Env) (offDays : list OffDay) (fp fa : InputModal.Form)
    (s : Store) :
  InputModal.editEntry fp = None -> InputModal.tab fp = InputModal.Plan ->
  InputModal.currentOffDay offDays (InputModal.f_date fp) = None ->
  InputModal.editEntry fa = None -> InputModal.tab fa = InputModal.Actual ->
  InputModal.currentOffDay offDays (InputModal.f_date fa) = None ->
  InputModal.now env1 <> "" ->
  InputModal.selectedPlanId fa = InputModal.now env1 ->
  (forall p, In p (production s) -> id p <> InputModal.now env1) ->
  let s1 := InputModal.store (InputModal.handleSubmit env1 offDays fp s) in
  let s2 := InputModal.store (InputModal.handleSubmit env2 offDays fa s1) in
  (exists e,
      production s2 = (production s ++ [e])%list
      /\ id e = InputModal.now env1
      /\ date e = InputModal.normalizeDate (InputModal.f_date fp)
      /\ category e = InputModal.f_category fp
      /\ process e = InputModal.f_process fp
      /\ productName e = InputModal.f_productName fp
      /\ e_unit e = InputModal.f_unit fp
      /\ planQuantity e = parseInt (strOr (InputModal.f_quantity fp) "0")
      /\ actualQuantity e = parseInt (strOr (InputModal.f_quantity fa) "0")
      /\ batchNo e = Some (InputModal.f_batchNo fa)
      /\ manpower e = Some (parseInt (strOr (InputModal.f_manpower fa) "0"))
      /\ lastUpdatedBy e = u_id (InputModal.user env2))
  /\ (exists l1 l2,
        logs s2 = (logs s ++ [l1; l2])%list
        /\ action l1 = CREATE_PLAN /\ action l2 = RECORD_ACTUAL)
  /\ (Further.whitespaceFree (InputModal.f_date fp) ->
        exists e1, In e1 (InputModal.plans (production s1) (InputModal.f_date fp))
                   /\ id e1 = InputModal.now env1).
Proof.
  intros Hep Htp Hop Hea Hta Hoa Hnow Hsel Hfresh. cbv zeta.
  destruct (plan_outcome env1 offDays fp s Hep Htp Hop) as [l1 [Hs1 Hl1]].
  assert (Hsel' : InputModal.selectedPlanId fa <> "") by congruence.
  rewrite Hs1.
  destruct (actual_outcome env2 offDays fa
              (mkStore (production s ++ [InputModal.plannedRecord env1 fp])%list
                 (logs s ++ [l1])%list (users s)) Hea Hta Hoa Hsel') as [l2 [Hs2 Hl2]].
  rewrite Hs2. cbn [production logs users]. split; [|split].
  - rewrite map_app, Hsel. cbn [map InputModal.plannedRecord id].
    rewrite String.eqb_refl.
    rewrite (map_if_id _ _ (production s)).
    + eexists. split; [reflexivity|]. cbn. repeat split.
    + intros p Hp. apply String.eqb_neq. now apply Hfresh.
  - exists l1, l2. rewrite <- app_assoc. split; [reflexivity|]. split; assumption.
  - intros Hw. exists (InputModal.plannedRecord env1 fp). split; [|reflexivity].
    unfold InputModal.plans. apply filter_In. split.
    + apply in_or_app. right. left. reflexivity.
    + cbn [InputModal.plannedRecord date].
      rewrite !(normalizeDate_whitespaceFree _ Hw). apply String.eqb_refl.
Qed.

Lemma plan_then_actual_on_it_witness :
  let fp := InputModal.mkForm None InputModal.Plan "2024-01-12" "Healthcare" "Mixing"
              "Lozenges" "100" "KG" "0" "" "" in
  let fa := Sample.actualOf "2024-01-12" (InputModal.now Sample.env) in
  let s2 := InputModal.store
              (InputModal.handleSubmit Sample.env Sample.calendar fa
                 (InputModal.store
                    (InputModal.handleSubmit Sample.env Sample.calendar fp Sample.store0))) in
  (forall p, In p (production Sample.store0) -> id p <> InputModal.now Sample.env)
  /\ List.length (production s2) = 3%nat.
Proof.
  intros fp fa s2.
  assert (Hfresh : forall p, In p (production Sample.store0) ->
                             id p <> InputModal.now Sample.env).
  { intros p Hp. simpl in Hp. destruct Hp as [Hp|[Hp|[]]]; subst p; discriminate. }
  split; [exact Hfresh|].
  assert (Hnow : InputModal.now Sample.env <> "") by discriminate.
  destruct (plan_then_actual_on_it Sample.env Sample.env Sample.calendar fp fa Sample.store0
              eq_refl eq_refl eq_refl eq_refl eq_refl eq_refl Hnow eq_refl Hfresh)
    as [[e [He _]] _].
  subst s2. rewrite He. reflexivity.
Defined.

(** ** The plan page *)

(** X7.  The plan page writes exactly when the date is no off-day (as the
    page compares dates) and both the product name and the quantity are
    filled in: then it appends one entry, with the date and the fields of
    the form, no actual, and the quantity as [parseInt] reads it, and one
    CREATE_PLAN line.  Otherwise it returns the store as it was with an
    error message and no notification; the off-day message takes
    precedence over the one for missing fields. *)
Theorem plan_page_writes_when_valid
    (env : InputPlan.Env) (offDays : list OffDay) (fd : InputPlan.FormData) (s : Store) :
  let out := InputPlan.handleSubmit env offDays fd s in
  let valid := InputPlan.fd_productName fd <> "" /\ InputPlan.fd_quantity fd <> "" in
  (InputPlan.currentOffDay offDays fd = None -> valid ->
     (exists e,
         production (InputPlan.store out) = (production s ++ [e])%list
         /\ id e = InputPlan.now env
         /\ date e = InputPlan.fd_date fd
         /\ category e = InputPlan.fd_category fd
         /\ process e = InputPlan.fd_process fd
         /\ productName e = InputPlan.fd_productName fd
         /\ e_unit e = InputPlan.fd_unit fd
         /\ planQuantity e = parseInt (InputPlan.fd_quantity fd)
         /\ actualQuantity e = Num 0
         /\ batchNo e = None /\ manpower e = None)
     /\ (exists l, logs (InputPlan.store out) = (logs s ++ [l])%list
                   /\ action l = CREATE_PLAN)
     /\ users (InputPlan.store out) = users s
     /\ InputPlan.msg out = InputPlan.mkMsg false "Plan entry added successfully."
     /\ InputPlan.refreshed out = true)
  /\ (InputPlan.currentOffDay offDays fd = None -> ~ valid ->
        InputPlan.store out = s
        /\ InputPlan.msg out = InputPlan.mkMsg true "Please fill all required fields."
        /\ InputPlan.notes out = [] /\ InputPlan.refreshed out = false)
  /\ (forall od, InputPlan.currentOffDay offDays fd = Some od ->
        InputPlan.store out = s
        /\ InputPlan.msg out
           = InputPlan.mkMsg true ("Selected date is an Off Day: " ++ description od ++ ".")
        /\ InputPlan.notes out = [] /\ InputPlan.refreshed out = false).
Proof.
  intros out valid. subst out valid. unfold InputPlan.handleSubmit.
  split; [|split].
  - intros Ho [Hp Hq]. rewrite Ho.
    rewrite (proj2 (truthy_true _) Hp), (proj2 (truthy_true _) Hq). cbn.
    split; [eexists; split; [reflexivity|]; cbn; repeat split|].
    split; [eexists; split; reflexivity|]. repeat split.
  - intros Ho Hv. rewrite Ho.
    destruct (truthy (InputPlan.fd_productName fd)) eqn:Ep;
      destruct (truthy (InputPlan.fd_quantity fd)) eqn:Eq; cbn; try (repeat split; fail).
    exfalso. apply Hv. split; now apply truthy_true.
  - intros od Ho. rewrite Ho. repeat split.
Qed.

Lemma plan_page_writes_when_valid_witness :
  let fd := InputPlan.mkFormData "2024-01-12" "Healthcare" "Mixing" "" "10" "KG" in
  let penv := InputPlan.mkEnv Sample.alice "1705046400000" "2024-01-12T08:00:00.000Z" in
  InputPlan.currentOffDay Sample.calendar fd = None
  /\ ~ (InputPlan.fd_productName fd <> "" /\ InputPlan.fd_quantity fd <> "")
  /\ InputPlan.store (InputPlan.handleSubmit penv Sample.calendar fd Sample.store0)
     = Sample.store0.
Proof.
  intros fd penv.
  assert (Ho : InputPlan.currentOffDay Sample.calendar fd = None) by reflexivity.
  assert (Hv : ~ (InputPlan.fd_productName fd <> "" /\ InputPlan.fd_quantity fd <> ""))
    by (intros [H _]; now apply H).
  split; [exact Ho|]. split; [exact Hv|].
  apply (proj1 (proj2 (plan_page_writes_when_valid penv Sample.calendar fd Sample.store0))
           Ho Hv).
Defined.

(** ** More on the aggregate views *)

Section ViewsMore.

Import Dashboard Agg Further.

Lemma total_cons (q : ProductionEntry -> jsnum) (d : ProductionEntry)
    (l : list ProductionEntry) :
  total q (d :: l) = or0 (q d) + total q l.
Proof. reflexivity. Qed.

Lemma total_Permutation (q : ProductionEntry -> jsnum) (l l' : list ProductionEntry) :
  Permutation l l' -> total q l = total q l'.
Proof.
  induction 1 as [|x l l' H IH|x y l|l l' l'' H1 IH1 H2 IH2].
  - reflexivity.
  - rewrite !total_cons. lia.
  - rewrite !total_cons. lia.
  - lia.
Qed.

Lemma total_flat_map {K : Type} (q : ProductionEntry -> jsnum)
    (g : K -> list ProductionEntry) (keys : list K) :
  total q (flat_map g keys) = sumZ (map (fun k => total q (g k)) keys).
Proof.
  induction keys as [|k keys IH]; simpl; [reflexivity|].
  rewrite total_app, IH. reflexivity.
Qed.

(** The share of one entry in the figures of the known processes. *)
Lemma share_of_entry (x : Z) (n : string) (keys : list string) :
  NoDup keys ->
  sumZ (map (fun k => if String.eqb n k then x else 0) keys)
  = if existsb (String.eqb n) keys then x else 0.
Proof.
  induction 1 as [|k keys Hk Hn IH]; simpl; [reflexivity|].
  rewrite IH. destruct (String.eqb n k) eqn:E; simpl; [|reflexivity].
  apply String.eqb_eq in E. subst k.
  destruct (existsb (String.eqb n) keys) eqn:Ex; [|lia].
  apply existsb_eqb_In in Ex. contradiction.
Qed.

Lemma sumZ_add {K : Type} (f g : K -> Z) (keys : list K) :
  sumZ (map (fun k => f k + g k) keys) = sumZ (map f keys) + sumZ (map g keys).
Proof. induction keys as [|k keys IH]; simpl; [reflexivity|]. rewrite IH. lia. Qed.

Lemma buckets_and_rest (q : ProductionEntry -> jsnum) (keys : list string)
    (E : list ProductionEntry) :
  NoDup keys ->
  total q E
  = sumZ (map (fun k => total q (ofProcess k E)) keys)
    + total q (filter (fun d => negb (existsb (String.eqb (bucketName d)) keys)) E).
Proof.
  intros Hn. induction E as [|d E IH].
  - simpl. unfold total. simpl.
    assert (H0 : sumZ (map (fun _ : string => 0) keys) = 0)
      by (clear; induction keys; simpl; [reflexivity|assumption]).
    rewrite H0. reflexivity.
  - rewrite total_cons, IH.
    assert (Hs : sumZ (map (fun k => total q (ofProcess k (d :: E))) keys)
                 = sumZ (map (fun k => if String.eqb (bucketName d) k
                                       then or0 (q d) else 0) keys)
                   + sumZ (map (fun k => total q (ofProcess k E)) keys)).
    { rewrite <- sumZ_add. f_equal. apply map_ext. intros k. unfold ofProcess.
      cbn [filter].
      destruct (String.eqb (bucketName d) k); [rewrite total_cons|]; lia. }
    rewrite Hs, (share_of_entry _ _ _ Hn). cbn [filter].
    destruct (existsb (String.eqb (bucketName d)) keys); cbn [negb];
      [|rewrite total_cons]; lia.
Qed.

Lemma existsb_same_members (n : string) (l l' : list string) :
  (forall p, In p l <-> In p l') ->
  existsb (String.eqb n) l = existsb (String.eqb n) l'.
Proof.
  intros H. destruct (existsb (String.eqb n) l') eqn:E.
  - apply existsb_eqb_In. apply H. now apply existsb_eqb_In.
  - destruct (existsb (String.eqb n) l) eqn:E'; [|reflexivity].
    apply existsb_eqb_In in E'. apply H in E'. apply existsb_eqb_In in E'. congruence.
Qed.

Lemma flat_map_agree {A B : Type} (f g : A -> list B) (l : list A) :
  (forall a, In a l -> f a = g a) -> flat_map f l = flat_map g l.
Proof.
  induction l as [|a l IH]; intros H; simpl; [reflexivity|].
  rewrite (H a (or_introl eq_refl)), IH; [reflexivity|].
  intros b Hb. apply H. now right.
Qed.

Lemma spread_one {A : Type} (x : A) (g : string -> list A) (n : string)
    (keys : list string) :
  NoDup keys -> In n keys ->
  Permutation (flat_map (fun k => if String.eqb n k then x :: g k else g k) keys)
    (x :: flat_map g keys).
Proof.
  induction 1 as [|k keys Hk Hn IH]; intros Hin; [destruct Hin|].
  cbn [flat_map]. destruct (String.eqb n k) eqn:E.
  - apply String.eqb_eq in E. subst k. simpl. apply perm_skip.
    apply Permutation_app_head.
    erewrite flat_map_agree; [apply Permutation_refl|].
    intros a Ha. cbv beta.
    assert (Ea : String.eqb n a = false)
      by (apply String.eqb_neq; intros E; subst a; contradiction).
    now rewrite Ea.
  - destruct Hin as [Hin|Hin]; [apply String.eqb_neq in E; congruence|].
    apply Permutation_trans with (g k ++ x :: flat_map g keys)%list.
    + apply Permutation_app_head. now apply IH.
    + apply Permutation_sym. apply Permutation_middle.
Qed.

(** Entries spread over the keys of a list without repetition come back
    together, up to order. *)
Lemma spread_Permutation {A : Type} (key : A -> string) (keys : list string)
    (l : list A) :
  NoDup keys -> (forall x, In x l -> In (key x) keys) ->
  Permutation (flat_map (fun k => filter (fun x => String.eqb (key x) k) l) keys) l.
Proof.
  intros Hn. induction l as [|x l IH]; intros Hin.
  - clear. induction keys as [|k keys IH]; simpl; [constructor|assumption].
  - apply Permutation_trans
      with (x :: flat_map (fun k => filter (fun y => String.eqb (key y) k) l) keys).
    + erewrite flat_map_agree.
      * apply (spread_one x (fun k => filter (fun y => String.eqb (key y) k) l) (key x)
                 keys Hn).
        apply Hin. now left.
      * intros k _. cbn [filter]. reflexivity.
    + apply perm_skip. apply IH. intros y Hy. apply Hin. now right.
Qed.

End ViewsMore.

Section ListingMore.

Import Dashboard Agg Further.

Variable localeCompare : string -> string -> Z.
Variable PROCESSES : list ProcessType.
Variable data : list ProductionEntry.
Variable offDays : list OffDay.
Variable cat : Category.
Variable month : string.

Let FE : list ProductionEntry :=
  filteredEntriesOf (filteredData (dashboardData localeCompare PROCESSES data cat month))
    month.
Let FO : list OffDay := filteredOffDaysOf offDays month.
Let groups : list DayGroup :=
  dailyGroups localeCompare PROCESSES data offDays cat month.

Lemma listed_entries_Permutation : Permutation FE (filter (listedb cat month) data).
Proof.
  apply Permutation_trans with (1 := FE_Permutation localeCompare PROCESSES data cat month).
  erewrite filter_ext; [apply Permutation_refl|].
  intros d. unfold listedb. cbv beta.
  destruct (String.eqb (category d) cat), (truthy (date d)),
    (startsWith (trim (date d)) month); reflexivity.
Qed.

Lemma groups_entries_spread :
  flat_map entries groups
  = flat_map (fun k => filter (fun d => String.eqb (dateKey (date d)) k) FE)
      (map g_date groups).
Proof.
  unfold groups, dailyGroups, dailyGroupsOf. fold FE FO.
  rewrite map_map. cbn [groupOf g_date]. rewrite map_id.
  generalize (sort (fun a b => localeCompare b a) (datesOf FE FO)) as ks.
  intros ks. induction ks as [|k ks IH]; [reflexivity|].
  cbn [map flat_map groupOf entries]. rewrite IH. f_equal.
  apply filter_ext_in. intros d Hd.
  assert (Ht : truthy (date d) = true).
  { apply truthy_true. apply (FE_listed localeCompare PROCESSES data cat month d). exact Hd. }
  now rewrite Ht.
Qed.

Lemma groups_entries_Permutation :
  Permutation (flat_map entries groups) (filter (listedb cat month) data).
Proof.
  apply Permutation_trans with FE; [|apply listed_entries_Permutation].
  rewrite groups_entries_spread.
  pose proof (dates_spec localeCompare PROCESSES data offDays cat month) as [Hnd Hin].
  pose proof (groups_keys localeCompare PROCESSES data offDays cat month) as Hk.
  fold FE FO in Hnd, Hin, Hk. fold groups in Hk.
  assert (Hperm : Permutation (map g_date groups) (datesOf FE FO))
    by (rewrite Hk; apply sort_Permutation).
  apply spread_Permutation.
  - apply (Permutation_NoDup (Permutation_sym Hperm)). exact Hnd.
  - intros d Hd. apply (Permutation_in _ (Permutation_sym Hperm)). apply Hin.
    left. exists d. split; [|reflexivity].
    now apply (FE_listed localeCompare PROCESSES data cat month d).
Qed.

Lemma groups_totals :
  map totalActualForDate groups = map (fun g => total actualQuantity (entries g)) groups.
Proof.
  unfold groups, dailyGroups, dailyGroupsOf. rewrite !map_map. apply map_ext.
  intros k. cbn [groupOf totalActualForDate entries]. rewrite sum_fold_left.
  apply Z.add_0_l.
Qed.

End ListingMore.

Lemma startsWith_substring0 (s p : string) :
  startsWith s p = String.eqb (substring0 (String.length p) s) p.
Proof.
  revert s. induction p as [|a p IH]; intros s; simpl.
  - now destruct s.
  - destruct s as [|b s]; [reflexivity|]. simpl. rewrite IH, (Ascii.eqb_sym a b).
    destruct (Ascii.eqb b a); reflexivity.
Qed.

(** X8.  When the collation of the host is a total preorder, the flat
    list of the dashboard holds exactly the dated entries of the category,
    each as often as the store holds it, in descending order of their
    dates as stored; the selected month plays no part in it. *)
Theorem flat_list_sorted_by_date
    (localeCompare : string -> string -> Z) (PROCESSES : list ProcessType)
    (data : list ProductionEntry) (cat : Category) (month : string) :
  (forall a b, localeCompare a b <= 0 \/ localeCompare b a <= 0) ->
  (forall a b c, localeCompare a b <= 0 -> localeCompare b c <= 0 ->
                 localeCompare a c <= 0) ->
  let flat := Dashboard.filteredData
                (Dashboard.dashboardData localeCompare PROCESSES data cat month) in
  Permutation flat
    (filter (fun d => String.eqb (category d) cat && truthy (date d)) data)
  /\ (forall d, In d flat <-> In d data /\ category d = cat /\ date d <> "")
  /\ StronglySorted (fun a b => Agg.notBelow localeCompare (date a) (date b)) flat
  /\ flat = Dashboard.filteredData
              (Dashboard.dashboardData localeCompare PROCESSES data cat "").
Proof.
  intros Htotal Htrans flat.
  pose proof (filteredData_Permutation localeCompare PROCESSES data cat month) as Hp.
  fold flat in Hp. split; [exact Hp|]. split; [|split].
  - intros d. split.
    + intros H. apply (Permutation_in _ Hp) in H. unfold Dashboard.relevantOf in H.
      apply filter_In in H. destruct H as [Hin Hb]. apply andb_true_iff in Hb.
      destruct Hb as [Hc Ht]. apply String.eqb_eq in Hc. apply truthy_true in Ht. tauto.
    + intros [Hin [Hc Ht]]. apply (Permutation_in _ (Permutation_sym Hp)).
      apply filter_In. split; [assumption|]. apply andb_true_iff.
      split; [now apply String.eqb_eq | now apply truthy_true].
  - subst flat. unfold Dashboard.dashboardData.
    destruct (fold_left _ _ _) as [[p a] m]. cbn [Dashboard.filteredData].
    unfold Agg.notBelow.
    apply (sort_StronglySorted (fun a b => localeCompare (date b) (date a))).
    + intros x y. destruct (Htotal (date x) (date y)); [right|left]; assumption.
    + intros x y z Hxy Hyz. exact (Htrans _ _ _ Hyz Hxy).
  - subst flat. unfold Dashboard.dashboardData.
    destruct (fold_left (Dashboard.accumulate month) _ _) as [[p a] m].
    destruct (fold_left (Dashboard.accumulate "") _ _) as [[p' a'] m'].
    reflexivity.
Qed.

Lemma flat_list_sorted_by_date_witness :
  let flat := Dashboard.filteredData
                (Dashboard.dashboardData Agg.codeUnitCompare Sample.processes
                   (production Sample.store0) "Healthcare" "2024-01") in
  (forall a b, Agg.codeUnitCompare a b <= 0 \/ Agg.codeUnitCompare b a <= 0)
  /\ StronglySorted (fun a b => Agg.notBelow Agg.codeUnitCompare (date a) (date b)) flat.
Proof.
  intros flat. split; [exact codeUnitCompare_total|].
  apply (flat_list_sorted_by_date Agg.codeUnitCompare Sample.processes
           (production Sample.store0) "Healthcare" "2024-01"
           codeUnitCompare_total codeUnitCompare_trans).
Defined.

(** X9.  The monthly plan is the sum of the plan figures of the breakdown
    plus the plan quantities of the month's entries counted under a name
    the process table lacks, and likewise for the actual; so the breakdown
    adds up to the monthly figures exactly when every entry of the month
    is counted under a process of the table. *)
Theorem breakdown_adds_up_to_totals
    (localeCompare : string -> string -> Z) (PROCESSES : list ProcessType)
    (data : list ProductionEntry) (cat : Category) (month : string) :
  let dd := Dashboard.dashboardData localeCompare PROCESSES data cat month in
  let rest := Further.unknownEntries PROCESSES (Agg.monthEntries data cat month) in
  Dashboard.plan (Dashboard.selectedMonthStats dd)
  = Further.sumZ (map Dashboard.ps_Plan (Dashboard.chartData dd))
    + Agg.total planQuantity rest
  /\ Dashboard.actual (Dashboard.selectedMonthStats dd)
     = Further.sumZ (map Dashboard.ps_Actual (Dashboard.chartData dd))
       + Agg.total actualQuantity rest
  /\ (rest = [] ->
        Dashboard.plan (Dashboard.selectedMonthStats dd)
        = Further.sumZ (map Dashboard.ps_Plan (Dashboard.chartData dd))
        /\ Dashboard.actual (Dashboard.selectedMonthStats dd)
           = Further.sumZ (map Dashboard.ps_Actual (Dashboard.chartData dd))).
Proof.
  intros dd rest.
  destruct (dashboardData_spec localeCompare PROCESSES data cat month)
    as [Hp [Ha [_ Hc]]].
  fold dd in Hp, Ha, Hc.
  destruct (knownProcesses_spec PROCESSES) as [Hn Hi].
  assert (Hrest : rest
                  = filter (fun d => negb (existsb (String.eqb (Agg.bucketName d))
                                             (Agg.knownProcesses PROCESSES)))
                      (Agg.monthEntries data cat month)).
  { subst rest. unfold Further.unknownEntries. apply filter_ext. intros d.
    f_equal. apply existsb_same_members. intros p. symmetry. apply Hi. }
  assert (HP : Dashboard.plan (Dashboard.selectedMonthStats dd)
               = Further.sumZ (map Dashboard.ps_Plan (Dashboard.chartData dd))
                 + Agg.total planQuantity rest).
  { rewrite Hp, Hc, map_map, Hrest. cbn [Agg.tallyOf Dashboard.ps_Plan].
    apply buckets_and_rest. exact Hn. }
  assert (HA : Dashboard.actual (Dashboard.selectedMonthStats dd)
               = Further.sumZ (map Dashboard.ps_Actual (Dashboard.chartData dd))
                 + Agg.total actualQuantity rest).
  { rewrite Ha, Hc, map_map, Hrest. cbn [Agg.tallyOf Dashboard.ps_Actual].
    apply buckets_and_rest. exact Hn. }
  split; [exact HP|]. split; [exact HA|].
  intros Hnil. rewrite HP, HA, Hnil. unfold Agg.total. simpl. lia.
Qed.

Lemma breakdown_adds_up_to_totals_witness :
  let dd := Dashboard.dashboardData Agg.codeUnitCompare Sample.processes
              (production Sample.store0) "Healthcare" "2024-01" in
  Further.unknownEntries Sample.processes
    (Agg.monthEntries (production Sample.store0) "Healthcare" "2024-01") = []
  /\ Dashboard.plan (Dashboard.selectedMonthStats dd)
     = Further.sumZ (map Dashboard.ps_Plan (Dashboard.chartData dd)).
Proof.
  intros dd.
  assert (H : Further.unknownEntries Sample.processes
                (Agg.monthEntries (production Sample.store0) "Healthcare" "2024-01") = [])
    by reflexivity.
  split; [exact H|].
  apply (proj2 (proj2 (breakdown_adds_up_to_totals Agg.codeUnitCompare Sample.processes
                         (production Sample.store0) "Healthcare" "2024-01")) H).
Defined.

(** X10.  The day groups of a month share out the listed entries: taken
    together, the entries of the groups are the dated entries of the
    category whose trimmed date starts with the month, each as often as
    the store holds it. *)
Theorem day_groups_share_out_entries
    (localeCompare : string -> string -> Z) (PROCESSES : list ProcessType)
    (data : list ProductionEntry) (offDays : list OffDay) (cat : Category)
    (month : string) :
  Permutation
    (flat_map Dashboard.entries
       (Dashboard.dailyGroups localeCompare PROCESSES data offDays cat month))
    (filter (Further.listedb cat month) data).
Proof. apply groups_entries_Permutation. Qed.

(** X11.  For a month of seven characters (YYYY-MM), the actual totals of
    the day groups add up to the monthly actual of the statistics. *)
Theorem day_totals_add_up_to_month
    (localeCompare : string -> string -> Z) (PROCESSES : list ProcessType)
    (data : list ProductionEntry) (offDays : list OffDay) (cat : Category)
    (month : string) :
  String.length month = 7%nat ->
  Further.sumZ
    (map Dashboard.totalActualForDate
       (Dashboard.dailyGroups localeCompare PROCESSES data offDays cat month))
  = Dashboard.actual
      (Dashboard.selectedMonthStats
         (Dashboard.dashboardData localeCompare PROCESSES data cat month)).
Proof.
  intros Hlen.
  destruct (dashboardData_spec localeCompare PROCESSES data cat month) as [_ [Ha _]].
  rewrite Ha, groups_totals, <- (total_flat_map actualQuantity Dashboard.entries).
  rewrite (total_Permutation _ _ _
             (groups_entries_Permutation localeCompare PROCESSES data offDays cat month)).
  f_equal. unfold Agg.monthEntries. rewrite filter_twice. apply filter_ext.
  intros d. unfold Further.listedb, Dashboard.monthKey.
  now rewrite startsWith_substring0, Hlen.
Qed.

Lemma day_totals_add_up_to_month_witness :
  String.length "2024-01" = 7%nat
  /\ Further.sumZ
       (map Dashboard.totalActualForDate
          (Dashboard.dailyGroups Agg.codeUnitCompare Sample.processes
             (production Sample.store0) Sample.holidays "Healthcare" "2024-01"))
     = 35.
Proof.
  split; [reflexivity|].
  rewrite (day_totals_add_up_to_month Agg.codeUnitCompare Sample.processes
             (production Sample.store0) Sample.holidays "Healthcare" "2024-01" eq_refl).
  reflexivity.
Defined.

(** X12.  Every line of the export has nine cells, as the header has, and
    a group gives as many lines as it has entries, or one when it has
    none. *)
Theorem csv_rows_have_nine_cells (groups : list Dashboard.DayGroup) :
  List.length Dashboard.headers = 9%nat
  /\ Forall (fun r => List.length r = 9%nat) (Dashboard.csvRows groups)
  /\ List.length (Dashboard.csvRows groups)
     = list_sum (map (fun g => Nat.max 1 (List.length (Dashboard.entries g))) groups).
Proof.
  split; [reflexivity|]. split.
  - apply Forall_forall. intros r Hr. unfold Dashboard.csvRows in Hr.
    apply in_flat_map in Hr. destruct Hr as [g [_ Hr]].
    unfold Dashboard.rowsOfGroup in Hr.
    destruct (Z.of_nat (List.length (Dashboard.entries g)) =? 0).
    + destruct Hr as [<-|[]]. reflexivity.
    + apply in_map_iff in Hr. destruct Hr as [d [<- _]]. reflexivity.
  - unfold Dashboard.csvRows. induction groups as [|g gs IH]; [reflexivity|].
    cbn [flat_map map list_sum]. rewrite length_app, IH. f_equal.
    unfold Dashboard.rowsOfGroup. destruct (Dashboard.entries g) as [|d ds].
    + reflexivity.
    + assert (E : (Z.of_nat (List.length (d :: ds)) =? 0) = false)
        by (apply Z.eqb_neq; simpl; lia).
      rewrite E, length_map. simpl. reflexivity.
Qed.

(** ** More on the user list *)

Section UsersMore.

Import UserManagement Admins Further.

Lemma same_id_same_user (l : list User) (a b : User) :
  NoDup (map u_id l) -> In a l -> In b l -> u_id a = u_id b -> a = b.
Proof.
  induction l as [|x l IH]; intros Hn Ha Hb Hid; [destruct Ha|].
  simpl in Hn. apply NoDup_cons_iff in Hn. destruct Hn as [Hx Hl].
  destruct Ha as [Ha|Ha], Hb as [Hb|Hb]; subst.
  - reflexivity.
  - exfalso. apply Hx. rewrite Hid. now apply in_map.
  - exfalso. apply Hx. rewrite <- Hid. now apply in_map.
  - now apply IH.
Qed.

Lemma kept_keys_distinct {K : Type} (key : User -> K) (keep : User -> bool)
    (us : list User) :
  NoDup (map key us) -> NoDup (map key (filter keep us)).
Proof.
  induction us as [|x us IH]; simpl; intros H; [constructor|].
  apply NoDup_cons_iff in H. destruct H as [Hx Hus].
  destruct (keep x); simpl; [|now apply IH].
  apply NoDup_cons_iff. split; [|now apply IH].
  intros Hin. apply Hx. apply in_map_iff in Hin. destruct Hin as [y [Hy Hin]].
  apply filter_In in Hin. apply in_map_iff. exists y. tauto.
Qed.

Lemma one_account_less (l : list User) (u : User) :
  NoDup (map u_id l) -> In u l ->
  (List.length (filter (fun x => negb (String.eqb (u_id x) (u_id u))) l) + 1
   = List.length l)%nat.
Proof.
  induction l as [|x l IH]; intros Hn Hu; [destruct Hu|].
  simpl in Hn. apply NoDup_cons_iff in Hn. destruct Hn as [Hx Hl]. simpl.
  destruct (String.eqb (u_id x) (u_id u)) eqn:E; simpl.
  - apply String.eqb_eq in E.
    rewrite (forallb_filter_id _ l); [lia|].
    apply forallb_forall. intros y Hy. apply negb_true_iff. apply String.eqb_neq.
    intros Hid. apply Hx. rewrite E, <- Hid. now apply in_map.
  - destruct Hu as [Hu|Hu]; [subst x; rewrite String.eqb_refl in E; discriminate|].
    rewrite <- (IH Hl Hu). lia.
Qed.

Lemma add_user_accepts (cur : User) (now : string) (nu : NewUser) (st : State) :
  existsb (fun u => String.eqb (toLowerCase (username u)) (toLowerCase (n_username nu)))
    (st_users st) = false ->
  exists l,
    fst (handleAddUser cur now nu st)
    = mkState
        (st_users st
           ++ [mkUser now (n_name nu) (n_username nu) (n_email nu) (n_role nu)
                 (n_password nu)])%list
        (mkStore (production (st_store st)) (logs (st_store st) ++ [l])%list
           (st_users st
              ++ [mkUser now (n_name nu) (n_username nu) (n_email nu) (n_role nu)
                    (n_password nu)])%list)
    /\ action l = ADD_USER.
Proof.
  intros H. unfold handleAddUser. rewrite H. eexists. split; reflexivity.
Qed.

Lemma step_inOrder (st st' : State) : step st st' -> inOrder st -> inOrder st'.
Proof.
  intros Hstep [Hid [Hname Hsync]].
  destruct Hstep as [cur now nu Hfresh|cur c u Hu].
  - destruct (existsb (fun u => String.eqb (toLowerCase (username u))
                                  (toLowerCase (n_username nu))) (st_users st)) eqn:E.
    + unfold handleAddUser. rewrite E. repeat split; assumption.
    + destruct (add_user_accepts cur now nu st E) as [l [Hst _]]. rewrite Hst.
      unfold inOrder. cbn [st_users st_store users]. rewrite !map_app. simpl.
      split; [|split; [|reflexivity]].
      * apply NoDup_app; [assumption|constructor; [intros []|constructor]|].
        intros x Hx [Hx'|[]]. subst x. contradiction.
      * apply NoDup_app; [assumption|constructor; [intros []|constructor]|].
        intros x Hx [Hx'|[]]. subst x. apply in_map_iff in Hx.
        destruct Hx as [v [Hv Hin]].
        assert (Ht : existsb (fun u => String.eqb (toLowerCase (username u))
                                         (toLowerCase (n_username nu))) (st_users st)
                     = true).
        { apply existsb_exists. exists v. split; [assumption|]. now apply String.eqb_eq. }
        congruence.
  - unfold clickDelete, handleDelete.
    destruct (deleteDisabled (st_users st) u); [repeat split; assumption|].
    destruct c; [|repeat split; assumption].
    unfold inOrder. cbn [fst st_users st_store users saveUsers addLog].
    split; [|split; [|reflexivity]]; now apply kept_keys_distinct.
Qed.

End UsersMore.

(** X13.  A new account is turned down, with nothing written, logged or
    notified, when its user name equals that of a listed account up to the
    case of ASCII letters.  When the user names at hand are ASCII text and
    none of the listed ones equals the new one up to case, the account is
    appended under the id of the clock with the name, user name, email,
    role and password of the form; the list is saved as shown, one
    ADD_USER line is logged and the production entries are left alone. *)
Theorem add_user_checks_username
    (cur : User) (now : string) (nu : UserManagement.NewUser) (st : UserManagement.State) :
  ((exists u, In u (UserManagement.st_users st)
              /\ toLowerCase (username u) = toLowerCase (UserManagement.n_username nu)) ->
     UserManagement.handleAddUser cur now nu st = (st, []))
  /\ (Further.asciiText (UserManagement.n_username nu) ->
      (forall u, In u (UserManagement.st_users st) -> Further.asciiText (username u)) ->
      (forall u, In u (UserManagement.st_users st) ->
                 toLowerCase (username u) <> toLowerCase (UserManagement.n_username nu)) ->
        let st' := fst (UserManagement.handleAddUser cur now nu st) in
        let u := mkUser now (UserManagement.n_name nu) (UserManagement.n_username nu)
                   (UserManagement.n_email nu) (UserManagement.n_role nu)
                   (UserManagement.n_password nu) in
        UserManagement.st_users st' = (UserManagement.st_users st ++ [u])%list
        /\ users (UserManagement.st_store st') = UserManagement.st_users st'
        /\ production (UserManagement.st_store st')
           = production (UserManagement.st_store st)
        /\ exists l, logs (UserManagement.st_store st')
                     = (logs (UserManagement.st_store st) ++ [l])%list
                     /\ action l = ADD_USER).
Proof.
  split.
  - intros [u [Hu Heq]]. unfold UserManagement.handleAddUser.
    assert (E : existsb (fun u => String.eqb (toLowerCase (username u))
                                    (toLowerCase (UserManagement.n_username nu)))
                  (UserManagement.st_users st) = true).
    { apply existsb_exists. exists u. split; [assumption|]. now apply String.eqb_eq. }
    now rewrite E.
  - intros _ _ Hno st' u.
    assert (E : existsb (fun u => String.eqb (toLowerCase (username u))
                                    (toLowerCase (UserManagement.n_username nu)))
                  (UserManagement.st_users st) = false).
    { destruct (existsb _ (UserManagement.st_users st)) eqn:E; [|reflexivity].
      apply existsb_exists in E. destruct E as [v [Hv Hb]].
      apply String.eqb_eq in Hb. exfalso. exact (Hno v Hv Hb). }
    destruct (add_user_accepts cur now nu st E) as [l [Hst Hl]].
    subst st'. rewrite Hst. cbn [UserManagement.st_users UserManagement.st_store
                                   users production logs].
    repeat split. exists l. split; [reflexivity|assumption].
Qed.

Lemma add_user_checks_username_witness :
  let st := UserManagement.mkState [Sample.alice; Sample.carol]
              (mkStore [] [] [Sample.alice; Sample.carol]) in
  let nu := UserManagement.mkNewUser "Alice B" "ALICE" "ab@example.com" operator "pw" in
  let nd := UserManagement.mkNewUser "Dave" "Dave" "dave@example.com" operator "pw" in
  (exists u, In u (UserManagement.st_users st)
             /\ toLowerCase (username u) = toLowerCase (UserManagement.n_username nu))
  /\ UserManagement.handleAddUser Sample.alice "1705046400000" nu st = (st, [])
  /\ Further.asciiText (UserManagement.n_username nd)
  /\ (forall u, In u (UserManagement.st_users st) -> Further.asciiText (username u))
  /\ (forall u, In u (UserManagement.st_users st) ->
                toLowerCase (username u) <> toLowerCase (UserManagement.n_username nd))
  /\ UserManagement.st_users
       (fst (UserManagement.handleAddUser Sample.alice "1705046400000" nd st))
     = [Sample.alice; Sample.carol;
        mkUser "1705046400000" "Dave" "Dave" "dave@example.com" operator "pw"].
Proof.
  intros st nu nd.
  assert (H : exists u, In u (UserManagement.st_users st)
                        /\ toLowerCase (username u)
                           = toLowerCase (UserManagement.n_username nu)).
  { exists Sample.alice. split; [now left | reflexivity]. }
  assert (Ha : Further.asciiText (UserManagement.n_username nd)).
  { intros c Hc. vm_compute in Hc.
    repeat (destruct Hc as [Hc|Hc]; [subst c; vm_compute; lia|]). destruct Hc. }
  assert (Hu : forall u, In u (UserManagement.st_users st) ->
                         Further.asciiText (username u)).
  { intros u [Hu|[Hu|[]]]; subst u; intros c Hc; vm_compute in Hc;
      repeat (destruct Hc as [Hc|Hc]; [subst c; vm_compute; lia|]); destruct Hc. }
  assert (Hn : forall u, In u (UserManagement.st_users st) ->
                         toLowerCase (username u)
                         <> toLowerCase (UserManagement.n_username nd)).
  { intros u [E|[E|[]]]; subst u; discriminate. }
  split; [exact H|].
  split; [exact (proj1 (add_user_checks_username Sample.alice "1705046400000" nu st) H)|].
  split; [exact Ha|]. split; [exact Hu|]. split; [exact Hn|].
  exact (proj1 (proj2 (add_user_checks_username Sample.alice "1705046400000" nd st)
                  Ha Hu Hn)).
Defined.

(** X14.  A user list in good order (distinct ids, user names distinct up
    to the case of ASCII letters, the store holding the list shown) stays
    in good order under every run of account creations (under fresh ids)
    and clicks on delete buttons. *)
Theorem user_list_stays_in_order (init st : UserManagement.State) :
  Further.inOrder init -> Admins.reachable init st -> Further.inOrder st.
Proof.
  intros Hinit Hreach. induction Hreach as [|st st' _ IH Hstep].
  - exact Hinit.
  - exact (step_inOrder st st' Hstep IH).
Qed.

Lemma user_list_stays_in_order_witness :
  let init := UserManagement.mkState [Sample.alice; Sample.bob; Sample.carol]
                Sample.store0 in
  let st := fst (UserManagement.clickDelete Sample.alice true Sample.bob init) in
  Further.inOrder init /\ Admins.reachable init st /\ Further.inOrder st.
Proof.
  intros init st.
  assert (Hi : Further.inOrder init).
  { unfold Further.inOrder. simpl. split; [|split; [|reflexivity]];
      repeat (constructor; [simpl; intros H;
                            repeat (destruct H as [H|H]; [discriminate|]); exact H|]);
      constructor. }
  assert (Hr : Admins.reachable init st).
  { apply (Admins.reach_step init init st (Admins.reach_init init)).
    apply Admins.step_delete. simpl. auto. }
  split; [exact Hi|]. split; [exact Hr|].
  exact (user_list_stays_in_order init st Hi Hr).
Defined.

(** X15.  The delete button of an account that is no admin is never
    disabled.  With distinct ids, a confirmed click removes that account
    and no other: the list is one shorter, every account with another id
    stays, and the admins are the same as before. *)
Theorem non_admin_delete_removes_one
    (cur u : User) (st : UserManagement.State) :
  role u <> admin ->
  In u (UserManagement.st_users st) ->
  NoDup (map u_id (UserManagement.st_users st)) ->
  let st' := fst (UserManagement.clickDelete cur true u st) in
  UserManagement.deleteDisabled (UserManagement.st_users st) u = false
  /\ ~ In u (UserManagement.st_users st')
  /\ (forall v, In v (UserManagement.st_users st) -> u_id v <> u_id u ->
                In v (UserManagement.st_users st'))
  /\ (List.length (UserManagement.st_users st') + 1
      = List.length (UserManagement.st_users st))%nat
  /\ filter Admins.isAdmin (UserManagement.st_users st')
     = filter Admins.isAdmin (UserManagement.st_users st).
Proof.
  intros Hr Hu Hn st'.
  assert (Hd : UserManagement.deleteDisabled (UserManagement.st_users st) u = false).
  { unfold UserManagement.deleteDisabled.
    destruct (role_eqb (role u) admin) eqn:E; [|reflexivity].
    apply role_eqb_eq in E. contradiction. }
  assert (Hus : UserManagement.st_users st'
                = filter (fun x => negb (String.eqb (u_id x) (u_id u)))
                    (UserManagement.st_users st)).
  { subst st'. rewrite clickDelete_users, Hd. reflexivity. }
  split; [exact Hd|]. rewrite Hus. split; [|split; [|split]].
  - rewrite filter_In, String.eqb_refl. intros [_ H]. discriminate.
  - intros v Hv Hid. apply filter_In. split; [assumption|].
    apply negb_true_iff. now apply String.eqb_neq.
  - now apply one_account_less.
  - rewrite filter_twice. apply filter_ext_in. intros x Hx. unfold Admins.isAdmin.
    destruct (role_eqb (role x) admin) eqn:E; [|apply andb_false_r].
    rewrite andb_true_r. apply negb_true_iff. apply String.eqb_neq. intros Hid.
    apply role_eqb_eq in E.
    assert (x = u) by (apply (same_id_same_user _ _ _ Hn Hx Hu Hid)).
    subst x. contradiction.
Qed.

Lemma non_admin_delete_removes_one_witness :
  let st := UserManagement.mkState [Sample.alice; Sample.carol]
              (mkStore [] [] [Sample.alice; Sample.carol]) in
  role Sample.carol <> admin
  /\ In Sample.carol (UserManagement.st_users st)
  /\ UserManagement.st_users
       (fst (UserManagement.clickDelete Sample.alice true Sample.carol st))
     = [Sample.alice].
Proof.
  intros st.
  assert (Hr : role Sample.carol <> admin) by discriminate.
  assert (Hu : In Sample.carol (UserManagement.st_users st)) by (simpl; auto).
  assert (Hn : NoDup (map u_id (UserManagement.st_users st))).
  { simpl. repeat (constructor; [simpl; intros H;
                                  repeat (destruct H as [H|H]; [discriminate|]); exact H|]).
    constructor. }
  split; [exact Hr|]. split; [exact Hu|].
  destruct (non_admin_delete_removes_one Sample.alice Sample.carol st Hr Hu Hn)
    as [_ _].
  reflexivity.
Defined.

(** ** What the views never look at *)

(** X16.  An entry of another category, or an entry without a date, has
    no part in the views of a category: the flat list, the monthly
    statistics, the breakdown and the day groups are the same with and
    without it. *)
Theorem other_category_has_no_part
    (localeCompare : string -> string -> Z) (PROCESSES : list ProcessType)
    (data1 data2 : list ProductionEntry) (d : ProductionEntry) (offDays : list OffDay)
    (cat : Category) (month : string) :
  category d <> cat \/ date d = "" ->
  Dashboard.dashboardData localeCompare PROCESSES (data1 ++ d :: data2)%list cat month
  = Dashboard.dashboardData localeCompare PROCESSES (data1 ++ data2)%list cat month
  /\ Dashboard.dailyGroups localeCompare PROCESSES (data1 ++ d :: data2)%list offDays
       cat month
     = Dashboard.dailyGroups localeCompare PROCESSES (data1 ++ data2)%list offDays
         cat month.
Proof.
  intros H.
  assert (Hrel : Dashboard.relevantOf (data1 ++ d :: data2)%list cat
                 = Dashboard.relevantOf (data1 ++ data2)%list cat).
  { unfold Dashboard.relevantOf. apply filter_without.
    destruct H as [H|H].
    - apply String.eqb_neq in H. now rewrite H.
    - rewrite H. apply andb_false_r. }
  assert (Hdd : Dashboard.dashboardData localeCompare PROCESSES (data1 ++ d :: data2)%list
                  cat month
                = Dashboard.dashboardData localeCompare PROCESSES (data1 ++ data2)%list
                    cat month).
  { unfold Dashboard.dashboardData. now rewrite Hrel. }
  split; [exact Hdd|]. unfold Dashboard.dailyGroups. now rewrite Hdd.
Qed.

Lemma other_category_has_no_part_witness :
  let d := mkEntry "1704891000000" "2024-01-10" "Toiletries" "Mixing" "Soap" "KG"
             (Num 500) (Num 400) None None "u1" "2024-01-10 09:00:00" in
  (category d <> "Healthcare" \/ date d = "")
  /\ Dashboard.selectedMonthStats
       (Dashboard.dashboardData Agg.codeUnitCompare Sample.processes
          ([Sample.gel] ++ d :: [Sample.balm])%list "Healthcare" "2024-01")
     = Dashboard.selectedMonthStats
         (Dashboard.dashboardData Agg.codeUnitCompare Sample.processes
            ([Sample.gel] ++ [Sample.balm])%list "Healthcare" "2024-01").
Proof.
  intros d.
  assert (H : category d <> "Healthcare" \/ date d = "") by (left; discriminate).
  split; [exact H|].
  rewrite (proj1 (other_category_has_no_part Agg.codeUnitCompare Sample.processes
                    [Sample.gel] [Sample.balm] d [] "Healthcare" "2024-01" H)).
  reflexivity.
Defined.

(** X17.  The day listing is empty, so that the dashboard shows its
    "no production logs" panel, exactly when the month has neither a
    listed entry of the category nor a listed off-day. *)
Theorem day_listing_empty_iff
    (localeCompare : string -> string -> Z) (PROCESSES : list ProcessType)
    (data : list ProductionEntry) (offDays : list OffDay) (cat : Category)
    (month : string) :
  Dashboard.dailyGroups localeCompare PROCESSES data offDays cat month = []
  <-> (forall d, ~ Agg.listed data cat month d)
      /\ (forall od, ~ Agg.listedOffDay offDays month od).
Proof.
  pose proof (dates_spec localeCompare PROCESSES data offDays cat month) as [_ Hin].
  pose proof (groups_keys localeCompare PROCESSES data offDays cat month) as Hk.
  set (groups := Dashboard.dailyGroups localeCompare PROCESSES data offDays cat month)
    in *.
  assert (Hmem : forall k, In k (map Dashboard.g_date groups)
                           <-> (exists d, Agg.listed data cat month d
                                          /\ Dashboard.dateKey (date d) = k)
                               \/ (exists od, Agg.listedOffDay offDays month od
                                              /\ Dashboard.dateKey (od_date od) = k)).
  { intros k. rewrite <- Hin, Hk. split; intros H.
    - exact (Permutation_in _ (sort_Permutation _ _) H).
    - exact (Permutation_in _ (Permutation_sym (sort_Permutation _ _)) H). }
  split.
  - intros Hnil. rewrite Hnil in Hmem. split.
    + intros d Hd. apply (proj2 (Hmem (Dashboard.dateKey (date d)))).
      left. exists d. split; [assumption|reflexivity].
    + intros od Hod. apply (proj2 (Hmem (Dashboard.dateKey (od_date od)))).
      right. exists od. split; [assumption|reflexivity].
  - intros [Hd Hod]. destruct groups as [|g gs] eqn:E; [reflexivity|]. exfalso.
    destruct (proj1 (Hmem (Dashboard.g_date g)) (or_introl eq_refl))
      as [[d [H _]]|[od [H _]]].
    + exact (Hd d H).
    + exact (Hod od H).
Qed.
